(** * domaindetails-mcp: registry resolution, the RDAP and WHOIS clients,
      the dual-protocol lookup tool and the handler of the server, embedded
      from the JavaScript sources

    Definitions
    - [Js]: the operations on strings the code uses
    - [Regex]: a backtracking matcher for the regular expressions of the code
    - [JsVal]: values, objects, exceptions and results
    - [Net]: what [fetch] can do
    - [RegistryDetector]: [getTLD], [getRdapUrl], [getWhoisServer]
    - [JsDate]: [new Date(s)] and [toISOString]
    - [WhoisClient]: [parseDate], [parseWhoisResponse], [formatApiResponse],
      [enrichFromRawData], [queryWhoisServer], [lookupDomain]
    - [WhoisHtml]: [extractWhoisFromHtml]
    - [RdapClient]: [parseVCard], [parseEntity], [parseRdapResponse],
      [lookupDomain]
    - [DomainLookupTool]: [execute], [formatResult]
    - [McpServer]: the handler of tool calls
    - [Samples], [Cases]: networks, records and texts to run the definitions
      on
    - [HostNames], [Shapes], [Marks]: what the properties speak about

    Properties
    - [RegexFacts], [DateFacts], [JsFacts], [ObjFacts]: the models of the
      runtime
    - [RegistryFacts], [WhoisParseFacts], [EnrichFacts], [RdapFacts],
      [ToolFacts]: the code
    - [AlphabetFacts], [StringFacts], [ObjMore]: more on the runtime
    - [RegistryMore], [ResolveFacts], [RdapParseFacts], [WhoisMore],
      [EnrichMore], [ApiFacts], [ToolMore], [ExecuteFacts], [RunFacts],
      [HtmlFacts]: more on the code

    Strings are sequences of code units; the model covers the code units
    0..255 (Latin-1), which is what the type [ascii] holds. *)

From Stdlib Require Import ZArith Ascii String List Bool Lia.
From stdpp Require Import base strings gmap list pretty.

Set Warnings "-register-all".

(* ===================================================================== *)
(** ** JavaScript strings *)
(* ===================================================================== *)

Module Js.

Definition code (c : ascii) : nat := nat_of_ascii c.

(** WhiteSpace and LineTerminator code points below 256: TAB, LF, VT, FF,
    CR, SP and NBSP. They are what [trim] strips and what [\s] matches. *)
Definition is_space (c : ascii) : bool :=
  let n := code c in
  (n =? 9) || (n =? 10) || (n =? 11) || (n =? 12) || (n =? 13)
  || (n =? 32) || (n =? 160).

(** LineTerminator: the characters [.] does not match. *)
Definition is_line_terminator (c : ascii) : bool :=
  let n := code c in (n =? 10) || (n =? 13).

Definition is_digit (c : ascii) : bool :=
  let n := code c in (48 <=? n) && (n <=? 57).

(** Upper-case letters that have a lower-case partner 32 code units up:
    A-Z and the Latin-1 letters U+00C0..U+00DE without the sign U+00D7. *)
Definition is_upper (c : ascii) : bool :=
  let n := code c in
  ((65 <=? n) && (n <=? 90))
  || ((192 <=? n) && (n <=? 222) && negb (n =? 215)).

Definition is_lower (c : ascii) : bool :=
  let n := code c in
  ((97 <=? n) && (n <=? 122))
  || ((224 <=? n) && (n <=? 254) && negb (n =? 247)).

Definition lower (c : ascii) : ascii :=
  if is_upper c then ascii_of_nat (code c + 32) else c.

Definition upper (c : ascii) : ascii :=
  if is_lower c then ascii_of_nat (code c - 32) else c.

(** [s.toLowerCase()] *)
Fixpoint toLowerCase (s : string) : string :=
  match s with
  | EmptyString => EmptyString
  | String c r => String (lower c) (toLowerCase r)
  end.

Fixpoint trimStart (s : string) : string :=
  match s with
  | EmptyString => EmptyString
  | String c r => if is_space c then trimStart r else s
  end.

(** Drops the white space at the end: a character stays when it is not
    white space or when something stays after it. *)
Fixpoint trimEnd (s : string) : string :=
  match s with
  | EmptyString => EmptyString
  | String c r =>
      match trimEnd r with
      | EmptyString => if is_space c then EmptyString else String c EmptyString
      | r' => String c r'
      end
  end.

(** [s.trim()] *)
Definition trim (s : string) : string := trimEnd (trimStart s).

(** [s.startsWith(p)] *)
Fixpoint startsWith (s p : string) : bool :=
  match p, s with
  | EmptyString, _ => true
  | String _ _, EmptyString => false
  | String a p', String b s' => Ascii.eqb a b && startsWith s' p'
  end.

(** [s.includes(p)] *)
Fixpoint includes (s p : string) : bool :=
  startsWith s p ||
  match s with
  | EmptyString => false
  | String _ r => includes r p
  end.

(** [s.indexOf(c)] for a one-character needle; [None] stands for -1. *)
Fixpoint indexOf (s : string) (c : ascii) : option nat :=
  match s with
  | EmptyString => None
  | String a r =>
      if Ascii.eqb a c then Some 0 else option_map S (indexOf r c)
  end.

Fixpoint take (n : nat) (s : string) : string :=
  match n, s with
  | S n', String c r => String c (take n' r)
  | _, _ => EmptyString
  end.

Fixpoint drop (n : nat) (s : string) : string :=
  match n, s with
  | S n', String _ r => drop n' r
  | _, _ => s
  end.

(** [s.split(c)] for a one-character separator: never the empty list. *)
Fixpoint split (c : ascii) (s : string) : list string :=
  match s with
  | EmptyString => [EmptyString]
  | String a r =>
      if Ascii.eqb a c then EmptyString :: split c r
      else match split c r with
           | [] => [String a EmptyString]
           | w :: ws => String a w :: ws
           end
  end.

(** [l.join(sep)] *)
Fixpoint join (sep : string) (l : list string) : string :=
  match l with
  | [] => EmptyString
  | [x] => x
  | x :: r => x +:+ sep +:+ join sep r
  end.

(** [l.slice(-2)] *)
Definition last2 {A} (l : list A) : list A :=
  skipn (length l - 2) l.

(** [t] occurs in [s] as a contiguous piece. *)
Definition occurs_in (t s : string) : Prop :=
  exists pre post : string, s = pre +:+ t +:+ post.

End Js.

(* ===================================================================== *)
(** ** Regular expressions *)
(* ===================================================================== *)

(** The regular expressions of the sources use literals, [.], classes,
    sequence, alternation, greedy and lazy bounded repetition, [^] and [$]
    (never with the [m] flag) and the flag [i]. The matcher below is the
    backtracking matcher of ECMAScript written with continuations: the first
    alternative that lets the rest of the pattern succeed is the one taken.
    The sources read no group but group 1 of patterns of the shape
    [before(group)after]; such a pattern is kept as its three parts, and the
    parentheses whose text is never read are plain grouping. *)

Module Regex.

Inductive cset :=
| CsChar (c : ascii)
| CsRange (lo hi : ascii)
| CsSpace                      (* \s *)
| CsNotSpace                   (* \S *)
| CsDigit.                     (* \d *)

Inductive regex :=
| Eps
| Lit (c : ascii)
| Dot
| Cls (neg : bool) (items : list cset)
| Cat (a b : regex)
| Alt (a b : regex)
| Rep (lo : nat) (hi : option nat) (greedy : bool) (a : regex)
| Bol                          (* ^ *)
| Eol.                         (* $ *)

(** Canonicalize of the specification, for patterns without the [u] flag. *)
Definition canon (ic : bool) (c : ascii) : ascii :=
  if ic then Js.upper c else c.

Definition in_range (lo hi c : ascii) : bool :=
  (Js.code lo <=? Js.code c) && (Js.code c <=? Js.code hi).

(** Under [i] a class holds [c] when it holds a character with the
    canonical form of [c]: [c] itself or its partner of the other case. *)
Definition cset_has (ic : bool) (it : cset) (c : ascii) : bool :=
  match it with
  | CsChar a => Ascii.eqb (canon ic a) (canon ic c)
  | CsRange lo hi =>
      in_range lo hi c
      || (ic && (in_range lo hi (Js.upper c) || in_range lo hi (Js.lower c)))
  | CsSpace => Js.is_space c
  | CsNotSpace => negb (Js.is_space c)
  | CsDigit => Js.is_digit c
  end.

Definition cls_has (ic neg : bool) (items : list cset) (c : ascii) : bool :=
  xorb neg (existsb (fun it => cset_has ic it c) items).

Definition dec_hi (hi : option nat) : option nat := option_map pred hi.

Definition hi_is_zero (hi : option nat) : bool :=
  match hi with Some 0 => true | _ => false end.

Section Matcher.
Context {A : Type}.
Variable ic : bool.

(** The length of the whole input: the matcher is at index 0 when the input
    left has this length. *)
Variable total : nat.

(** A continuation takes the input left. *)
Definition cont := string -> option A.

Definition one (p : ascii -> bool) (k : cont) (rest : string) : option A :=
  match rest with
  | String c r => if p c then k r else None
  | EmptyString => None
  end.

Definition orelse (x y : option A) : option A :=
  match x with Some _ => x | None => y end.

Section Repeat.
(** The matcher of the repeated pattern, and what follows the repetition. *)
Variable step : cont -> cont.
Variable greedy : bool.
Variable k : cont.

(** RepeatMatcher once the compulsory rounds are done: a round counts only
    when it consumes input, so [String.length rest] rounds are enough. *)
Fixpoint free (fuel : nat) (hi : option nat) (rest : string) : option A :=
  if hi_is_zero hi then k rest else
  match fuel with
  | 0 => k rest
  | S fuel' =>
      let round :=
        step (fun rest' =>
                if String.length rest' <? String.length rest
                then free fuel' (dec_hi hi) rest'
                else None) rest in
      if greedy then orelse round (k rest) else orelse (k rest) round
  end.

(** RepeatMatcher with [lo] compulsory rounds left. *)
Fixpoint forced (lo : nat) (hi : option nat) (rest : string) : option A :=
  match lo with
  | 0 => free (String.length rest) hi rest
  | S lo' =>
      if hi_is_zero hi then k rest
      else step (forced lo' (dec_hi hi)) rest
  end.
End Repeat.

Fixpoint m (r : regex) (k : cont) (rest : string) : option A :=
  match r with
  | Eps => k rest
  | Lit a => one (fun c => Ascii.eqb (canon ic a) (canon ic c)) k rest
  | Dot => one (fun c => negb (Js.is_line_terminator c)) k rest
  | Cls neg items => one (cls_has ic neg items) k rest
  | Cat a b => m a (m b k) rest
  | Alt a b => orelse (m a k rest) (m b k rest)
  | Rep lo hi greedy a => forced (m a) greedy k lo hi rest
  | Bol => if String.length rest =? total then k rest else None
  | Eol => match rest with EmptyString => k rest | _ => None end
  end.

(** RegExpBuiltinExec without the [g] and [y] flags: the first index, from
    the left, at which the pattern matches. *)
Fixpoint scan (at_ : nat -> string -> option A) (pos : nat) (rest : string)
  : option A :=
  match at_ pos rest with
  | Some x => Some x
  | None =>
      match rest with
      | EmptyString => None
      | String _ r => scan at_ (S pos) r
      end
  end.
End Matcher.

(** [re.test(s)] and the truth of [s.match(re)]. *)
Definition test (ic : bool) (r : regex) (s : string) : bool :=
  match scan (fun _ => m ic (String.length s) r (fun _ => Some tt)) 0 s with
  | Some _ => true
  | None => false
  end.

(** A pattern [before(group)after]. *)
Record grouped := { before : regex; group : regex; after : regex }.

(** [s.match(re)] for such a pattern: the index of the match and the text
    of group 1, which is what the input lost between the start and the end of
    the group. *)
Definition exec1 (ic : bool) (p : grouped) (s : string)
  : option (nat * string) :=
  let total := String.length s in
  scan (fun pos =>
          m ic total (before p)
            (fun r1 =>
               m ic total (group p)
                 (fun r2 =>
                    m ic total (after p)
                      (fun _ =>
                         Some (pos,
                               Js.take (String.length r1 - String.length r2) r1))
                      r2)
                 r1))
       0 s.

(** [s.match(re)[1]] when there is a match. *)
Definition match1 (ic : bool) (p : grouped) (s : string) : option string :=
  option_map snd (exec1 ic p s).

(** The index of the first match: [s.search(re)]. *)
Definition search (ic : bool) (r : regex) (s : string) : option nat :=
  scan (fun pos => m ic (String.length s) r (fun _ => Some pos)) 0 s.

(** Two properties of a step of the matcher: it gives the same result with
    continuations that agree everywhere, and it succeeds only through its
    continuation. *)
Definition respects {A} (step : cont (A:=A) -> cont (A:=A)) : Prop :=
  forall k1 k2 : cont, (forall x, k1 x = k2 x) ->
                       forall rest, step k1 rest = step k2 rest.

Definition honest {A} (step : cont (A:=A) -> cont (A:=A)) : Prop :=
  forall k : cont, (forall x, k x = None) -> forall rest, step k rest = None.

(** *** Pattern syntax *)

Fixpoint lit (s : string) : regex :=
  match s with
  | EmptyString => Eps
  | String c EmptyString => Lit c
  | String c r => Cat (Lit c) (lit r)
  end.

Definition star (a : regex) : regex := Rep 0 None true a.
Definition plus (a : regex) : regex := Rep 1 None true a.
Definition lazy_star (a : regex) : regex := Rep 0 None false a.
Definition lazy_plus (a : regex) : regex := Rep 1 None false a.
Definition opt (a : regex) : regex := Rep 0 (Some 1) true a.
Definition times (n : nat) (a : regex) : regex := Rep n (Some n) true a.
Definition between (lo hi : nat) (a : regex) : regex := Rep lo (Some hi) true a.

Definition ws : regex := Cls false [CsSpace].            (* \s *)
Definition digit : regex := Cls false [CsDigit].         (* \d *)
Definition anything : regex := Cls false [CsSpace; CsNotSpace].  (* [\s\S] *)

Fixpoint seq (l : list regex) : regex :=
  match l with
  | [] => Eps
  | [a] => a
  | a :: r => Cat a (seq r)
  end.

End Regex.

(* ===================================================================== *)
(** ** JavaScript values, exceptions and results *)
(* ===================================================================== *)

Module JsVal.

(** The values that flow through the code: what [JSON.parse] produces,
    [undefined], and the objects the code builds. An object keeps its
    properties in insertion order. Numbers are the integers. *)
Inductive value :=
| VUndef
| VNull
| VBool (b : bool)
| VNum (n : Z)
| VStr (s : string)
| VArr (items : list value)
| VObj (props : list (string * value)).

Definition obj := list (string * value).

(** A thrown [Error] object: its [name] and its [message]. *)
Record exn := { exn_name : string; exn_message : string }.

Definition Error (msg : string) : exn :=
  {| exn_name := "Error"; exn_message := msg |}.

(** The engine's own errors (reading a property of [null], calling what is
    not a function); the wording of their messages is the engine's. *)
Definition TypeError (msg : string) : exn :=
  {| exn_name := "TypeError"; exn_message := msg |}.

(** A call either returns or throws. *)
Inductive result (A : Type) :=
| Ok (a : A)
| Throw (e : exn).
Arguments Ok {A} a.
Arguments Throw {A} e.

#[global] Instance result_ret : MRet result := fun A a => Ok a.
#[global] Instance result_bind : MBind result := fun A B f r =>
  match r with
  | Ok a => f a
  | Throw e => Throw e
  end.

(** [try { body } catch (e) { handler }] *)
Definition try_catch {A} (body : result A) (handler : exn -> result A)
  : result A :=
  match body with
  | Ok a => Ok a
  | Throw e => handler e
  end.

(** ToBoolean *)
Definition truthy (v : value) : bool :=
  match v with
  | VUndef | VNull => false
  | VBool b => b
  | VNum n => negb (n =? 0)%Z
  | VStr s => negb (String.eqb s "")
  | VArr _ | VObj _ => true
  end.

(** [a || b] *)
Definition or_else (a b : value) : value := if truthy a then a else b.

Fixpoint lookup (k : string) (props : obj) : value :=
  match props with
  | [] => VUndef
  | (k', v) :: r => if String.eqb k' k then v else lookup k r
  end.

Fixpoint has_key (k : string) (props : obj) : bool :=
  match props with
  | [] => false
  | (k', _) :: r => String.eqb k' k || has_key k r
  end.

(** [o[k] = v] on an object: in place when the key exists, else added at
    the end. *)
Fixpoint set (k : string) (v : value) (props : obj) : obj :=
  match props with
  | [] => [(k, v)]
  | (k', v') :: r =>
      if String.eqb k' k then (k, v) :: r else (k', v') :: set k v r
  end.

(** [delete o[k]] *)
Fixpoint remove (k : string) (props : obj) : obj :=
  match props with
  | [] => []
  | (k', v') :: r =>
      if String.eqb k' k then r else (k', v') :: remove k r
  end.

(** [v.k] for a property name [k] that is no method of a prototype: own
    properties of objects, [length] of arrays and strings, [undefined]
    otherwise; reading a property of [undefined] or [null] throws. *)
Definition get (v : value) (k : string) : result value :=
  match v with
  | VUndef => Throw (TypeError ("Cannot read properties of undefined (reading '" +:+ k +:+ "')"))
  | VNull => Throw (TypeError ("Cannot read properties of null (reading '" +:+ k +:+ "')"))
  | VObj props => Ok (lookup k props)
  | VArr items =>
      Ok (if String.eqb k "length" then VNum (Z.of_nat (length items)) else VUndef)
  | VStr s =>
      Ok (if String.eqb k "length" then VNum (Z.of_nat (String.length s)) else VUndef)
  | VBool _ | VNum _ => Ok VUndef
  end.

(** [const { k, ... } = name] for the first property [k] of the pattern:
    the property [k] of the value [v] of the variable [name]. Destructuring
    [undefined] or [null] throws, and the message names the property and
    the variable. *)
Definition destructure (name : string) (v : value) (k : string)
  : result value :=
  match v with
  | VUndef =>
      Throw (TypeError ("Cannot destructure property '" +:+ k +:+ "' of '"
                        +:+ name +:+ "' as it is undefined."))
  | VNull =>
      Throw (TypeError ("Cannot destructure property '" +:+ k +:+ "' of '"
                        +:+ name +:+ "' as it is null."))
  | _ => get v k
  end.

(** [v?.k] *)
Definition get_opt (v : value) (k : string) : value :=
  match get v k with
  | Ok x => x
  | Throw _ => VUndef
  end.

(** [v[i]] for an index [i]. *)
Definition at_index (v : value) (i : nat) : result value :=
  match v with
  | VUndef => Throw (TypeError "Cannot read properties of undefined")
  | VNull => Throw (TypeError "Cannot read properties of null")
  | VArr items => Ok (nth i items VUndef)
  | VStr s =>
      Ok (match String.get i s with
          | Some c => VStr (String c EmptyString)
          | None => VUndef
          end)
  | VObj props => Ok (lookup (pretty i) props)
  | VBool _ | VNum _ => Ok VUndef
  end.

(** [Array.isArray(v)] *)
Definition isArray (v : value) : bool :=
  match v with VArr _ => true | _ => false end.

(** [x > n] and [x === n] for a number [n] and an [x] that is a number;
    an [x] of another type compares as [NaN] does ([false]): conversion of
    strings and objects to numbers is not part of the model. *)
Definition gt_num (x : value) (n : Z) : bool :=
  match x with VNum k => (n <? k)%Z | _ => false end.

Definition is_num (x : value) (n : Z) : bool :=
  match x with VNum k => (k =? n)%Z | _ => false end.

(** [=== s] for a string [s] *)
Definition is_str (x : value) (s : string) : bool :=
  match x with VStr t => String.eqb t s | _ => false end.

(** [Object.keys(o).length === 0] *)
Definition no_keys (props : obj) : bool :=
  match props with [] => true | _ => false end.

End JsVal.

(* ===================================================================== *)
(** ** The network *)
(* ===================================================================== *)

Module Net.
Import JsVal.

(** What [await fetch(url, ...)] does: it rejects (no connection, abort,
    timeout) or resolves to a response with a status line and a body;
    [body] is what [await response.json()] does with it. *)
Inductive fetched :=
| Rejected (e : exn)
| Response (status : Z) (statusText : string) (body : result value).

(** [response.ok] *)
Definition ok (status : Z) : bool := ((200 <=? status) && (status <=? 299))%Z.

(** [AbortSignal.timeout] aborts the fetch with a [TimeoutError]. *)
Definition TimeoutError : exn :=
  {| exn_name := "TimeoutError";
     exn_message := "The operation was aborted due to timeout" |}.

(** The IANA bootstrap file, when the fetch of it succeeds with a status
    2xx and a body in the published format [{services: [[tlds, urls], ..]}];
    [None] stands for every other course of that fetch. *)
Definition services := list (list string * list string).

Record network := {
  fetch : string -> fetched;
  bootstrap : option services
}.
End Net.

(* ===================================================================== *)
(** ** RegistryDetector (registry-detector.js) *)
(* ===================================================================== *)

Module RegistryDetector.
Import JsVal Net.

(** [this.rdapBootstrap] as the constructor fills it. *)
Definition rdapBootstrap : gmap string string :=
  list_to_map [
    ("com", "https://rdap.verisign.com/com/v1/");
    ("net", "https://rdap.verisign.com/net/v1/");
    ("org", "https://rdap.pir.org/");
    ("info", "https://rdap.afilias.info/rdap/");
    ("biz", "https://rdap.afilias.info/rdap/");
    ("name", "https://rdap.verisign.com/name/v1/");
    ("pro", "https://rdap.afilias.info/rdap/");
    ("uk", "https://rdap.nominet.uk/");
    ("co.uk", "https://rdap.nominet.uk/");
    ("org.uk", "https://rdap.nominet.uk/");
    ("me.uk", "https://rdap.nominet.uk/");
    ("ltd.uk", "https://rdap.nominet.uk/");
    ("plc.uk", "https://rdap.nominet.uk/");
    ("ca", "https://rdap.cira.ca/");
    ("au", "https://rdap.auda.org.au/");
    ("com.au", "https://rdap.auda.org.au/");
    ("net.au", "https://rdap.auda.org.au/");
    ("org.au", "https://rdap.auda.org.au/");
    ("edu.au", "https://rdap.auda.org.au/");
    ("de", "https://rdap.denic.de/");
    ("fr", "https://rdap.nic.fr/");
    ("nl", "https://rdap.sidn.nl/");
    ("be", "https://rdap.dns.be/");
    ("ch", "https://rdap.nic.ch/");
    ("at", "https://rdap.nic.at/");
    ("it", "https://rdap.nic.it/");
    ("es", "https://rdap.nic.es/");
    ("se", "https://rdap.iis.se/");
    ("no", "https://rdap.norid.no/");
    ("dk", "https://rdap.dk-hostmaster.dk/");
    ("fi", "https://rdap.ficora.fi/");
    ("ie", "https://rdap.weare.ie/");
    ("pl", "https://rdap.dns.pl/");
    ("cz", "https://rdap.nic.cz/");
    ("sk", "https://rdap.sk-nic.sk/");
    ("hu", "https://rdap.nic.hu/");
    ("ro", "https://rdap.rotld.ro/");
    ("bg", "https://rdap.register.bg/");
    ("hr", "https://rdap.dns.hr/");
    ("si", "https://rdap.register.si/");
    ("lv", "https://rdap.nic.lv/");
    ("lt", "https://rdap.domreg.lt/");
    ("ee", "https://rdap.internet.ee/");
    ("xyz", "https://rdap.centralnic.com/xyz/");
    ("top", "https://rdap.nic.top/");
    ("site", "https://rdap.centralnic.com/site/");
    ("online", "https://rdap.centralnic.com/online/");
    ("tech", "https://rdap.nic.tech/");
    ("store", "https://rdap.nic.store/");
    ("app", "https://rdap.charleston.com/");
    ("dev", "https://rdap.charleston.com/");
    ("io", "https://rdap.nic.io/");
    ("ai", "https://rdap.nic.ai/");
    ("co", "https://rdap.nic.co/");
    ("me", "https://rdap.nic.me/");
    ("tv", "https://rdap.nic.tv/");
    ("cc", "https://rdap.nic.cc/")
  ].

Definition commonSecondLevel : gset string :=
  list_to_set [
    "co.uk"; "org.uk"; "me.uk"; "ltd.uk"; "plc.uk";
    "com.au"; "net.au"; "org.au"; "edu.au";
    "co.nz"; "net.nz"; "org.nz";
    "co.za"; "net.za"; "org.za";
    "co.in"; "net.in"; "org.in";
    "com.br"; "net.br"; "org.br";
    "co.jp"; "or.jp"; "ne.jp"
  ].

(** [getTLD(domain)] for a string [domain]. *)
Definition getTLD (domain : string) : result string :=
  if String.eqb domain "" then Throw (Error "Invalid domain provided") else
  let parts := Js.split "." (Js.toLowerCase domain) in
  if length parts <? 2 then Throw (Error "Invalid domain format") else
  let secondLevel := Js.join "." (Js.last2 parts) in
  if (3 <=? length parts) && bool_decide (secondLevel ∈ commonSecondLevel)
  then Ok secondLevel
  else Ok (List.last parts "").

(** [getRdapUrl(domain)]: the URL or [null], and the bootstrap map after
    the call. *)
Definition getRdapUrl (net : network) (cache : gmap string string)
    (domain : string) : result (option string * gmap string string) :=
  tld ← getTLD domain;
  match cache !! tld with
  | Some url => Ok (Some url, cache)
  | None =>
      match net.(bootstrap) with
      | Some svcs =>
          match List.find (fun s => existsb (String.eqb tld) (fst s)
                                    && (0 <? length (snd s))) svcs with
          | Some (_, url :: _) => Ok (Some url, <[tld := url]> cache)
          | _ => Ok (None, cache)
          end
      | None => Ok (None, cache)
      end
  end.

Definition whoisServers : gmap string string :=
  list_to_map [
    ("com", "whois.verisign-grs.com");
    ("net", "whois.verisign-grs.com");
    ("org", "whois.pir.org");
    ("info", "whois.afilias.net");
    ("biz", "whois.afilias.net");
    ("name", "whois.nic.name");
    ("pro", "whois.afilias.net");
    ("uk", "whois.nic.uk");
    ("co.uk", "whois.nic.uk");
    ("org.uk", "whois.nic.uk");
    ("me.uk", "whois.nic.uk");
    ("ltd.uk", "whois.nic.uk");
    ("plc.uk", "whois.nic.uk");
    ("ca", "whois.cira.ca");
    ("au", "whois.aunic.net");
    ("com.au", "whois.aunic.net");
    ("net.au", "whois.aunic.net");
    ("org.au", "whois.aunic.net");
    ("edu.au", "whois.aunic.net");
    ("de", "whois.denic.de");
    ("fr", "whois.nic.fr");
    ("nl", "whois.domain-registry.nl");
    ("be", "whois.dns.be");
    ("ch", "whois.nic.ch");
    ("at", "whois.nic.at");
    ("it", "whois.nic.it");
    ("es", "whois.nic.es");
    ("se", "whois.iis.se");
    ("no", "whois.norid.no");
    ("dk", "whois.dk-hostmaster.dk");
    ("fi", "whois.ficora.fi");
    ("ie", "whois.weare.ie");
    ("pl", "whois.dns.pl");
    ("cz", "whois.nic.cz");
    ("sk", "whois.sk-nic.sk");
    ("hu", "whois.nic.hu");
    ("ro", "whois.rotld.ro");
    ("bg", "whois.register.bg");
    ("hr", "whois.dns.hr");
    ("si", "whois.register.si");
    ("lv", "whois.nic.lv");
    ("lt", "whois.domreg.lt");
    ("ee", "whois.tld.ee");
    ("xyz", "whois.nic.xyz");
    ("top", "whois.nic.top");
    ("site", "whois.centralnic.com");
    ("online", "whois.centralnic.com");
    ("tech", "whois.nic.tech");
    ("store", "whois.nic.store");
    ("io", "whois.nic.io");
    ("ai", "whois.nic.ai");
    ("co", "whois.nic.co");
    ("me", "whois.nic.me");
    ("tv", "whois.nic.tv");
    ("cc", "whois.nic.cc")
  ].

Definition defaultWhoisServer : string := "whois.iana.org".

(** [getWhoisServer(domain)]: [whoisServers.get(tld) || 'whois.iana.org'].
    It takes no network. *)
Definition getWhoisServer (domain : string) : result string :=
  tld ← getTLD domain;
  match whoisServers !! tld with
  | Some s => Ok (if String.eqb s "" then defaultWhoisServer else s)
  | None => Ok defaultWhoisServer
  end.

(** The format check both clients apply to the cleaned domain:
    [/^[a-z0-9]([a-z0-9-]{0,61}[a-z0-9])?(\.[a-z0-9]([a-z0-9-]{0,61}[a-z0-9])?)*$/i] *)
Definition domainFormat : Regex.regex :=
  let alnum := Regex.Cls false [Regex.CsRange "a" "z"; Regex.CsRange "0" "9"] in
  let inner := Regex.Cls false [Regex.CsRange "a" "z"; Regex.CsRange "0" "9";
                                Regex.CsChar "-"] in
  let label := Regex.Cat alnum
                 (Regex.opt (Regex.Cat (Regex.between 0 61 inner) alnum)) in
  Regex.seq [Regex.Bol; label;
             Regex.star (Regex.Cat (Regex.Lit ".") label); Regex.Eol].

End RegistryDetector.

(* ===================================================================== *)
(** ** Dates *)
(* ===================================================================== *)

(** A time value is a number of milliseconds since 1970-01-01T00:00:00Z;
    [None] stands for [NaN], the time value of an invalid [Date]. *)

Module JsDate.

Definition msPerDay : Z := 86400000.
Definition maxTime : Z := 8640000000000000.

Definition isLeap (y : Z) : bool :=
  ((y mod 4 =? 0) && (negb (y mod 100 =? 0) || (y mod 400 =? 0)))%Z.

Definition daysInMonth (y m : Z) : Z :=
  if (m =? 2)%Z then (if isLeap y then 29 else 28)
  else if ((m =? 4) || (m =? 6) || (m =? 9) || (m =? 11))%Z then 30
  else 31.

(** The day number of a civil date (proleptic Gregorian calendar);
    day 0 is 1970-01-01. *)
Definition dayFromCivil (y m d : Z) : Z :=
  let y' := (if m <=? 2 then y - 1 else y)%Z in
  let era := (y' / 400)%Z in
  let yoe := (y' - era * 400)%Z in
  let mp := (if 2 <? m then m - 3 else m + 9)%Z in
  let doy := ((153 * mp + 2) / 5 + d - 1)%Z in
  let doe := (yoe * 365 + yoe / 4 - yoe / 100 + doy)%Z in
  (era * 146097 + doe - 719468)%Z.

(** The civil date of a day number. *)
Definition civilFromDay (day : Z) : Z * Z * Z :=
  let z := (day + 719468)%Z in
  let era := (z / 146097)%Z in
  let doe := (z - era * 146097)%Z in
  let yoe := ((doe - doe / 1460 + doe / 36524 - doe / 146096) / 365)%Z in
  let doy := (doe - (365 * yoe + yoe / 4 - yoe / 100))%Z in
  let mp := ((5 * doy + 2) / 153)%Z in
  let d := (doy - (153 * mp + 2) / 5 + 1)%Z in
  let m := (if mp <? 10 then mp + 3 else mp - 9)%Z in
  let y := (yoe + era * 400 + (if m <=? 2 then 1 else 0))%Z in
  (y, m, d).

(** TimeClip *)
Definition timeClip (t : Z) : option Z :=
  if (Z.abs t <=? maxTime)%Z then Some t else None.

Definition digitValue (c : ascii) : Z := Z.of_nat (Js.code c - 48).

Fixpoint number (acc : Z) (s : string) : Z :=
  match s with
  | EmptyString => acc
  | String c r => number (acc * 10 + digitValue c) r
  end.

Definition allDigits (s : string) : bool :=
  forallb Js.is_digit (list_ascii_of_string s).

(** The fields of a string of the form [YYYY-MM-DD], the date-only form of
    the date-time string format. *)
Definition dateOnly (s : string) : option (Z * Z * Z) :=
  let y := Js.take 4 s in
  let m := Js.take 2 (Js.drop 5 s) in
  let d := Js.take 2 (Js.drop 8 s) in
  if (String.length s =? 10)
     && allDigits y && allDigits m && allDigits d
     && String.eqb (Js.take 1 (Js.drop 4 s)) "-"
     && String.eqb (Js.take 1 (Js.drop 7 s)) "-"
  then Some (number 0 y, number 0 m, number 0 d)
  else None.

(** What the engine is free to decide: the time value it gives to a string
    that is not of the date-only form, and to a string of that form whose
    month or day the calendar does not have (a month outside 1..12, a day
    outside 1..31, or a day 29, 30 or 31 its month does not have): the
    date-time string format does not cover it, and an engine may fall back
    to a format of its own. *)
Record engine := { parseOther : string -> option Z }.

(** The time value of [new Date(s)] for a string [s]. A date-only string
    that names a day of the calendar is midnight UTC of that day; every
    other string is left to the engine. *)
Definition parse (eng : engine) (s : string) : option Z :=
  match dateOnly s with
  | Some (y, m, d) =>
      if ((1 <=? m) && (m <=? 12) && (1 <=? d) && (d <=? 31))%Z then
        if (d <=? daysInMonth y m)%Z
        then timeClip (dayFromCivil y m d * msPerDay)
        else t ← eng.(parseOther) s; timeClip t
      else t ← eng.(parseOther) s; timeClip t
  | None => t ← eng.(parseOther) s; timeClip t
  end.

(** [w] decimal digits of [n], the most significant first. *)
Fixpoint pad (w : nat) (n : Z) : string :=
  match w with
  | 0 => EmptyString
  | S w' =>
      pad w' (n / 10)
      +:+ String (ascii_of_nat (48 + Z.to_nat (n mod 10))) EmptyString
  end.

Definition yearString (y : Z) : string :=
  if ((0 <=? y) && (y <=? 9999))%Z then pad 4 y
  else (if (y <? 0)%Z then "-" else "+") +:+ pad 6 (Z.abs y).

(** [date.toISOString()] for a valid date of time value [t]. *)
Definition toISOString (t : Z) : string :=
  let day := (t / msPerDay)%Z in
  let ms := (t mod msPerDay)%Z in
  let '(y, m, d) := civilFromDay day in
  yearString y +:+ "-" +:+ pad 2 m +:+ "-" +:+ pad 2 d +:+ "T"
  +:+ pad 2 (ms / 3600000) +:+ ":" +:+ pad 2 (ms / 60000 mod 60) +:+ ":"
  +:+ pad 2 (ms / 1000 mod 60) +:+ "." +:+ pad 3 (ms mod 1000) +:+ "Z".

(** The date-only string of a civil date of the years 0 to 9999. *)
Definition isoDate (y m d : Z) : string :=
  pad 4 y +:+ "-" +:+ pad 2 m +:+ "-" +:+ pad 2 d.

(** The character of a decimal digit. *)
Definition digitChar (k : Z) : ascii := ascii_of_nat (48 + Z.to_nat k).

Definition sameDate (a b : Z * Z * Z) : bool :=
  let '(a1, a2, a3) := a in
  let '(b1, b2, b3) := b in
  ((a1 =? b1) && (a2 =? b2) && (a3 =? b3))%Z.

End JsDate.

(* ===================================================================== *)
(** ** WhoisClient (whois.js) *)
(* ===================================================================== *)

Module WhoisClient.
Import JsVal Net Regex.

Definition nl : ascii := "010"%char.
Definition cr : ascii := "013"%char.

(** *** [parseDate] *)

Definition dateFormats : list regex := [
  seq [times 4 digit; Lit "-"; times 2 digit; Lit "-"; times 2 digit];
  seq [times 2 digit; Lit "-"; times 2 digit; Lit "-"; times 4 digit];
  seq [times 4 digit; Lit "."; times 2 digit; Lit "."; times 2 digit];
  seq [times 2 digit; Lit "."; times 2 digit; Lit "."; times 4 digit]
].

(** The loop over [formats]: a format that matches hands the whole string
    to [new Date]; a valid date ends the loop. *)
Fixpoint parseDateLoop (eng : JsDate.engine) (formats : list regex)
    (dateString : string) : string :=
  match formats with
  | [] => dateString
  | format :: rest =>
      if test false format dateString then
        match JsDate.parse eng dateString with
        | Some t => JsDate.toISOString t
        | None => parseDateLoop eng rest dateString
        end
      else parseDateLoop eng rest dateString
  end.

Definition parseDate (eng : JsDate.engine) (dateString : string) : value :=
  if String.eqb dateString "" then VNull
  else VStr (parseDateLoop eng dateFormats dateString).

(** *** [parseWhoisResponse] *)

(** The fields of [result] the loop over the lines writes. *)
Record parsed := {
  p_registrar : value;
  p_registrant : option obj;
  p_adminContact : option obj;
  p_techContact : option obj;
  p_nameservers : list string;
  p_status : list string;
  p_dates : obj;
  p_dnssec : value
}.

Definition parsed0 : parsed := {|
  p_registrar := VNull; p_registrant := None; p_adminContact := None;
  p_techContact := None; p_nameservers := []; p_status := [];
  p_dates := []; p_dnssec := VNull |}.

(** [if (!o) o = {}; o.k = v] *)
Definition put (o : option obj) (k : string) (v : string) : option obj :=
  Some (set k (VStr v) (default [] o)).

Definition key_in (key : string) (cases : list string) : bool :=
  existsb (String.eqb key) cases.

(** The [switch (key)]. *)
Definition route (eng : JsDate.engine) (key val : string) (r : parsed)
  : parsed :=
  if key_in key ["registrar"; "sponsoring registrar"] then
    {| p_registrar := VStr val; p_registrant := r.(p_registrant);
       p_adminContact := r.(p_adminContact); p_techContact := r.(p_techContact);
       p_nameservers := r.(p_nameservers); p_status := r.(p_status);
       p_dates := r.(p_dates); p_dnssec := r.(p_dnssec) |}
  else if key_in key ["registrant"; "registrant organization"; "registrant org"] then
    {| p_registrar := r.(p_registrar);
       p_registrant := put r.(p_registrant) "organization" val;
       p_adminContact := r.(p_adminContact); p_techContact := r.(p_techContact);
       p_nameservers := r.(p_nameservers); p_status := r.(p_status);
       p_dates := r.(p_dates); p_dnssec := r.(p_dnssec) |}
  else if key_in key ["registrant name"] then
    {| p_registrar := r.(p_registrar);
       p_registrant := put r.(p_registrant) "name" val;
       p_adminContact := r.(p_adminContact); p_techContact := r.(p_techContact);
       p_nameservers := r.(p_nameservers); p_status := r.(p_status);
       p_dates := r.(p_dates); p_dnssec := r.(p_dnssec) |}
  else if key_in key ["registrant email"] then
    {| p_registrar := r.(p_registrar);
       p_registrant := put r.(p_registrant) "email" val;
       p_adminContact := r.(p_adminContact); p_techContact := r.(p_techContact);
       p_nameservers := r.(p_nameservers); p_status := r.(p_status);
       p_dates := r.(p_dates); p_dnssec := r.(p_dnssec) |}
  else if key_in key ["admin email"; "administrative contact email"] then
    {| p_registrar := r.(p_registrar); p_registrant := r.(p_registrant);
       p_adminContact := put r.(p_adminContact) "email" val;
       p_techContact := r.(p_techContact);
       p_nameservers := r.(p_nameservers); p_status := r.(p_status);
       p_dates := r.(p_dates); p_dnssec := r.(p_dnssec) |}
  else if key_in key ["tech email"; "technical contact email"] then
    {| p_registrar := r.(p_registrar); p_registrant := r.(p_registrant);
       p_adminContact := r.(p_adminContact);
       p_techContact := put r.(p_techContact) "email" val;
       p_nameservers := r.(p_nameservers); p_status := r.(p_status);
       p_dates := r.(p_dates); p_dnssec := r.(p_dnssec) |}
  else if key_in key ["name server"; "nameserver"; "nserver"] then
    {| p_registrar := r.(p_registrar); p_registrant := r.(p_registrant);
       p_adminContact := r.(p_adminContact); p_techContact := r.(p_techContact);
       p_nameservers :=
         (if existsb (String.eqb (Js.toLowerCase val)) r.(p_nameservers)
          then r.(p_nameservers)
          else r.(p_nameservers) ++ [Js.toLowerCase val]);
       p_status := r.(p_status);
       p_dates := r.(p_dates); p_dnssec := r.(p_dnssec) |}
  else if key_in key ["domain status"; "status"] then
    {| p_registrar := r.(p_registrar); p_registrant := r.(p_registrant);
       p_adminContact := r.(p_adminContact); p_techContact := r.(p_techContact);
       p_nameservers := r.(p_nameservers); p_status := r.(p_status) ++ [val];
       p_dates := r.(p_dates); p_dnssec := r.(p_dnssec) |}
  else if key_in key ["creation date"; "created"; "registered"] then
    {| p_registrar := r.(p_registrar); p_registrant := r.(p_registrant);
       p_adminContact := r.(p_adminContact); p_techContact := r.(p_techContact);
       p_nameservers := r.(p_nameservers); p_status := r.(p_status);
       p_dates := set "created" (parseDate eng val) r.(p_dates);
       p_dnssec := r.(p_dnssec) |}
  else if key_in key ["expiry date"; "expires"; "expiration date"] then
    {| p_registrar := r.(p_registrar); p_registrant := r.(p_registrant);
       p_adminContact := r.(p_adminContact); p_techContact := r.(p_techContact);
       p_nameservers := r.(p_nameservers); p_status := r.(p_status);
       p_dates := set "expires" (parseDate eng val) r.(p_dates);
       p_dnssec := r.(p_dnssec) |}
  else if key_in key ["updated date"; "last modified"; "changed"] then
    {| p_registrar := r.(p_registrar); p_registrant := r.(p_registrant);
       p_adminContact := r.(p_adminContact); p_techContact := r.(p_techContact);
       p_nameservers := r.(p_nameservers); p_status := r.(p_status);
       p_dates := set "updated" (parseDate eng val) r.(p_dates);
       p_dnssec := r.(p_dnssec) |}
  else if key_in key ["dnssec"] then
    {| p_registrar := r.(p_registrar); p_registrant := r.(p_registrant);
       p_adminContact := r.(p_adminContact); p_techContact := r.(p_techContact);
       p_nameservers := r.(p_nameservers); p_status := r.(p_status);
       p_dates := r.(p_dates); p_dnssec := VStr (Js.toLowerCase val) |}
  else r.

(** One round of [for (let line of lines)]. *)
Definition parseLine (eng : JsDate.engine) (r : parsed) (line0 : string)
  : parsed :=
  let line := Js.trim line0 in
  if String.eqb line "" || Js.startsWith line "%" || Js.startsWith line ">>"
  then r
  else match Js.indexOf line ":" with
       | None => r
       | Some colonIndex =>
           let key := Js.toLowerCase (Js.trim (Js.take colonIndex line)) in
           let val := Js.trim (Js.drop (S colonIndex) line) in
           if String.eqb val "" then r else route eng key val r
       end.

Definition parseLines (eng : JsDate.engine) (whoisText : string) : parsed :=
  fold_left (parseLine eng) (Js.split nl whoisText) parsed0.

(** [if (o && Object.keys(o).length === 0) o = null], then the value. *)
Definition contact (o : option obj) : value :=
  match o with
  | Some props => if no_keys props then VNull else VObj props
  | None => VNull
  end.

Definition strings (l : list string) : value := VArr (map VStr l).

(** [parseWhoisResponse(whoisText, domain)]: the object it returns. A
    [whoisText] that is truthy and no string has no [split] to call. *)
Definition parseWhoisResponse (eng : JsDate.engine) (whoisText : value)
    (domain : string) : result obj :=
  if negb (truthy whoisText) then
    Ok [("domain", VStr domain); ("found", VBool false);
        ("source", VStr "whois");
        ("error", VStr "No WHOIS data available")]
  else match whoisText with
       | VStr text =>
           let r := parseLines eng text in
           Ok [("domain", VStr domain); ("found", VBool true);
               ("source", VStr "whois"); ("rawData", VStr text);
               ("registrar", r.(p_registrar));
               ("registrant", contact r.(p_registrant));
               ("adminContact", contact r.(p_adminContact));
               ("techContact", contact r.(p_techContact));
               ("billingContact", VNull);
               ("nameservers", strings r.(p_nameservers));
               ("status", strings r.(p_status));
               ("dates", VObj r.(p_dates));
               ("dnssec", r.(p_dnssec))]
       | _ => Throw (TypeError "whoisText.split is not a function")
       end.

(** *** [formatApiResponse] and [enrichFromRawData] *)

(** The [result] object [formatApiResponse] builds and [enrichFromRawData]
    updates. [additionalInfo] is [None] while the object has no such
    property. *)
Record record := {
  domain : string;
  rawData : value;
  registrar : value;
  registrant : value;
  nameservers : value;
  status : list value;
  dates : obj;
  dnssec : value;
  whoisServer : value;
  additionalInfo : option obj
}.

(** [/label\s*(.+)/i] *)
Definition labelled (label : string) : grouped :=
  {| before := Cat (lit label) (star ws); group := plus Dot; after := Eps |}.

Definition datePatterns : list (string * list grouped) := [
  ("created", [labelled "Registered on:"; labelled "Creation date:";
               labelled "Created:"; labelled "Registration date:"]);
  ("expires", [labelled "Expiry date:"; labelled "Expires:";
               labelled "Expiration date:"; labelled "Registry Expiry Date:"]);
  ("updated", [labelled "Last updated:"; labelled "Last modified:";
               labelled "Updated date:"; labelled "Last Changed:"])
].

(** [(?:\n\s*\n|\n\s*WHOIS|$)] *)
Definition blockEnd : regex :=
  Alt (seq [Lit nl; star ws; Lit nl])
      (Alt (seq [Lit nl; star ws; lit "WHOIS"]) Eol).

Definition nameserverPatterns : list grouped := [
  {| before := seq [lit "Name server"; opt (Lit "s"); Lit ":"; star ws];
     group := lazy_star anything; after := blockEnd |};
  {| before := seq [lit "DNS:"; star ws];
     group := lazy_star anything; after := blockEnd |}
].

Definition statusPatterns : list grouped := [
  labelled "Registration status:"; labelled "Status:";
  labelled "Domain status:"
].

Definition registrarPatterns : list grouped := [
  {| before := seq [lit "Registrar:"; star ws]; group := lazy_plus Dot;
     after := Alt (Lit "[") (Alt (lit "URL:") Eol) |};
  labelled "Sponsoring Registrar:"
].

(** Each pattern with [pattern.source.includes('Organization')]. *)
Definition registrantPatterns : list (bool * grouped) := [
  (false, labelled "Registrant:");
  (true, labelled "Registrant Organization:");
  (false, labelled "Registrant Name:")
].

Definition whoisServerPattern : grouped := labelled "Whois Server:".

(** [/URL:\s*(https?:\/\/[^\s\r\n]+)/i] *)
Definition urlPattern : grouped :=
  {| before := seq [lit "URL:"; star ws];
     group := seq [lit "http"; opt (Lit "s"); lit "://";
                   plus (Cls true [CsSpace; CsChar cr; CsChar nl])];
     after := Eps |}.

(** [/Data validation:\s*([\s\S]*?)(?:\n\s*\n|\n\s*[A-Z])/i] *)
Definition validationPattern : grouped :=
  {| before := seq [lit "Data validation:"; star ws];
     group := lazy_star anything;
     after := Alt (seq [Lit nl; star ws; Lit nl])
                  (seq [Lit nl; star ws; Cls false [CsRange "A" "Z"]]) |}.

(** [for (const pattern of patterns) { const match = rawData.match(pattern);
    if (match) { ... break; } }]: the first pattern of the list that
    matches, with its tag and [match[1]]. *)
Fixpoint firstMatch {T} (patterns : list (T * grouped)) (rawData : string)
  : option (T * string) :=
  match patterns with
  | [] => None
  | (tag, pattern) :: rest =>
      match match1 true pattern rawData with
      | Some g => Some (tag, g)
      | None => firstMatch rest rawData
      end
  end.

Definition untagged (patterns : list grouped) : list (unit * grouped) :=
  map (fun p => (tt, p)) patterns.

(** The dates: one round of [for (const [type, patterns] of ...)]. *)
Definition enrichDate (rawData : string) (ds : obj)
    (entry : string * list grouped) : obj :=
  let '(type, patterns) := entry in
  if negb (truthy (lookup type ds)) then
    match firstMatch (untagged patterns) rawData with
    | Some (_, g) => set type (VStr (Js.trim g)) ds
    | None => ds
    end
  else ds.

Definition enrichDates (rawData : string) (ds : obj) : obj :=
  fold_left (enrichDate rawData) datePatterns ds.

(** [line.split(/\s+/)[0]] *)
Definition firstToken (line : string) : string :=
  match search false (plus ws) line with
  | Some i => Js.take i line
  | None => line
  end.

(** The two [filter] callbacks. *)
Definition keepLine (line : string) : bool :=
  negb (String.eqb line "") && negb (Js.startsWith line "-")
  && negb (Js.startsWith line "This").

Definition keepHost (ns : string) : bool :=
  negb (String.eqb ns "") && Js.includes ns "." && (3 <? String.length ns).

(** The candidate hostnames of a matched block, before [slice]. *)
Definition candidates (block : string) : list string :=
  List.filter keepHost
    (map firstToken
       (List.filter keepLine (map Js.trim (Js.split nl block)))).

(** [.slice(0, 10)] *)
Definition blockNameservers (block : string) : list string :=
  firstn 10 (candidates block).

(** The loop over [nameserverPatterns]: it ends at the first pattern whose
    block holds a hostname. *)
Fixpoint nameserversLoop (patterns : list grouped) (rawData : string)
  : option (list string) :=
  match patterns with
  | [] => None
  | pattern :: rest =>
      match match1 true pattern rawData with
      | Some block =>
          match blockNameservers block with
          | [] => nameserversLoop rest rawData
          | ns => Some ns
          end
      | None => nameserversLoop rest rawData
      end
  end.

(** [!result.nameservers || result.nameservers.length === 0] *)
Definition noNameservers (ns : value) : bool :=
  negb (truthy ns) || is_num (get_opt ns "length") 0.

Definition enrichNameservers (rawData : string) (ns : value) : value :=
  if noNameservers ns then
    match nameserversLoop nameserverPatterns rawData with
    | Some l => strings l
    | None => ns
    end
  else ns.

Definition enrichStatus (rawData : string) (st : list value) : list value :=
  match firstMatch (untagged statusPatterns) rawData with
  | Some (_, g) =>
      let statusText := Js.trim g in
      if existsb (fun v => is_str v statusText) st then st
      else st ++ [VStr statusText]
  | None => st
  end.

Definition enrichRegistrar (rawData : string) (r : value) : value :=
  if negb (truthy r) then
    match firstMatch (untagged registrarPatterns) rawData with
    | Some (_, g) => VStr (Js.trim g)
    | None => r
    end
  else r.

(** [o.k = v] in strict code, for a truthy [o]: a property of an object is
    set; an array takes the property without a change to its elements;
    a primitive value refuses it. *)
Definition assign (o : value) (k : string) (v : value) : result value :=
  match o with
  | VObj props => Ok (VObj (set k v props))
  | VArr items => Ok (VArr items)
  | _ => Throw (TypeError ("Cannot create property '" +:+ k +:+ "'"))
  end.

(** The values [assign] takes a property on, once [if (!o) o = {}] has
    run: the falsy ones and the objects. *)
Definition settable (o : value) : bool :=
  negb (truthy o) || match o with VObj _ | VArr _ => true | _ => false end.

Definition enrichRegistrant (rawData : string) (r : value) : result value :=
  match firstMatch registrantPatterns rawData with
  | Some (organization, g) =>
      let r := if negb (truthy r) then VObj [] else r in
      if negb (truthy (get_opt r "name"))
         && negb (truthy (get_opt r "organization"))
      then assign r (if organization then "organization" else "name")
                  (VStr (Js.trim g))
      else Ok r
  | None => Ok r
  end.

Definition enrichWhoisServer (rawData : string) (w : value) : value :=
  if negb (truthy w) then
    match match1 true whoisServerPattern rawData with
    | Some g => VStr (Js.trim g)
    | None => w
    end
  else w.

(** [result.additionalInfo = {}; ...; delete] when it stays empty. *)
Definition enrichAdditionalInfo (rawData : string) : option obj :=
  let info := [] in
  let info := match match1 true urlPattern rawData with
              | Some g => set "registrarUrl" (VStr g) info
              | None => info
              end in
  let info := match match1 true validationPattern rawData with
              | Some g => set "dataValidation" (VStr (Js.trim g)) info
              | None => info
              end in
  if no_keys info then None else Some info.

Definition enrichFromRawData (result : record) (rawData : string)
  : JsVal.result record :=
  let ds := enrichDates rawData result.(dates) in
  let ns := enrichNameservers rawData result.(nameservers) in
  let st := enrichStatus rawData result.(status) in
  let rr := enrichRegistrar rawData result.(registrar) in
  rt ← enrichRegistrant rawData result.(registrant);
  let ws := enrichWhoisServer rawData result.(whoisServer) in
  Ok {| domain := result.(domain); rawData := result.(WhoisClient.rawData);
        registrar := rr; registrant := rt; nameservers := ns; status := st;
        dates := ds; dnssec := result.(dnssec); whoisServer := ws;
        additionalInfo := enrichAdditionalInfo rawData |}.

(** The object a [record] stands for. *)
Definition toObject (r : record) : obj :=
  [("domain", VStr r.(domain)); ("found", VBool true);
   ("source", VStr "whois"); ("rawData", r.(rawData));
   ("registrar", r.(registrar)); ("registrant", r.(registrant));
   ("adminContact", VNull); ("techContact", VNull);
   ("billingContact", VNull);
   ("nameservers", r.(nameservers)); ("status", VArr r.(status));
   ("dates", VObj r.(dates)); ("dnssec", r.(dnssec));
   ("whoisServer", r.(whoisServer))]
  ++ match r.(additionalInfo) with
     | Some info => [("additionalInfo", VObj info)]
     | None => []
     end.

(** [if (parsedData?.k) result.dates.name = parsedData.k] *)
Definition copyDate (parsedData : value) (k name : string) (ds : obj) : obj :=
  if truthy (get_opt parsedData k) then set name (get_opt parsedData k) ds
  else ds.

(** The object literal of [formatApiResponse] and the three dates. *)
Definition fromParsedData (parsedData rawData : value) (domain : string)
  : record :=
  {| domain := domain;
     rawData := or_else rawData VNull;
     registrar := or_else (get_opt parsedData "registrar") VNull;
     registrant := or_else (get_opt parsedData "registrant") VNull;
     nameservers := or_else (get_opt parsedData "nameservers") (VArr []);
     status := match get_opt parsedData "status" with
               | VArr items => items
               | _ => []
               end;
     dates := copyDate parsedData "lastModified" "updated"
                (copyDate parsedData "expirationDate" "expires"
                   (copyDate parsedData "creationDate" "created" []));
     dnssec := or_else (get_opt parsedData "dnssec") VNull;
     whoisServer := or_else (get_opt parsedData "whoisServer") VNull;
     additionalInfo := None |}.

(** [formatApiResponse(apiResponse, domain)]; a [rawData] that is truthy
    and no string has no [match] to call. *)
Definition formatApiResponse (apiResponse : value) (domain : string)
  : result obj :=
  parsedData ← get apiResponse "parsedData";
  raw ← get apiResponse "rawData";
  let result := fromParsedData parsedData raw domain in
  if truthy raw then
    match raw with
    | VStr text => r ← enrichFromRawData result text; Ok (toObject r)
    | _ => Throw (TypeError "rawData.match is not a function")
    end
  else Ok (toObject result).

(** *** [queryWhoisServer] and [lookupDomain] *)

Definition apiUrls (domain : string) : list string := [
  "https://api.domaindetails.com/api/whois?domain=" +:+ domain;
  "http://localhost:3001/api/whois?domain=" +:+ domain
].

(** The text returned when no backend gave a payload. *)
Definition notAvailable (domain : string) : string :=
  "% WHOIS information not available via DomainDetails API for " +:+ domain
  +:+ String nl ("% Domain: " +:+ domain)
  +:+ String nl ("% Attempted servers: " +:+ Js.join ", " (apiUrls domain))
  +:+ String nl "% Status: API lookup failed".

(** One round of the loop over the URLs: [Some data] when it returns. An
    exception in the round is caught and the loop goes on. *)
Definition queryOne (net : network) (apiUrl : string) : option value :=
  match net.(fetch) apiUrl with
  | Rejected _ => None
  | Response st _ body =>
      if ok st then
        match body with
        | Ok data =>
            match get data "parsedData", get data "rawData" with
            | Ok pd, Ok rd =>
                if truthy pd || truthy rd then Some data else None
            | _, _ => None
            end
        | Throw _ => None
        end
      else None
  end.

Fixpoint queryLoop (net : network) (urls : list string) : option value :=
  match urls with
  | [] => None
  | apiUrl :: rest =>
      match queryOne net apiUrl with
      | Some data => Some data
      | None => queryLoop net rest
      end
  end.

Definition queryWhoisServer (net : network) (server domain : string) : value :=
  match queryLoop net (apiUrls domain) with
  | Some data => data
  | None => VStr (notAvailable domain)
  end.

(** [typeof v === 'object'] for a truthy [v] *)
Definition isObject (v : value) : bool :=
  match v with VObj _ | VArr _ => true | _ => false end.

Definition lookupDomain (eng : JsDate.engine) (net : network) (domain : value)
  : result obj :=
  match domain with
  | VStr domain =>
      if String.eqb domain "" then Throw (Error "Invalid domain provided") else
      let cleanDomain := Js.trim (Js.toLowerCase domain) in
      if negb (test true RegistryDetector.domainFormat cleanDomain)
      then Throw (Error "Invalid domain format")
      else
        try_catch
          (whoisServer ← RegistryDetector.getWhoisServer cleanDomain;
           let result := queryWhoisServer net whoisServer cleanDomain in
           if truthy result && isObject result
              && truthy (get_opt result "parsedData")
           then formatApiResponse result cleanDomain
           else parseWhoisResponse eng result cleanDomain)
          (fun error =>
             Throw (Error ("WHOIS lookup failed: " +:+ error.(exn_message))))
  | _ => Throw (Error "Invalid domain provided")
  end.

End WhoisClient.

(* ===================================================================== *)
(** ** WhoisClient: a helper no path calls (whois.js) *)
(* ===================================================================== *)

Module WhoisHtml.
Import Regex.

Definition quote : ascii := "034"%char.

(** [s.replace(/pat/g, rep)] for a pattern that is a literal, non-empty
    text: the occurrences of [pat] are replaced from the left, and the
    search goes on after each one. [skip] counts the characters of an
    occurrence still to pass over. *)
Fixpoint replaceAll (pat rep : string) (skip : nat) (s : string) : string :=
  match s with
  | EmptyString => EmptyString
  | String c r =>
      match skip with
      | S n => replaceAll pat rep n r
      | 0 =>
          if Js.startsWith s pat
          then rep +:+ replaceAll pat rep (String.length pat - 1) r
          else String c (replaceAll pat rep 0 r)
      end
  end.

(** The chain of [replace] calls on [match[1]]. *)
Definition decode (s : string) : string :=
  let s := replaceAll "&lt;" "<" 0 s in
  let s := replaceAll "&gt;" ">" 0 s in
  let s := replaceAll "&amp;" "&" 0 s in
  let s := replaceAll "&quot;" (String quote EmptyString) 0 s in
  let s := replaceAll "&#x27;" "'" 0 s in
  replaceAll "&#x2F;" "/" 0 s.

(** [/<pre[^>]*>([\s\S]*?)<\/pre>/i], [/<code[^>]*>([\s\S]*?)<\/code>/i]
    and [/class=Qwhois[^Q]*Q[^>]*>([\s\S]*?)</i], where Q stands for the
    double quote. *)
Definition htmlPatterns : list grouped := [
  {| before := seq [lit "<pre"; star (Cls true [CsChar ">"]); Lit ">"];
     group := lazy_star anything;
     after := lit "</pre>" |};
  {| before := seq [lit "<code"; star (Cls true [CsChar ">"]); Lit ">"];
     group := lazy_star anything;
     after := lit "</code>" |};
  {| before := seq [lit "class="; Lit quote; lit "whois";
                    star (Cls true [CsChar quote]); Lit quote;
                    star (Cls true [CsChar ">"]); Lit ">"];
     group := lazy_star anything;
     after := Lit "<" |}
].

(** The loop over the patterns: the first one that matches with a group
    that is not empty gives the result. *)
Fixpoint extractLoop (patterns : list grouped) (html : string)
  : option string :=
  match patterns with
  | [] => None
  | pattern :: rest =>
      match match1 true pattern html with
      | Some g =>
          if String.eqb g "" then extractLoop rest html
          else Some (Js.trim (decode g))
      | None => extractLoop rest html
      end
  end.

(** [extractWhoisFromHtml(html)] for a string [html]; [None] stands for
    [null]. *)
Definition extractWhoisFromHtml (html : string) : option string :=
  extractLoop htmlPatterns html.

End WhoisHtml.


(* ===================================================================== *)
(** ** RdapClient (rdap.js) *)
(* ===================================================================== *)

Module RdapClient.
Import JsVal Net.

(** [l.map(f)] for an [f] that may throw. *)
Fixpoint mapM {A B} (f : A -> result B) (l : list A) : result (list B) :=
  match l with
  | [] => Ok []
  | x :: r => y ← f x; ys ← mapM f r; Ok (y :: ys)
  end.

(** *** [parseVCard] *)

(** [if (!contact.k) contact.k = []; contact.k.push(v)]; the property is
    an array once it exists. *)
Definition ensure (k : string) (contact : obj) : obj :=
  if truthy (lookup k contact) then contact else set k (VArr []) contact.

(** The elements of an array property of the contact, none while the
    property is not there. *)
Definition listed (v : value) : list value :=
  match v with VArr items => items | _ => [] end.

Definition push (k : string) (v : value) (contact : obj) : obj :=
  match lookup k contact with
  | VArr items => set k (VArr (items ++ [v])) contact
  | _ => set k (VArr [v]) contact
  end.

(** [property.toLowerCase()] *)
Definition lowerCased (property : value) : result string :=
  match property with
  | VStr s => Ok (Js.toLowerCase s)
  | _ => Throw (TypeError "property.toLowerCase is not a function")
  end.

Definition address (params : value) (components : list value) : value :=
  VObj [("type", or_else (get_opt params "type") (VStr "postal"));
        ("poBox", nth 0 components VUndef);
        ("extendedAddress", nth 1 components VUndef);
        ("streetAddress", nth 2 components VUndef);
        ("locality", nth 3 components VUndef);
        ("region", nth 4 components VUndef);
        ("postalCode", nth 5 components VUndef);
        ("country", nth 6 components VUndef)].

(** The [switch] on the lower-cased property name. *)
Definition interpret (name : string) (params val : value) (contact : obj)
  : obj :=
  if String.eqb name "fn" then set "name" val contact
  else if String.eqb name "org" then
    set "organization"
        (match val with VArr items => nth 0 items VUndef | _ => val end)
        contact
  else if String.eqb name "email" then push "emails" val contact
  else if String.eqb name "tel" then
    push "phones"
         (VObj [("type", or_else (get_opt params "type") (VStr "voice"));
                ("value", val)])
         contact
  else if String.eqb name "adr" then
    let contact := ensure "addresses" contact in
    match val with
    | VArr components =>
        if 7 <=? length components
        then push "addresses" (address params components) contact
        else contact
    | _ => contact
    end
  else contact.

(** One round of [for (const field of vcard)]:
    [const [property, params, type, value] = field]. *)
Definition parseField (contact : obj) (field : value) : result obj :=
  match field with
  | VArr items =>
      if length items <? 4 then Ok contact
      else
        name ← lowerCased (nth 0 items VUndef);
        Ok (interpret name (nth 1 items VUndef) (nth 3 items VUndef) contact)
  | _ => Ok contact
  end.

Fixpoint parseFields (contact : obj) (fields : list value) : result obj :=
  match fields with
  | [] => Ok contact
  | field :: rest => c ← parseField contact field; parseFields c rest
  end.

Definition parseVCard (vcard : value) : result obj :=
  match vcard with
  | VArr fields => parseFields [] fields
  | _ => Ok []
  end.

(** *** [parseEntity] *)

Definition parseEntity (entity : value) : result obj :=
  handle ← get entity "handle";
  let parsed :=
    [("handle", handle);
     ("roles", or_else (get_opt entity "roles") (VArr []));
     ("vcardArray", get_opt entity "vcardArray");
     ("status", get_opt entity "status");
     ("remarks", get_opt entity "remarks");
     ("links", get_opt entity "links");
     ("events", get_opt entity "events");
     ("publicIds", get_opt entity "publicIds")] in
  let vcardArray := get_opt entity "vcardArray" in
  if truthy vcardArray && gt_num (get_opt vcardArray "length") 1 then
    vcard ← at_index vcardArray 1;
    contact ← parseVCard vcard;
    Ok (set "contact" (VObj contact) parsed)
  else Ok parsed.

(** *** [parseRdapResponse] *)

(** [v.map(f)] when [v] is truthy: only an array has [map]. *)
Definition mapArray (what : string) (f : value -> result obj) (v : value)
  : result value :=
  match v with
  | VArr items => l ← mapM f items; Ok (VArr (map VObj l))
  | _ => Throw (TypeError (what +:+ ".map is not a function"))
  end.

Definition parseEvent (event : value) : result obj :=
  action ← get event "eventAction";
  Ok [("eventAction", action);
      ("eventDate", get_opt event "eventDate");
      ("eventActor", get_opt event "eventActor")].

Definition parseNameserver (ns : value) : result obj :=
  name ← get ns "ldhName";
  Ok [("ldhName", name);
      ("unicodeName", get_opt ns "unicodeName");
      ("ipAddresses", get_opt ns "ipAddresses");
      ("status", get_opt ns "status")].

(** [events?.find(e => e.eventAction === action)] *)
Fixpoint findAction (action : string) (events : list value) : result value :=
  match events with
  | [] => Ok VUndef
  | e :: rest =>
      a ← get e "eventAction";
      if is_str a action then Ok e else findAction action rest
  end.

Definition findEvent (action : string) (events : value) : result value :=
  match events with
  | VUndef | VNull => Ok VUndef
  | VArr items => findAction action items
  | _ => Throw (TypeError "data.events?.find is not a function")
  end.

(** [if (event) result.k = event.eventDate] *)
Definition copyEventDate (k : string) (event : value) (result : obj) : obj :=
  if truthy event then set k (get_opt event "eventDate") result else result.

Definition parseRdapResponse (data : value) (domain : string) : result obj :=
  conformance ← get data "rdapConformance";
  events ← (if truthy (get_opt data "events")
            then mapArray "data.events" parseEvent (get_opt data "events")
            else Ok (VArr []));
  entities ← (if truthy (get_opt data "entities")
              then mapArray "data.entities" parseEntity (get_opt data "entities")
              else Ok (VArr []));
  nameservers ← (if truthy (get_opt data "nameservers")
                 then mapArray "data.nameservers" parseNameserver
                        (get_opt data "nameservers")
                 else Ok (VArr []));
  registrationEvent ← findEvent "registration" (get_opt data "events");
  expirationEvent ← findEvent "expiration" (get_opt data "events");
  lastChangedEvent ← findEvent "last changed" (get_opt data "events");
  Ok (copyEventDate "lastChangedDate" lastChangedEvent
        (copyEventDate "expirationDate" expirationEvent
           (copyEventDate "registrationDate" registrationEvent
              [("domain", VStr domain); ("found", VBool true);
               ("lookupStatus", VStr "found");
               ("rdapConformance", or_else conformance (VArr []));
               ("objectClassName", get_opt data "objectClassName");
               ("ldhName", or_else (get_opt data "ldhName") (VStr domain));
               ("unicodeName", get_opt data "unicodeName");
               ("handle", get_opt data "handle");
               ("status", or_else (get_opt data "status") (VArr []));
               ("events", events);
               ("entities", entities);
               ("nameservers", nameservers);
               ("secureDNS", get_opt data "secureDNS");
               ("remarks", or_else (get_opt data "remarks") (VArr []));
               ("links", or_else (get_opt data "links") (VArr []));
               ("port43", get_opt data "port43");
               ("rawData", data)]))).

(** *** [lookupDomain] *)

Definition timeout : Z := 10000.

Definition notFound (cleanDomain : string) : obj :=
  [("domain", VStr cleanDomain); ("found", VBool false);
   ("status", VStr "not_found");
   ("message", VStr "Domain not found in registry")].

(** What the [try] block does once the URL is known. *)
Definition query (net : network) (rdapUrl : option string)
    (cleanDomain : string) : result obj :=
  match rdapUrl with
  | None | Some EmptyString =>
      Throw (Error ("No RDAP server found for domain: " +:+ cleanDomain))
  | Some rdapUrl =>
      match net.(fetch) (rdapUrl +:+ "domain/" +:+ cleanDomain) with
      | Rejected e => Throw e
      | Response st statusText body =>
          if negb (ok st) then
            if (st =? 404)%Z then Ok (notFound cleanDomain)
            else Throw (Error ("RDAP query failed: " +:+ pretty st +:+ " "
                               +:+ statusText))
          else data ← body; parseRdapResponse data cleanDomain
      end
  end.

(** The [catch] clause. *)
Definition rethrow {A} (error : exn) : result A :=
  if String.eqb error.(exn_name) "TimeoutError"
  then Throw (Error ("RDAP query timed out after " +:+ pretty timeout +:+ "ms"))
  else Throw error.

(** [lookupDomain(domain)]: what it returns or throws, and the bootstrap
    map of its registry detector after the call. *)
Definition lookupDomain (net : network) (cache : gmap string string)
    (domain : value) : result obj * gmap string string :=
  match domain with
  | VStr domain =>
      if String.eqb domain "" then (Throw (Error "Invalid domain provided"), cache)
      else
        let cleanDomain := Js.trim (Js.toLowerCase domain) in
        if negb (Regex.test true RegistryDetector.domainFormat cleanDomain)
        then (Throw (Error "Invalid domain format"), cache)
        else
          match RegistryDetector.getRdapUrl net cache cleanDomain with
          | Throw e => (rethrow e, cache)
          | Ok (rdapUrl, cache') =>
              (try_catch (query net rdapUrl cleanDomain) rethrow, cache')
          end
  | _ => (Throw (Error "Invalid domain provided"), cache)
  end.

End RdapClient.

(* ===================================================================== *)
(** ** DomainLookupTool (domain-lookup.js) *)
(* ===================================================================== *)

Module DomainLookupTool.
Import JsVal Net.

(** [o.k.length > 0] for a truthy [o.k] *)
Definition nonEmpty (v : value) : bool :=
  truthy v && gt_num (get_opt v "length") 0.

(** [if (c) o.k = v] *)
Definition setIf (c : bool) (k : string) (v : value) (o : obj) : obj :=
  if c then set k v o else o.

Definition contactOf (entity : value) : result value :=
  handle ← get entity "handle";
  Ok (VObj [("handle", handle);
            ("roles", get_opt entity "roles");
            ("contact_info", get_opt entity "contact")]).

(** [result.entities.map(...)]: only an array has [map]. *)
Definition contactsOf (entities : value) : result value :=
  match entities with
  | VArr items => l ← RdapClient.mapM contactOf items; Ok (VArr l)
  | _ => Throw (TypeError "result.entities.map is not a function")
  end.

Definition formatRdapResult (result : obj) : JsVal.result obj :=
  let rdap := [("conformance", lookup "rdapConformance" result);
               ("object_class", lookup "objectClassName" result);
               ("handle", lookup "handle" result)] in
  let rdap := setIf (nonEmpty (lookup "events" result))
                    "events" (lookup "events" result) rdap in
  let rdap := setIf (truthy (lookup "registrationDate" result))
                    "registration_date" (lookup "registrationDate" result) rdap in
  let rdap := setIf (truthy (lookup "expirationDate" result))
                    "expiration_date" (lookup "expirationDate" result) rdap in
  let rdap := setIf (truthy (lookup "lastChangedDate" result))
                    "last_changed_date" (lookup "lastChangedDate" result) rdap in
  rdap ← (if nonEmpty (lookup "entities" result)
          then contacts ← contactsOf (lookup "entities" result);
               Ok (set "contacts" contacts rdap)
          else Ok rdap);
  let rdap := setIf (nonEmpty (lookup "nameservers" result))
                    "nameserver_details" (lookup "nameservers" result) rdap in
  let rdap := setIf (truthy (lookup "secureDNS" result))
                    "dnssec" (lookup "secureDNS" result) rdap in
  let rdap := setIf (nonEmpty (lookup "remarks" result))
                    "remarks" (lookup "remarks" result) rdap in
  let rdap := setIf (nonEmpty (lookup "links" result))
                    "links" (lookup "links" result) rdap in
  Ok (setIf (truthy (lookup "port43" result))
            "whois_server" (lookup "port43" result) rdap).

(** [result.dates && Object.keys(result.dates).length > 0]; the dates of a
    record are an object the client built. *)
Definition hasDates (dates : value) : bool :=
  match dates with
  | VObj props => negb (no_keys props)
  | VArr items => negb (match items with [] => true | _ => false end)
  | VStr s => negb (String.eqb s "")
  | _ => false
  end.

Definition formatWhoisResult (result : obj) : obj :=
  let whois := [] in
  let whois := setIf (truthy (lookup "registrar" result))
                     "registrar" (lookup "registrar" result) whois in
  let whois := setIf (truthy (lookup "registrant" result))
                     "registrant" (lookup "registrant" result) whois in
  let whois := setIf (truthy (lookup "adminContact" result))
                     "admin_contact" (lookup "adminContact" result) whois in
  let whois := setIf (truthy (lookup "techContact" result))
                     "technical_contact" (lookup "techContact" result) whois in
  let whois := setIf (truthy (lookup "billingContact" result))
                     "billing_contact" (lookup "billingContact" result) whois in
  let whois := setIf (hasDates (lookup "dates" result))
                     "dates" (lookup "dates" result) whois in
  setIf (truthy (lookup "dnssec" result)) "dnssec" (lookup "dnssec" result) whois.

(** [formatResult(result, includeRaw)]; [now] is the time value of
    [new Date()]. *)
Definition formatResult (now : Z) (result : obj) (includeRaw : value)
  : JsVal.result obj :=
  let formatted := [("domain", lookup "domain" result);
                    ("found", lookup "found" result);
                    ("method", lookup "method" result);
                    ("timestamp", VStr (JsDate.toISOString now))] in
  let formatted :=
    if truthy (lookup "fallback_used" result)
    then set "primary_method_failed" (lookup "primary_method_failed" result)
           (set "fallback_used" (lookup "fallback_used" result) formatted)
    else formatted in
  let formatted := setIf (truthy (lookup "primary_method_error" result))
                     "primary_method_error"
                     (lookup "primary_method_error" result) formatted in
  let formatted := setIf (truthy (lookup "fallback_error" result))
                     "fallback_error" (lookup "fallback_error" result)
                     formatted in
  if negb (truthy (lookup "found" result)) then
    Ok (set "message"
            (or_else (lookup "message" result)
               (or_else (lookup "error" result) (VStr "Domain not found")))
            formatted)
  else
    let formatted := setIf (nonEmpty (lookup "status" result))
                       "status" (lookup "status" result) formatted in
    let formatted := setIf (nonEmpty (lookup "nameservers" result))
                       "nameservers" (lookup "nameservers" result) formatted in
    formatted ←
      (if is_str (lookup "method" result) "rdap"
       then rdap ← formatRdapResult result; Ok (set "rdap" (VObj rdap) formatted)
       else Ok (set "whois" (VObj (formatWhoisResult result)) formatted));
    Ok (setIf (truthy includeRaw && truthy (lookup "rawData" result))
              "raw_data" (lookup "rawData" result) formatted).

Section Execute.
(** [this.rdapClient.lookupDomain] and [this.whoisClient.lookupDomain]:
    each returns an object or throws. *)
Variable rdapLookup : value -> result obj.
Variable whoisLookup : value -> result obj.
Variable now : Z.

(** The branch on a method name, with [result.method = ...]. *)
Definition lookupBy (method : string) (domain : value) : result obj :=
  if String.eqb method "rdap"
  then r ← rdapLookup domain; Ok (set "method" (VStr "rdap") r)
  else r ← whoisLookup domain; Ok (set "method" (VStr "whois") r).

Definition bothFailed (primaryMethod : string) (error fallbackError : exn)
  : string :=
  "Both RDAP and WHOIS lookups failed. RDAP: "
  +:+ (if String.eqb primaryMethod "rdap" then error.(exn_message)
       else fallbackError.(exn_message))
  +:+ ", WHOIS: "
  +:+ (if String.eqb primaryMethod "whois" then error.(exn_message)
       else fallbackError.(exn_message)).

(** The [try] block and its [catch]: the record handed to
    [formatResult]. *)
Definition attempt (primaryMethod fallbackMethod : string) (domain : value)
  : result obj :=
  try_catch
    (result ← lookupBy primaryMethod domain;
     if negb (truthy (lookup "found" result))
        && negb (String.eqb fallbackMethod "")
     then
       try_catch
         (fallbackResult ← lookupBy fallbackMethod domain;
          if truthy (lookup "found" fallbackResult)
          then Ok (set "primary_method_failed" (VStr primaryMethod)
                     (set "fallback_used" (VBool true) fallbackResult))
          else Ok result)
         (fun fallbackError =>
            Ok (set "fallback_error" (VStr fallbackError.(exn_message))
                  result))
     else Ok result)
    (fun error =>
       try_catch
         (result ← lookupBy fallbackMethod domain;
          Ok (set "primary_method_error" (VStr error.(exn_message))
                (set "fallback_used" (VBool true) result)))
         (fun fallbackError =>
            Throw (Error (bothFailed primaryMethod error fallbackError)))).

Definition execute (params : value) : result obj :=
  domain ← destructure "params" params "domain";
  let prefer_whois := get_opt params "prefer_whois" in
  let include_raw := get_opt params "include_raw" in
  if negb (truthy domain) then Throw (Error "Domain parameter is required")
  else
    let primaryMethod := if truthy prefer_whois then "whois" else "rdap" in
    let fallbackMethod := if truthy prefer_whois then "rdap" else "whois" in
    result ← attempt primaryMethod fallbackMethod domain;
    formatResult now result include_raw.
End Execute.

(** The client of a protocol, over a network, an engine and the bootstrap
    map of the RDAP client. *)
Definition clientOf (eng : JsDate.engine) (net : network)
    (cache : gmap string string) (method : string) (domain : value)
  : result obj :=
  if String.eqb method "rdap"
  then fst (RdapClient.lookupDomain net cache domain)
  else WhoisClient.lookupDomain eng net domain.

(** The tool with the two clients of the sources. *)
Definition run (eng : JsDate.engine) (net : network)
    (cache : gmap string string) (now : Z) (params : value) : result obj :=
  execute (clientOf eng net cache "rdap") (clientOf eng net cache "whois")
          now params.

End DomainLookupTool.

(* ===================================================================== *)
(** ** The MCP server (index.js) *)
(* ===================================================================== *)

Module McpServer.
Import JsVal.

(** What the handler of [CallToolRequestSchema] returns: the text of its
    one content item and whether it carries [isError: true]. *)
Record reply := { text : string; isError : bool }.

Section Handler.
(** [this.domainLookupTool.execute] and [JSON.stringify(result, null, 2)]. *)
Variable execute : value -> result obj.
Variable stringify : obj -> string.

(** The handler: the [switch] on the tool name inside [try], and the
    [catch] that turns an error into a reply. *)
Definition callTool (name : string) (args : value) : reply :=
  match (if String.eqb name "domain_lookup"
         then result ← execute args; Ok (stringify result)
         else Throw (Error ("Unknown tool: " +:+ name))) with
  | Ok text => {| text := text; isError := false |}
  | Throw error =>
      {| text := "Error: " +:+ error.(exn_message); isError := true |}
  end.
End Handler.

End McpServer.


(* ===================================================================== *)
(** ** Sample inputs *)
(* ===================================================================== *)

Module Samples.
Import JsVal Net.

(** An engine whose [Date] accepts nothing beyond the calendar dates of the
    date-only form. *)
Definition strictEngine : JsDate.engine :=
  {| JsDate.parseOther := fun _ => None |}.

(** No backend answers. *)
Definition offline : network :=
  {| fetch := fun _ => Rejected (TypeError "fetch failed"); bootstrap := None |}.

(** The registry answers every RDAP query with the given status line; the
    WHOIS backends do not answer. *)
Definition rdapStatus (st : Z) (reason : string) : network :=
  {| fetch := fun url =>
                if Js.startsWith url "https://rdap."
                then Response st reason (Ok VNull)
                else Rejected (TypeError "fetch failed");
     bootstrap := None |}.

(** The RDAP query runs into the timeout. *)
Definition rdapTimeout : network :=
  {| fetch := fun url =>
                if Js.startsWith url "https://rdap."
                then Rejected TimeoutError
                else Rejected (TypeError "fetch failed");
     bootstrap := None |}.

Definition backendPayload : value :=
  VObj [("parsedData",
         VObj [("registrar", VStr "Example Registrar");
               ("nameservers", VArr [VStr "ns1.example.com"])]);
        ("rawData", VStr "Registrar: Example Registrar")].

(** The registry does not know the domain (404); the first WHOIS backend
    has a structured payload for it. *)
Definition rdapMissWhoisHit : network :=
  {| fetch := fun url =>
                if Js.startsWith url "https://rdap."
                then Response 404 "Not Found" (Ok VNull)
                else Response 200 "OK" (Ok backendPayload);
     bootstrap := None |}.

(** The registry is out of service and the WHOIS backend sends raw text
    without parsed data. *)
Definition bothBroken : network :=
  {| fetch := fun url =>
                if Js.startsWith url "https://rdap."
                then Response 503 "Service Unavailable" (Ok VNull)
                else Response 200 "OK"
                       (Ok (VObj [("rawData", VStr "Domain Name: example.com")]));
     bootstrap := None |}.

Definition exampleParams : value := VObj [("domain", VStr "example.com")].

(** The record [formatApiResponse] builds for a payload whose parsed data
    has one status and whose raw text has a status line. *)
Definition activePayload : value :=
  VObj [("parsedData", VObj [("status", VArr [VStr "active"])]);
        ("rawData", VStr "Status: ok")].

Definition activeRecord : WhoisClient.record :=
  WhoisClient.fromParsedData (get_opt activePayload "parsedData")
    (get_opt activePayload "rawData") "example.com".

(** The object [parseWhoisResponse] returns for a text from which the loop
    over the lines wrote nothing. *)
Definition blank (domain text : string) : obj :=
  [("domain", VStr domain); ("found", VBool true); ("source", VStr "whois");
   ("rawData", VStr text); ("registrar", VNull); ("registrant", VNull);
   ("adminContact", VNull); ("techContact", VNull); ("billingContact", VNull);
   ("nameservers", VArr []); ("status", VArr []); ("dates", VObj []);
   ("dnssec", VNull)].

(** A raw text whose [Name servers:] block names no host. *)
Definition noHostBlock : string :=
  "Name servers: none" +:+ String WhoisClient.nl (String WhoisClient.nl
    "DNS: ns1.example.com").
End Samples.

(** More sample inputs. *)
Module Cases.
Import JsVal Net.

(** No backend answers, and the IANA bootstrap file lists the registry of
    the TLD [zz]. *)
Definition bootstrapOnly : network :=
  {| fetch := fun _ => Rejected (TypeError "fetch failed");
     bootstrap := Some [(["yy"], []);
                        (["zz"; "zzz"], ["https://rdap.nic.zz/"; "https://rdap2.nic.zz/"])] |}.

Definition registryAnswer : value :=
  VObj [("objectClassName", VStr "domain");
        ("handle", VStr "2336799_DOMAIN_COM-VRSN");
        ("ldhName", VStr "EXAMPLE.COM");
        ("status", VArr [VStr "client transfer prohibited"]);
        ("events",
         VArr [VObj [("eventAction", VStr "registration");
                     ("eventDate", VStr "1995-08-14T04:00:00Z")]]);
        ("entities",
         VArr [VObj [("handle", VStr "376");
                     ("roles", VArr [VStr "registrar"]);
                     ("vcardArray",
                      VArr [VStr "vcard";
                            VArr [VArr [VStr "fn"; VObj []; VStr "text";
                                        VStr "Example Registrar"]]])]])].

(** The registry answers the RDAP query; the WHOIS backends do not
    answer. *)
Definition rdapHit : network :=
  {| fetch := fun url =>
                if Js.startsWith url "https://rdap."
                then Response 200 "OK" (Ok registryAnswer)
                else Rejected (TypeError "fetch failed");
     bootstrap := None |}.

(** The registry does not know the domain (404) and the WHOIS backend
    sends raw text without parsed data. *)
Definition rdapMissWhoisBroken : network :=
  {| fetch := fun url =>
                if Js.startsWith url "https://rdap."
                then Response 404 "Not Found" (Ok VNull)
                else Response 200 "OK"
                       (Ok (VObj [("rawData", VStr "Domain Name: example.com")]));
     bootstrap := None |}.

(** A backend payload whose parsed data has every field, with a raw text
    that names other values. *)
Definition fullPayload : value :=
  VObj [("parsedData",
         VObj [("registrar", VStr "Parsed Registrar");
               ("nameservers", VArr [VStr "ns1.parsed.example"]);
               ("creationDate", VStr "2001-01-01");
               ("whoisServer", VStr "whois.parsed.example")]);
        ("rawData",
         VStr ("Registrar: Raw Registrar" +:+ String WhoisClient.nl
               ("Created: 1999-09-09" +:+ String WhoisClient.nl
                "Whois Server: whois.raw.example")))].

(** The record of a call that returned. *)
Definition recordOf (r : result obj) : obj :=
  match r with Ok o => o | Throw _ => [] end.

(** A call that asks for WHOIS first. *)
Definition preferWhois : value :=
  VObj [("domain", VStr "example.com"); ("prefer_whois", VBool true)].

(** A WHOIS client that reports every domain as not found. *)
Definition whoisMiss (domain : value) : result obj :=
  Ok [("domain", domain); ("found", VBool false)].

(** A raw text whose nameserver block lists twelve hosts. *)
Definition twelveHosts : string :=
  Js.join (String WhoisClient.nl EmptyString)
    ["Domain Name: example.com";
     "Name servers:";
     "ns01.example.com 192.0.2.1";
     "ns02.example.com";
     "ns03.example.com";
     "ns04.example.com";
     "ns05.example.com";
     "ns06.example.com";
     "ns07.example.com";
     "ns08.example.com";
     "ns09.example.com";
     "ns10.example.com";
     "ns11.example.com";
     "ns12.example.com";
     "";
     "DNSSEC: unsigned"].

End Cases.

(* ===================================================================== *)
(** ** What the properties speak about *)
(* ===================================================================== *)

Module HostNames.
Import Regex.

(** The characters of host names: the letters a-z and A-Z, the digits,
    [-] and [.]. *)
Definition hostChar (c : ascii) : bool :=
  let n := Js.code c in
  ((97 <=? n) && (n <=? 122)) || ((65 <=? n) && (n <=? 90))
  || Js.is_digit c || (n =? 45) || (n =? 46).

(** The characters a pattern can consume. *)
Fixpoint consumes (ic : bool) (r : regex) (c : ascii) : bool :=
  match r with
  | Lit a => Ascii.eqb (canon ic a) (canon ic c)
  | Dot => negb (Js.is_line_terminator c)
  | Cls neg items => cls_has ic neg items c
  | Cat a b | Alt a b => consumes ic a c || consumes ic b c
  | Rep _ _ _ a => consumes ic a c
  | Eps | Bol | Eol => false
  end.

Definition everyChar (p : ascii -> bool) (s : string) : bool :=
  forallb p (list_ascii_of_string s).

(** The 256 code units of the model. *)
Definition allChars : list ascii := map ascii_of_nat (List.seq 0 256).

(** A step of the matcher that succeeds has consumed characters of [p]
    only, and its continuation has succeeded on what is left. *)
Definition sound {A} (p : ascii -> bool) (step : cont (A:=A) -> cont (A:=A))
  : Prop :=
  forall (k : cont) (rest : string) (x : A),
    step k rest = Some x ->
    exists used rest' : string,
      rest = used +:+ rest' /\ k rest' = Some x /\ everyChar p used = true.

End HostNames.

(** Shapes of RDAP data the properties of the parser speak about. *)
Module Shapes.
Import JsVal.

(** A member of a vCard array the loop of [parseVCard] gets through: one
    that is no array or has fewer than four elements is passed over, and
    of the others the first element has to be a string. *)
Definition readable (field : value) : bool :=
  match field with
  | VArr items =>
      (length items <? 4)
      || match nth 0 items VUndef with VStr _ => true | _ => false end
  | _ => true
  end.

(** The value of a member with at least four elements whose property
    name, lower-cased, is [name]. *)
Definition valueOf (name : string) (field : value) : list value :=
  match field with
  | VArr items =>
      if (4 <=? length items)
         && match nth 0 items VUndef with
            | VStr s => String.eqb (Js.toLowerCase s) name
            | _ => false
            end
      then [nth 3 items VUndef]
      else []
  | _ => []
  end.

(** The first event with the given action. *)
Definition firstEvent (action : string) (events : list obj) : option obj :=
  List.find (fun e => is_str (lookup "eventAction" e) action) events.

End Shapes.

(** The marks [execute] puts on the record it hands to [formatResult]. *)
Module Marks.
Definition marks : list string :=
  ["fallback_used"; "primary_method_failed"; "primary_method_error";
   "fallback_error"].
End Marks.


(* ===================================================================== *)
(** ** Properties *)
(* ===================================================================== *)

(** *** The matcher *)

Module RegexFacts.
Import Regex.

Section Ext.
Context {A : Type}.
Variable ic : bool.
Variable total : nat.

Lemma free_ext (step : cont -> cont) (greedy : bool) (k1 k2 : cont (A:=A)) :
  respects step -> (forall x, k1 x = k2 x) ->
  forall fuel hi rest,
    free step greedy k1 fuel hi rest = free step greedy k2 fuel hi rest.
Proof.
  intros Hs Hk fuel. induction fuel as [|fuel IH]; intros hi rest; simpl.
  - now rewrite Hk.
  - rewrite Hk.
    rewrite (Hs _ (fun rest' =>
                     if String.length rest' <? String.length rest
                     then free step greedy k2 fuel (dec_hi hi) rest'
                     else None)); [reflexivity |].
    intros x. now rewrite IH.
Qed.

Lemma forced_ext (step : cont -> cont) (greedy : bool) (k1 k2 : cont (A:=A)) :
  respects step -> (forall x, k1 x = k2 x) ->
  forall lo hi rest,
    forced step greedy k1 lo hi rest = forced step greedy k2 lo hi rest.
Proof.
  intros Hs Hk lo. induction lo as [|lo IH]; intros hi rest; simpl.
  - now apply free_ext.
  - rewrite Hk. destruct (hi_is_zero hi); [reflexivity |].
    apply Hs. intros x. apply IH.
Qed.

Lemma m_ext (r : regex) : respects (A:=A) (m ic total r).
Proof.
  induction r as [| a | | neg items | a IHa b IHb | a IHa b IHb
                  | lo hi greedy a IHa | |];
    intros k1 k2 Hk rest; simpl.
  - apply Hk.
  - unfold one. destruct rest as [|c rest]; [reflexivity |].
    destruct (Ascii.eqb _ _); [apply Hk | reflexivity].
  - unfold one. destruct rest as [|c rest]; [reflexivity |].
    destruct (negb _); [apply Hk | reflexivity].
  - unfold one. destruct rest as [|c rest]; [reflexivity |].
    destruct (cls_has _ _ _ _); [apply Hk | reflexivity].
  - apply IHa. intros x. now apply IHb.
  - now rewrite (IHa k1 k2 Hk), (IHb k1 k2 Hk).
  - now apply forced_ext.
  - destruct (_ =? _); [apply Hk | reflexivity].
  - destruct rest; [apply Hk | reflexivity].
Qed.

Lemma free_honest (step : cont -> cont) (greedy : bool) (k : cont (A:=A)) :
  honest step -> (forall x, k x = None) ->
  forall fuel hi rest, free step greedy k fuel hi rest = None.
Proof.
  intros Hs Hk fuel. induction fuel as [|fuel IH]; intros hi rest; simpl.
  - rewrite Hk. now destruct (hi_is_zero hi).
  - rewrite Hk.
    rewrite !(Hs (fun rest' =>
                    if String.length rest' <? String.length rest
                    then free step greedy k fuel (dec_hi hi) rest'
                    else None)).
    + now destruct (hi_is_zero hi), greedy.
    + intros x. rewrite IH. now destruct (_ <? _).
Qed.

Lemma forced_honest (step : cont -> cont) (greedy : bool) (k : cont (A:=A)) :
  honest step -> (forall x, k x = None) ->
  forall lo hi rest, forced step greedy k lo hi rest = None.
Proof.
  intros Hs Hk lo. induction lo as [|lo IH]; intros hi rest; simpl.
  - now apply free_honest.
  - rewrite Hk. rewrite Hs by (intros x; apply IH).
    now destruct (hi_is_zero hi).
Qed.

Lemma m_honest (r : regex) : honest (A:=A) (m ic total r).
Proof.
  induction r as [| a | | neg items | a IHa b IHb | a IHa b IHb
                  | lo hi greedy a IHa | |];
    intros k Hk rest; simpl.
  - apply Hk.
  - unfold one. destruct rest as [|c rest]; [reflexivity |].
    destruct (Ascii.eqb _ _); [apply Hk | reflexivity].
  - unfold one. destruct rest as [|c rest]; [reflexivity |].
    destruct (negb _); [apply Hk | reflexivity].
  - unfold one. destruct rest as [|c rest]; [reflexivity |].
    destruct (cls_has _ _ _ _); [apply Hk | reflexivity].
  - apply IHa. intros x. now apply IHb.
  - now rewrite (IHa k Hk), (IHb k Hk).
  - now apply forced_honest.
  - destruct (_ =? _); [apply Hk | reflexivity].
  - destruct rest; [apply Hk | reflexivity].
Qed.

(** At the end of the input a repetition has no round left to try. *)
Lemma free_at_end (step : cont -> cont) (greedy : bool) (k : cont (A:=A)) :
  honest step ->
  forall fuel hi, free step greedy k fuel hi "" = k "".
Proof.
  intros Hs fuel hi. destruct fuel as [|fuel]; simpl.
  - now destruct (hi_is_zero hi).
  - destruct (hi_is_zero hi); [reflexivity |].
    rewrite !(Hs (fun rest' =>
                    if String.length rest' <? String.length ""
                    then free step greedy k fuel (dec_hi hi) rest'
                    else None)) by reflexivity.
    destruct greedy; [reflexivity |]. now destruct (k "").
Qed.

(** The bound on the rounds of a repetition is never what ends it: any
    number of rounds that is at least the length of the input left gives the
    same result. *)
Lemma free_enough (step : cont -> cont) (greedy : bool) (k : cont (A:=A)) :
  respects step -> honest step ->
  forall fuel1 fuel2 hi rest,
    String.length rest <= fuel1 -> String.length rest <= fuel2 ->
    free step greedy k fuel1 hi rest = free step greedy k fuel2 hi rest.
Proof.
  intros Hr Hs fuel1.
  induction fuel1 as [|fuel1 IH]; intros fuel2 hi rest H1 H2.
  - destruct rest; [| simpl in H1; lia]. now rewrite !free_at_end.
  - destruct rest as [|c rest]; [now rewrite !free_at_end |].
    destruct fuel2 as [|fuel2]; [simpl in H2; lia |].
    cbn [free]. destruct (hi_is_zero hi); [reflexivity |].
    rewrite !(Hr (fun rest' =>
                    if String.length rest' <? String.length (String c rest)
                    then free step greedy k fuel1 (dec_hi hi) rest'
                    else None)
                 (fun rest' =>
                    if String.length rest' <? String.length (String c rest)
                    then free step greedy k fuel2 (dec_hi hi) rest'
                    else None)); [reflexivity |].
    intros x. destruct (Nat.ltb_spec (String.length x)
                          (String.length (String c rest))) as [Hlt | _];
      [| reflexivity].
    simpl in H1, H2, Hlt. apply IH; lia.
Qed.

(** The same for the matcher of a repeated pattern. *)
Lemma repetition_bound_enough (a : regex) (greedy : bool) (k : cont (A:=A))
    (extra : nat) (hi : option nat) (rest : string) :
  free (m ic total a) greedy k (String.length rest + extra) hi rest
  = free (m ic total a) greedy k (String.length rest) hi rest.
Proof.
  apply free_enough; [apply m_ext | apply m_honest | lia | lia].
Qed.
End Ext.

(** **** The patterns of the sources on sample texts *)

Example domainFormat_accepts :
  test true RegistryDetector.domainFormat "example.co.uk" = true
  /\ test true RegistryDetector.domainFormat "xn--bcher-kva.example" = true
  /\ test true RegistryDetector.domainFormat "com" = true.
Proof. vm_compute. repeat split; reflexivity. Qed.

Example domainFormat_rejects :
  test true RegistryDetector.domainFormat "not a domain!!" = false
  /\ test true RegistryDetector.domainFormat "-example.com" = false
  /\ test true RegistryDetector.domainFormat "example..com" = false
  /\ test true RegistryDetector.domainFormat "" = false.
Proof. vm_compute. repeat split; reflexivity. Qed.

(** A greedy [\s*] gives white space back so that [(.+)] has a character. *)
Example labelled_backtracks :
  match1 true (WhoisClient.labelled "Created:") "created:   " = Some " ".
Proof. vm_compute. reflexivity. Qed.

(** [(.+?)] stops at the first [[], and [$] is the end of the whole text: a
    [Registrar:] line that is not the last line and has no bracket does not
    match there. *)
Example registrar_lazy :
  match1 true (nth 0 WhoisClient.registrarPatterns (WhoisClient.labelled ""))
    "Registrar: Example Inc [Tag = EX]" = Some "Example Inc "
  /\ exec1 true (nth 0 WhoisClient.registrarPatterns (WhoisClient.labelled ""))
       ("Registrar: One" +:+ String WhoisClient.nl "Registrar: Two")
     = Some (15, "Two").
Proof. vm_compute. split; reflexivity. Qed.

Example firstToken_samples :
  WhoisClient.firstToken "ns1.example.com   192.0.2.1" = "ns1.example.com"
  /\ WhoisClient.firstToken "" = "".
Proof. vm_compute. split; reflexivity. Qed.
End RegexFacts.

(** *** Strings and lists of labels *)

Module JsFacts.
Import Js.

Lemma append_cons (x : ascii) (a b : string) :
  String x a +:+ b = String x (a +:+ b).
Proof. reflexivity. Qed.

Lemma append_assoc (a b c : string) : (a +:+ b) +:+ c = a +:+ (b +:+ c).
Proof.
  induction a as [|x a IH]; [reflexivity |].
  now rewrite !append_cons, IH.
Qed.

Lemma append_nil_r (a : string) : a +:+ "" = a.
Proof.
  induction a as [|x a IH]; [reflexivity |].
  now rewrite append_cons, IH.
Qed.

Lemma split_not_nil (c : ascii) (s : string) : split c s <> [].
Proof.
  induction s as [|a r IH]; simpl; [discriminate |].
  destruct (Ascii.eqb a c); [discriminate |].
  destruct (split c r); [contradiction | discriminate].
Qed.

(** Joining the pieces of a split with the separator gives the string
    back. *)
Lemma join_split (c : ascii) (s : string) :
  join (String c "") (split c s) = s.
Proof.
  induction s as [|a r IH]; simpl; [reflexivity |].
  destruct (Ascii.eqb_spec a c) as [-> | Hne].
  - pose proof (split_not_nil c r) as Hn.
    destruct (split c r) as [|w ws]; [contradiction |].
    simpl in *. now rewrite IH.
  - pose proof (split_not_nil c r) as Hn.
    destruct (split c r) as [|w ws]; [contradiction |].
    destruct ws as [|w' ws']; simpl in *; now rewrite <- IH.
Qed.

Lemma join_app (sep : string) (l1 l2 : list string) :
  l1 <> [] -> l2 <> [] ->
  join sep (l1 ++ l2) = join sep l1 +:+ sep +:+ join sep l2.
Proof.
  intros H1 H2. induction l1 as [|x l1 IH]; [contradiction |].
  destruct l1 as [|y l1].
  - destruct l2 as [|z l2]; [contradiction | reflexivity].
  - change (join sep ((x :: y :: l1) ++ l2))
      with (x +:+ sep +:+ join sep ((y :: l1) ++ l2)).
    rewrite IH by discriminate.
    change (join sep (x :: y :: l1)) with (x +:+ sep +:+ join sep (y :: l1)).
    now rewrite !append_assoc.
Qed.

(** A list of at least two labels ends with two labels. *)
Lemma two_last {A} (l : list A) :
  2 <= length l -> exists pre a b, l = pre ++ [a; b].
Proof.
  induction l as [|x l IH]; simpl; [lia |].
  intros H. destruct l as [|y l]; [simpl in H; lia |].
  destruct l as [|z l].
  - exists [], x, y. reflexivity.
  - destruct IH as (pre & a & b & E); [simpl; lia |].
    exists (x :: pre), a, b. now rewrite E.
Qed.

Lemma last2_app {A} (pre : list A) (a b : A) : last2 (pre ++ [a; b]) = [a; b].
Proof.
  unfold last2. rewrite length_app. simpl.
  replace (length pre + 2 - 2) with (length pre + 0) by lia.
  now rewrite drop_app_add.
Qed.

Lemma last_app2 {A} (pre : list A) (a b d : A) :
  List.last (pre ++ [a; b]) d = b.
Proof.
  replace (pre ++ [a; b]) with ((pre ++ [a]) ++ [b])
    by now rewrite <- app_assoc.
  apply last_last.
Qed.
End JsFacts.

(** *** Objects *)

Module ObjFacts.
Import JsVal.

Lemma lookup_set_eq (k : string) (v : value) (o : obj) :
  lookup k (set k v o) = v.
Proof.
  induction o as [|[k' v'] o IH]; simpl.
  - now rewrite String.eqb_refl.
  - destruct (String.eqb_spec k' k) as [-> | Hne]; simpl.
    + now rewrite String.eqb_refl.
    + destruct (String.eqb_spec k' k); [contradiction | exact IH].
Qed.

Lemma lookup_set_ne (k k' : string) (v : value) (o : obj) :
  k <> k' -> lookup k' (set k v o) = lookup k' o.
Proof.
  intros Hne. induction o as [|[k0 v0] o IH]; simpl.
  - destruct (String.eqb_spec k k'); [contradiction | reflexivity].
  - destruct (String.eqb_spec k0 k) as [-> | H0]; simpl.
    + destruct (String.eqb_spec k k'); [contradiction | reflexivity].
    + destruct (String.eqb_spec k0 k'); [reflexivity | exact IH].
Qed.

(** Destructuring a value that has properties reads the property. *)
Lemma destructure_get (name : string) (v : value) (k : string) (x : value) :
  get v k = Ok x -> destructure name v k = Ok x.
Proof. destruct v; simpl; intros H; first [discriminate | exact H]. Qed.

(** Destructuring throws on [undefined] and on [null] only. *)
Lemma destructure_throws (name : string) (v : value) (k : string) (e : exn) :
  destructure name v k = Throw e ->
  (v = VUndef
   /\ e = TypeError ("Cannot destructure property '" +:+ k +:+ "' of '"
                     +:+ name +:+ "' as it is undefined."))
  \/ (v = VNull
      /\ e = TypeError ("Cannot destructure property '" +:+ k +:+ "' of '"
                        +:+ name +:+ "' as it is null.")).
Proof.
  destruct v; simpl; intros H; try discriminate.
  - left. split; [reflexivity | congruence].
  - right. split; [reflexivity | congruence].
Qed.

Lemma destructure_returns (name : string) (v : value) (k : string) (x : value) :
  destructure name v k = Ok x -> get v k = Ok x.
Proof. destruct v; simpl; intros H; first [discriminate | exact H]. Qed.
End ObjFacts.

(** *** Dates *)

Module DateFacts.
Import Js JsVal JsDate WhoisClient.
Local Open Scope Z_scope.

Example epoch : toISOString 0 = "1970-01-01T00:00:00.000Z".
Proof. vm_compute. reflexivity. Qed.

Example before_epoch : toISOString (-1) = "1969-12-31T23:59:59.999Z".
Proof. vm_compute. reflexivity. Qed.

Example time_value_range :
  toISOString maxTime = "+275760-09-13T00:00:00.000Z"
  /\ toISOString (- maxTime) = "-271821-04-20T00:00:00.000Z".
Proof. vm_compute. split; reflexivity. Qed.

(** A date-only string is midnight UTC of its day on every engine. *)
Example date_only_is_utc (eng : engine) :
  parse eng "2025-08-13" = Some 1755043200000%Z
  /\ parse eng "2024-02-29" = Some 1709164800000%Z
  /\ parse eng "1970-01-01" = Some 0%Z.
Proof. vm_compute. repeat split; reflexivity. Qed.

(** A month or a day out of bounds is left to the engine. *)
Example out_of_bounds (eng : engine) (s : string) :
  In s ["2025-13-45"; "2025-00-10"; "2025-01-32"; "2025-02-30"] ->
  parse eng s = t ← eng.(parseOther) s; timeClip t.
Proof.
  intros [<- | [<- | [<- | [<- | []]]]]; reflexivity.
Qed.

Example civil_samples :
  civilFromDay (dayFromCivil 2000 2 29) = (2000, 2, 29)%Z
  /\ civilFromDay (dayFromCivil 1900 3 1) = (1900, 3, 1)%Z
  /\ civilFromDay (dayFromCivil 0 1 1) = (0, 1, 1)%Z
  /\ civilFromDay (dayFromCivil 9999 12 31) = (9999, 12, 31)%Z
  /\ (dayFromCivil 1900 3 1 - dayFromCivil 1900 2 28 = 1)%Z
  /\ (dayFromCivil 2000 3 1 - dayFromCivil 2000 2 28 = 2)%Z.
Proof. vm_compute. repeat split; reflexivity. Qed.
(** **** The civil calendar *)

(** The dates of the years 0 to 399, one by one. *)
Lemma cycle_check :
  forallb (fun y =>
    forallb (fun m =>
      forallb (fun d =>
        if d <=? daysInMonth y m
        then sameDate (civilFromDay (dayFromCivil y m d)) (y, m, d)
        else true) (seqZ 1 31)) (seqZ 1 12)) (seqZ 0 400) = true.
Proof. vm_compute. reflexivity. Qed.

Lemma cycle (y m d : Z) :
  0 <= y < 400 -> 1 <= m <= 12 -> 1 <= d <= daysInMonth y m ->
  civilFromDay (dayFromCivil y m d) = (y, m, d).
Proof.
  intros Hy Hm Hd.
  assert (Hd31 : d <= 31).
  { unfold daysInMonth in Hd.
    destruct (m =? 2); [destruct (isLeap y) |
      destruct ((m =? 4) || (m =? 6) || (m =? 9) || (m =? 11))%bool]; lia. }
  pose proof cycle_check as H.
  rewrite forallb_forall in H.
  specialize (H y ltac:(apply list_elem_of_In, elem_of_seqZ; lia)).
  rewrite forallb_forall in H.
  specialize (H m ltac:(apply list_elem_of_In, elem_of_seqZ; lia)).
  rewrite forallb_forall in H.
  specialize (H d ltac:(apply list_elem_of_In, elem_of_seqZ; lia)).
  cbv beta in H.
  destruct (Z.leb_spec d (daysInMonth y m)) as [_ | Hgt]; [| lia].
  rename H into Hs.
  destruct (civilFromDay (dayFromCivil y m d)) as [[a b] c].
  unfold sameDate in Hs.
  apply andb_true_iff in Hs as [Hs H3]. apply andb_true_iff in Hs as [H1 H2].
  apply Z.eqb_eq in H1, H2, H3. now subst.
Qed.
Lemma isLeap_period (y k : Z) : isLeap (y + 400 * k) = isLeap y.
Proof.
  unfold isLeap.
  replace ((y + 400 * k) mod 4) with (y mod 4)
    by (replace (y + 400 * k) with (y + (100 * k) * 4) by lia;
        now rewrite Z.mod_add).
  replace ((y + 400 * k) mod 100) with (y mod 100)
    by (replace (y + 400 * k) with (y + (4 * k) * 100) by lia;
        now rewrite Z.mod_add).
  replace ((y + 400 * k) mod 400) with (y mod 400)
    by (replace (y + 400 * k) with (y + k * 400) by lia;
        now rewrite Z.mod_add).
  reflexivity.
Qed.

Lemma dayFromCivil_period (y m d k : Z) :
  dayFromCivil (y + 400 * k) m d = dayFromCivil y m d + 146097 * k.
Proof.
  unfold dayFromCivil. cbv zeta.
  set (y' := if m <=? 2 then y - 1 else y).
  replace (if m <=? 2 then y + 400 * k - 1 else y + 400 * k)
    with (y' + k * 400) by (unfold y'; destruct (m <=? 2); lia).
  rewrite Z.div_add by lia.
  replace (y' + k * 400 - (y' / 400 + k) * 400) with (y' - y' / 400 * 400)
    by lia.
  lia.
Qed.

Lemma civilFromDay_period (n k : Z) :
  civilFromDay (n + 146097 * k)
  = let '(y, m, d) := civilFromDay n in (y + 400 * k, m, d).
Proof.
  unfold civilFromDay. cbv zeta.
  replace (n + 146097 * k + 719468) with (n + 719468 + k * 146097) by lia.
  rewrite Z.div_add by lia.
  set (era := (n + 719468) / 146097).
  replace (n + 719468 + k * 146097 - (era + k) * 146097)
    with (n + 719468 - era * 146097) by lia.
  f_equal. f_equal. lia.
Qed.

(** A civil date is the civil date of its day number. *)
Lemma civil_roundtrip (y m d : Z) :
  1 <= m <= 12 -> 1 <= d <= daysInMonth y m ->
  civilFromDay (dayFromCivil y m d) = (y, m, d).
Proof.
  intros Hm Hd.
  pose proof (Z.div_mod y 400 ltac:(lia)) as Hy.
  pose proof (Z.mod_pos_bound y 400 ltac:(lia)) as Hr.
  set (q := y / 400) in *. set (r := y mod 400) in *.
  replace y with (r + 400 * q) by lia.
  rewrite dayFromCivil_period, civilFromDay_period.
  rewrite cycle; [reflexivity | lia | lia |].
  unfold daysInMonth in *.
  replace (isLeap r) with (isLeap y); [exact Hd |].
  replace y with (r + 400 * q) by lia. apply isLeap_period.
Qed.
(** **** The date-only string *)

Lemma digitChar_spec (k : Z) :
  0 <= k < 10 ->
  is_digit (digitChar k) = true /\ digitValue (digitChar k) = k.
Proof.
  intros H.
  assert (E : k = 0 \/ k = 1 \/ k = 2 \/ k = 3 \/ k = 4 \/ k = 5 \/ k = 6
              \/ k = 7 \/ k = 8 \/ k = 9) by lia.
  repeat (destruct E as [-> | E]; [split; reflexivity |]).
  subst. split; reflexivity.
Qed.

(** The ten characters of the date-only string. *)
Lemma isoDate_chars (y m d : Z) :
  isoDate y m d
  = String (digitChar (y / 10 / 10 / 10 mod 10))
      (String (digitChar (y / 10 / 10 mod 10))
         (String (digitChar (y / 10 mod 10))
            (String (digitChar (y mod 10))
               (String "-"
                  (String (digitChar (m / 10 mod 10))
                     (String (digitChar (m mod 10))
                        (String "-"
                           (String (digitChar (d / 10 mod 10))
                              (String (digitChar (d mod 10)) ""))))))))).
Proof. reflexivity. Qed.

Lemma dayFromCivil_bounds (y m d : Z) :
  0 <= y <= 9999 -> 1 <= m <= 12 -> 1 <= d <= 31 ->
  -100000000 <= dayFromCivil y m d <= 100000000.
Proof.
  intros Hy Hm Hd. unfold dayFromCivil. cbv zeta.
  destruct (m <=? 2); destruct (2 <? m); cbv iota;
    Z.div_mod_to_equations; lia.
Qed.

(** The normalizer on a civil date written [YYYY-MM-DD]. *)
Lemma parse_isoDate (eng : engine) (y m d : Z) :
  0 <= y <= 9999 -> 1 <= m <= 12 -> 1 <= d <= daysInMonth y m ->
  parse eng (isoDate y m d) = Some (dayFromCivil y m d * msPerDay).
Proof.
  intros Hy Hm Hd.
  assert (Hd31 : d <= 31).
  { unfold daysInMonth in Hd.
    destruct (m =? 2); [destruct (isLeap y) |
      destruct ((m =? 4) || (m =? 6) || (m =? 9) || (m =? 11))%bool]; lia. }
  rewrite isoDate_chars.
  set (y1 := y / 10 / 10 / 10 mod 10). set (y2 := y / 10 / 10 mod 10).
  set (y3 := y / 10 mod 10). set (y4 := y mod 10).
  set (m1 := m / 10 mod 10). set (m2 := m mod 10).
  set (d1 := d / 10 mod 10). set (d2 := d mod 10).
  destruct (digitChar_spec y1 ltac:(unfold y1; Z.div_mod_to_equations; lia)) as [Iy1 Vy1].
  destruct (digitChar_spec y2 ltac:(unfold y2; Z.div_mod_to_equations; lia)) as [Iy2 Vy2].
  destruct (digitChar_spec y3 ltac:(unfold y3; Z.div_mod_to_equations; lia)) as [Iy3 Vy3].
  destruct (digitChar_spec y4 ltac:(unfold y4; Z.div_mod_to_equations; lia)) as [Iy4 Vy4].
  destruct (digitChar_spec m1 ltac:(unfold m1; Z.div_mod_to_equations; lia)) as [Im1 Vm1].
  destruct (digitChar_spec m2 ltac:(unfold m2; Z.div_mod_to_equations; lia)) as [Im2 Vm2].
  destruct (digitChar_spec d1 ltac:(unfold d1; Z.div_mod_to_equations; lia)) as [Id1 Vd1].
  destruct (digitChar_spec d2 ltac:(unfold d2; Z.div_mod_to_equations; lia)) as [Id2 Vd2].
  assert (Ey : ((((0 * 10 + y1) * 10 + y2) * 10 + y3) * 10 + y4) = y)
    by (unfold y1, y2, y3, y4; Z.div_mod_to_equations; lia).
  assert (Em : (0 * 10 + m1) * 10 + m2 = m)
    by (unfold m1, m2; Z.div_mod_to_equations; lia).
  assert (Ed : (0 * 10 + d1) * 10 + d2 = d)
    by (unfold d1, d2; Z.div_mod_to_equations; lia).
  clearbody y1 y2 y3 y4 m1 m2 d1 d2.
  unfold parse.
  match goal with
  | |- context [dateOnly ?s] => assert (E : dateOnly s = Some (y, m, d))
  end.
  { unfold dateOnly, allDigits.
    cbn [take drop String.length Nat.eqb list_ascii_of_string
         forallb number andb String.eqb Ascii.eqb Bool.eqb].
    rewrite Iy1, Iy2, Iy3, Iy4, Im1, Im2, Id1, Id2.
    cbn [andb]. rewrite Vy1, Vy2, Vy3, Vy4, Vm1, Vm2, Vd1, Vd2.
    now rewrite Ey, Em, Ed. }
  rewrite E.
  destruct (Z.leb_spec 1 m); [| lia]. destruct (Z.leb_spec m 12); [| lia].
  destruct (Z.leb_spec 1 d); [| lia]. destruct (Z.leb_spec d 31); [| lia].
  destruct (Z.leb_spec d (daysInMonth y m)); [| lia].
  cbn [andb]. unfold timeClip.
  pose proof (dayFromCivil_bounds y m d Hy Hm ltac:(lia)) as Hb.
  destruct (Z.leb_spec (Z.abs (dayFromCivil y m d * msPerDay)) maxTime)
    as [_ | Hgt]; [reflexivity |].
  unfold msPerDay, maxTime in Hgt. lia.
Qed.

(** The date-only string matches the first format. *)
Lemma isoDate_matches (y m d : Z) :
  0 <= y <= 9999 -> 1 <= m <= 12 -> 1 <= d <= 31 ->
  Regex.test false (nth 0 dateFormats Regex.Eps) (isoDate y m d) = true.
Proof.
  intros Hy Hm Hd. rewrite isoDate_chars.
  set (y1 := y / 10 / 10 / 10 mod 10). set (y2 := y / 10 / 10 mod 10).
  set (y3 := y / 10 mod 10). set (y4 := y mod 10).
  set (m1 := m / 10 mod 10). set (m2 := m mod 10).
  set (d1 := d / 10 mod 10). set (d2 := d mod 10).
  destruct (digitChar_spec y1 ltac:(unfold y1; Z.div_mod_to_equations; lia)) as [Iy1 _].
  destruct (digitChar_spec y2 ltac:(unfold y2; Z.div_mod_to_equations; lia)) as [Iy2 _].
  destruct (digitChar_spec y3 ltac:(unfold y3; Z.div_mod_to_equations; lia)) as [Iy3 _].
  destruct (digitChar_spec y4 ltac:(unfold y4; Z.div_mod_to_equations; lia)) as [Iy4 _].
  destruct (digitChar_spec m1 ltac:(unfold m1; Z.div_mod_to_equations; lia)) as [Im1 _].
  destruct (digitChar_spec m2 ltac:(unfold m2; Z.div_mod_to_equations; lia)) as [Im2 _].
  destruct (digitChar_spec d1 ltac:(unfold d1; Z.div_mod_to_equations; lia)) as [Id1 _].
  destruct (digitChar_spec d2 ltac:(unfold d2; Z.div_mod_to_equations; lia)) as [Id2 _].
  clearbody y1 y2 y3 y4 m1 m2 d1 d2.
  unfold Regex.test, dateFormats, nth, Regex.seq, Regex.times, Regex.digit.
  cbn [Regex.scan Regex.m Regex.forced Regex.free Regex.one Regex.hi_is_zero
       Regex.dec_hi option_map pred Regex.cls_has Regex.cset_has existsb xorb
       orb Regex.canon Ascii.eqb Bool.eqb andb String.length].
  rewrite Iy1, Iy2, Iy3, Iy4. cbn [orb xorb].
  cbn [Regex.scan Regex.m Regex.forced Regex.free Regex.one Regex.hi_is_zero
       Regex.dec_hi option_map pred Regex.cls_has Regex.cset_has existsb xorb
       orb Regex.canon Ascii.eqb Bool.eqb andb String.length].
  rewrite Im1, Im2.
  cbn [Regex.scan Regex.m Regex.forced Regex.free Regex.one Regex.hi_is_zero
       Regex.dec_hi option_map pred Regex.cls_has Regex.cset_has existsb xorb
       orb Regex.canon Ascii.eqb Bool.eqb andb String.length].
  rewrite Id1, Id2.
  reflexivity.
Qed.

Lemma toISOString_midnight (y m d : Z) :
  0 <= y <= 9999 -> 1 <= m <= 12 -> 1 <= d <= daysInMonth y m ->
  toISOString (dayFromCivil y m d * msPerDay)
  = isoDate y m d +:+ "T00:00:00.000Z".
Proof.
  intros Hy Hm Hd. unfold toISOString.
  rewrite Z.div_mul by (unfold msPerDay; lia).
  rewrite Z.mod_mul by (unfold msPerDay; lia).
  rewrite civil_roundtrip by assumption.
  unfold yearString.
  destruct (Z.leb_spec 0 y); [| lia]. destruct (Z.leb_spec y 9999); [| lia].
  cbn [andb]. unfold isoDate.
  change (pad 2 (0 / 3600000)) with "00".
  change (pad 2 (0 / 60000 mod 60)) with "00".
  change (pad 2 (0 / 1000 mod 60)) with "00".
  change (pad 3 (0 mod 1000)) with "000".
  rewrite !JsFacts.append_assoc. reflexivity.
Qed.

(** Every civil date of the years 0 to 9999, written [YYYY-MM-DD], is
    normalized to the ISO form of its midnight UTC, on every engine. *)
Lemma parseDate_isoDate (eng : engine) (y m d : Z) :
  0 <= y <= 9999 -> 1 <= m <= 12 -> 1 <= d <= daysInMonth y m ->
  parseDate eng (isoDate y m d) = VStr (isoDate y m d +:+ "T00:00:00.000Z").
Proof.
  intros Hy Hm Hd.
  assert (Hd31 : d <= 31).
  { unfold daysInMonth in Hd.
    destruct (m =? 2); [destruct (isLeap y) |
      destruct ((m =? 4) || (m =? 6) || (m =? 9) || (m =? 11))%bool]; lia. }
  unfold parseDate.
  assert (Hne : String.eqb (isoDate y m d) "" = false)
    by (rewrite isoDate_chars; reflexivity).
  rewrite Hne. unfold dateFormats, parseDateLoop.
  pose proof (isoDate_matches y m d Hy Hm ltac:(lia)) as Ht.
  unfold dateFormats, nth in Ht. rewrite Ht.
  rewrite parse_isoDate by assumption.
  now rewrite toISOString_midnight.
Qed.
End DateFacts.

(** *** Registry resolution *)

Module RegistryFacts.
Import Js JsVal RegistryDetector JsFacts.

(** C7. For a domain of at least two labels, [getTLD] returns a key [k]:
    when the domain has at least three labels and its last two labels,
    joined, are a known compound suffix, [k] is that pair; otherwise [k] is
    the last label. Either way [k] is what stands after a dot at the end of
    the lower-cased domain, so it is never a label from the middle. *)
Theorem getTLD_registry_key (d : string) :
  2 <= length (split "." (toLowerCase d)) ->
  let parts := split "." (toLowerCase d) in
  let pair := join "." (last2 parts) in
  exists k : string,
    getTLD d = Ok k
    /\ ((3 <= length parts /\ pair ∈ commonSecondLevel /\ k = pair)
        \/ (~ (3 <= length parts /\ pair ∈ commonSecondLevel)
            /\ k = List.last parts ""))
    /\ exists front : string, toLowerCase d = front +:+ "." +:+ k.
Proof.
  intros Hlen. cbv zeta.
  assert (Hd : String.eqb d "" = false).
  { destruct d; [simpl in Hlen; lia | reflexivity]. }
  pose proof (join_split "." (toLowerCase d)) as Hjoin.
  unfold getTLD. rewrite Hd.
  remember (split "." (toLowerCase d)) as parts eqn:Eq.
  destruct (two_last parts Hlen) as (pre & a & b & Eparts).
  assert (Epair : join "." (last2 parts) = a +:+ "." +:+ b).
  { rewrite Eparts, last2_app. reflexivity. }
  assert (Elast : List.last parts "" = b).
  { rewrite Eparts. apply last_app2. }
  assert (Hb : toLowerCase d = join "." (pre ++ [a]) +:+ "." +:+ b).
  { rewrite <- Hjoin, Eparts.
    replace (pre ++ [a; b]) with ((pre ++ [a]) ++ [b])
      by now rewrite <- app_assoc.
    apply (join_app "." (pre ++ [a]) [b]); [destruct pre |]; discriminate. }
  destruct (Nat.ltb_spec (length parts) 2) as [Hlt | _]; [lia |].
  destruct (Nat.leb_spec 3 (length parts)) as [H3 | H3]; simpl.
  - destruct (bool_decide_reflect (join "." (last2 parts) ∈ commonSecondLevel))
      as [Hin | Hnin].
    + exists (join "." (last2 parts)).
      split; [reflexivity |]. split; [left; auto |].
      assert (Hpre : pre <> []).
      { intros ->. rewrite Eparts in H3. simpl in H3. lia. }
      exists (join "." pre).
      rewrite <- Hjoin, Epair, Eparts.
      apply (join_app "." pre [a; b]); [exact Hpre | discriminate].
    + exists (List.last parts ""). split; [reflexivity |].
      split; [right; split; [tauto | reflexivity] |].
      exists (join "." (pre ++ [a])). now rewrite Elast.
  - exists (List.last parts ""). split; [reflexivity |].
    split; [right; split; [lia | reflexivity] |].
    exists (join "." (pre ++ [a])). now rewrite Elast.
Qed.

Lemma getTLD_registry_key_witness :
  2 <= length (split "." (toLowerCase "www.Example.co.uk"))
  /\ getTLD "www.Example.co.uk" = Ok "co.uk".
Proof.
  split; [vm_compute; lia |].
  destruct (getTLD_registry_key "www.Example.co.uk") as (k & Hk & _).
  - vm_compute; lia.
  - rewrite Hk. rewrite <- Hk. vm_compute. reflexivity.
Defined.

(** Every server of the static table is a non-empty host name. *)
Lemma whoisServers_nonempty (k s : string) :
  whoisServers !! k = Some s -> s <> "".
Proof.
  intros H. unfold whoisServers in H.
  apply elem_of_list_to_map_2, list_elem_of_In in H.
  match type of H with
  | In _ ?l =>
      assert (Hall : forallb (fun p => negb (String.eqb (snd p) "")) l = true)
        by (vm_compute; reflexivity)
  end.
  rewrite forallb_forall in Hall. specialize (Hall _ H). simpl in Hall.
  intros ->. discriminate.
Qed.

(** C8. For a domain whose registry key is not in the static WHOIS table,
    [getWhoisServer] returns the default referral server
    [whois.iana.org], which is neither null nor empty. The function takes
    no network: it has nothing to fetch with. *)
Theorem getWhoisServer_default (d k : string) :
  getTLD d = Ok k ->
  whoisServers !! k = None ->
  getWhoisServer d = Ok "whois.iana.org" /\ "whois.iana.org" <> "".
Proof.
  intros Hk Hnone. split; [| discriminate].
  unfold getWhoisServer. rewrite Hk. unfold mbind, result_bind.
  rewrite Hnone. reflexivity.
Qed.

Lemma getWhoisServer_default_witness :
  getWhoisServer "example.zz" = Ok "whois.iana.org" /\ "whois.iana.org" <> "".
Proof.
  apply (getWhoisServer_default "example.zz" "zz"); vm_compute; reflexivity.
Defined.

(** On every domain [getWhoisServer] answers with a non-empty server. *)
Lemma getWhoisServer_nonempty (d s : string) :
  getWhoisServer d = Ok s -> s <> "".
Proof.
  unfold getWhoisServer, mbind, result_bind.
  destruct (getTLD d) as [k | e]; [| discriminate].
  destruct (whoisServers !! k) as [s' |] eqn:E.
  - intros [= <-]. pose proof (whoisServers_nonempty _ _ E) as Hne.
    destruct (String.eqb_spec s' ""); [contradiction | exact Hne].
  - intros [= <-]. discriminate.
Qed.
End RegistryFacts.

(** *** The WHOIS text parser *)

Module WhoisParseFacts.
Import Js JsVal WhoisClient Samples.

(** A text of comment lines leaves every field as it was. *)
Lemma comment_lines_skipped (eng : JsDate.engine) (lines : list string)
    (r : parsed) :
  Forall (fun line => startsWith (trim line) "%" = true) lines ->
  fold_left (parseLine eng) lines r = r.
Proof.
  induction 1 as [|line lines Hline _ IH]; [reflexivity |].
  simpl. unfold parseLine at 2. rewrite Hline, orb_true_r. exact IH.
Qed.

(** C1, the claim on a concrete input: the text [queryWhoisServer]
    returns when every backend fails has only comment lines, the parser
    extracts no field from it, and the record it produces for it has
    [found: true]. *)
Lemma parseWhoisResponse_not_available_found :
  queryWhoisServer Samples.offline "whois.verisign-grs.com" "example.com"
  = VStr (notAvailable "example.com")
  /\ parseLines Samples.strictEngine (notAvailable "example.com") = parsed0
  /\ parseWhoisResponse Samples.strictEngine
       (VStr (notAvailable "example.com")) "example.com"
     = Ok (blank "example.com" (notAvailable "example.com"))
  /\ lookup "found" (blank "example.com" (notAvailable "example.com"))
     = VBool true.
Proof. vm_compute. repeat split; reflexivity. Qed.

(** C1, amended. For every non-empty WHOIS text, [parseWhoisResponse]
    returns a record with [found: true] that keeps the text as [rawData];
    when the parser extracts no field from the text, the record is the
    blank one: [found: true] with every field empty. A record with
    [found: false] is what the empty text gives. *)
Theorem parseWhoisResponse_text_found (eng : JsDate.engine)
    (text domain : string) :
  text <> "" ->
  (exists o : obj,
      parseWhoisResponse eng (VStr text) domain = Ok o
      /\ lookup "found" o = VBool true
      /\ lookup "rawData" o = VStr text
      /\ (parseLines eng text = parsed0 -> o = blank domain text))
  /\ (exists o : obj,
         parseWhoisResponse eng (VStr "") domain = Ok o
         /\ lookup "found" o = VBool false).
Proof.
  intros Hne. split.
  - unfold parseWhoisResponse.
    assert (Ht : truthy (VStr text) = true).
    { simpl. destruct (String.eqb_spec text ""); [contradiction | reflexivity]. }
    rewrite Ht. simpl negb. cbv iota.
    eexists. split; [reflexivity |].
    split; [reflexivity |]. split; [reflexivity |].
    intros ->. reflexivity.
  - eexists. split; reflexivity.
Qed.

Lemma parseWhoisResponse_text_found_witness :
  notAvailable "example.com" <> ""
  /\ exists o : obj,
       parseWhoisResponse Samples.strictEngine
         (VStr (notAvailable "example.com")) "example.com" = Ok o
       /\ lookup "found" o = VBool true.
Proof.
  assert (Hne : notAvailable "example.com" <> "") by (vm_compute; discriminate).
  split; [exact Hne |].
  destruct (parseWhoisResponse_text_found Samples.strictEngine
              (notAvailable "example.com") "example.com" Hne)
    as [(o & Ho & Hf & _) _].
  exists o. split; assumption.
Defined.

(** *** [parseDate] *)

(** The loop over the formats, without the loop: when one of the formats
    matches and [new Date] accepts the string, the ISO form of the time
    value; in every other case the string itself. *)
Lemma parseDateLoop_spec (eng : JsDate.engine) (formats : list Regex.regex)
    (s : string) :
  parseDateLoop eng formats s
  = match (if existsb (fun f => Regex.test false f s) formats
           then JsDate.parse eng s else None) with
    | Some t => JsDate.toISOString t
    | None => s
    end.
Proof.
  induction formats as [|f fs IH]; [reflexivity |].
  simpl. destruct (Regex.test false f s); simpl.
  - destruct (JsDate.parse eng s) as [t |]; [reflexivity |].
    rewrite IH. destruct (existsb _ fs); reflexivity.
  - exact IH.
Qed.

(** C9, the claim on a concrete input: [2025-13-45] matches the pattern
    YYYY-MM-DD, and the normalizer returns it as it is, not in an ISO
    form. *)
Lemma parseDate_pattern_not_date :
  Regex.test false (nth 0 dateFormats Regex.Eps) "2025-13-45" = true
  /\ parseDate Samples.strictEngine "2025-13-45" = VStr "2025-13-45".
Proof. vm_compute. split; reflexivity. Qed.

(** C9, amended. For every non-empty date string: when the string matches
    one of the four patterns and [new Date] accepts the whole string, the
    result is [toISOString] of the time value so read; when no pattern
    matches, or [new Date] does not accept the string, the result is the
    string itself. On every engine a civil date of the years 0 to 9999
    written [YYYY-MM-DD] gives that date followed by [T00:00:00.000Z], and
    the line [Expiry date: 2025-08-13] gives [dates.expires] the value
    [2025-08-13T00:00:00.000Z]. *)
Theorem parseDate_normalizes (eng : JsDate.engine) (s : string) :
  s <> "" ->
  (forall t, existsb (fun f => Regex.test false f s) dateFormats = true ->
             JsDate.parse eng s = Some t ->
             parseDate eng s = VStr (JsDate.toISOString t))
  /\ (existsb (fun f => Regex.test false f s) dateFormats = false ->
      parseDate eng s = VStr s)
  /\ (JsDate.parse eng s = None -> parseDate eng s = VStr s)
  /\ (forall y m d : Z,
         (0 <= y <= 9999)%Z -> (1 <= m <= 12)%Z ->
         (1 <= d <= JsDate.daysInMonth y m)%Z ->
         parseDate eng (JsDate.isoDate y m d)
         = VStr (JsDate.isoDate y m d +:+ "T00:00:00.000Z"))
  /\ (forall domain : string,
         exists o : obj,
           parseWhoisResponse eng (VStr "Expiry date: 2025-08-13") domain = Ok o
           /\ lookup "dates" o
              = VObj [("expires", VStr "2025-08-13T00:00:00.000Z")]).
Proof.
  intros Hne.
  assert (E : parseDate eng s
              = VStr (match (if existsb (fun f => Regex.test false f s) dateFormats
                             then JsDate.parse eng s else None) with
                      | Some t => JsDate.toISOString t
                      | None => s
                      end)).
  { unfold parseDate. destruct (String.eqb_spec s ""); [contradiction |].
    now rewrite parseDateLoop_spec. }
  split; [| split; [| split; [| split]]].
  - intros t Hm Hp. rewrite E, Hm, Hp. reflexivity.
  - intros Hm. rewrite E, Hm. reflexivity.
  - intros Hp. rewrite E, Hp. destruct (existsb _ _); reflexivity.
  - intros y m d. apply DateFacts.parseDate_isoDate.
  - intros domain. eexists. split; [reflexivity |]. vm_compute. reflexivity.
Qed.

Lemma parseDate_normalizes_witness :
  "2025-08-13" <> ""
  /\ parseDate Samples.strictEngine "2025-08-13"
     = VStr "2025-08-13T00:00:00.000Z".
Proof.
  assert (Hne : "2025-08-13" <> "") by discriminate.
  split; [exact Hne |].
  destruct (parseDate_normalizes Samples.strictEngine "2025-08-13" Hne)
    as (Hiso & _).
  apply (Hiso 1755043200000%Z); vm_compute; reflexivity.
Defined.
End WhoisParseFacts.

(** *** The enrichment pass *)

Module EnrichFacts.
Import Js JsVal WhoisClient ObjFacts.

(** The loop over a list of patterns ends at the first pattern that
    matches: the patterns after it play no part. *)
Lemma firstMatch_first {T} (pre post : list (T * Regex.grouped)) (t : T)
    (p : Regex.grouped) (g raw : string) :
  Forall (fun q => Regex.match1 true (snd q) raw = None) pre ->
  Regex.match1 true p raw = Some g ->
  firstMatch (pre ++ (t, p) :: post) raw = Some (t, g).
Proof.
  intros Hpre Hp. induction Hpre as [|[t' q] pre Hq _ IH]; simpl.
  - now rewrite Hp.
  - simpl in Hq. now rewrite Hq.
Qed.

Lemma enrichDate_frame (raw : string) (ds : obj)
    (entry : string * list Regex.grouped) (k : string) :
  truthy (lookup k ds) = true ->
  lookup k (enrichDate raw ds entry) = lookup k ds.
Proof.
  intros Hk. destruct entry as [type patterns]. unfold enrichDate.
  destruct (truthy (lookup type ds)) eqn:Ht; simpl; [reflexivity |].
  destruct (firstMatch _ raw) as [[_ g] |]; [| reflexivity].
  apply lookup_set_ne. intros ->. congruence.
Qed.

Lemma enrichDates_frame (raw : string) (ds : obj) (k : string) :
  truthy (lookup k ds) = true ->
  lookup k (enrichDates raw ds) = lookup k ds.
Proof.
  unfold enrichDates. generalize datePatterns as entries.
  intros entries. revert ds.
  induction entries as [|entry entries IH]; intros ds Hk; [reflexivity |].
  simpl. rewrite IH.
  - now apply enrichDate_frame.
  - now rewrite enrichDate_frame.
Qed.

(** A round for another type leaves the date of this type as it is. *)
Lemma enrichDate_other (raw : string) (ds : obj) (type : string)
    (patterns : list Regex.grouped) (k : string) :
  type <> k ->
  lookup k (enrichDate raw ds (type, patterns)) = lookup k ds.
Proof.
  intros Hne. unfold enrichDate.
  destruct (negb (truthy (lookup type ds))); [| reflexivity].
  destruct (firstMatch _ raw) as [[_ g] |]; [| reflexivity].
  now apply lookup_set_ne.
Qed.

(** The round for this type, on an empty date. *)
Lemma enrichDate_same (raw : string) (ds : obj) (type : string)
    (patterns : list Regex.grouped) :
  truthy (lookup type ds) = false ->
  lookup type (enrichDate raw ds (type, patterns))
  = match firstMatch (untagged patterns) raw with
    | Some (_, g) => VStr (trim g)
    | None => lookup type ds
    end.
Proof.
  intros Hf. unfold enrichDate. rewrite Hf. simpl.
  destruct (firstMatch _ raw) as [[_ g] |]; [| reflexivity].
  apply lookup_set_eq.
Qed.

Lemma enrichDates_fill (raw : string) (ds : obj) (type : string)
    (patterns : list Regex.grouped) :
  In (type, patterns) datePatterns ->
  truthy (lookup type ds) = false ->
  lookup type (enrichDates raw ds)
  = match firstMatch (untagged patterns) raw with
    | Some (_, g) => VStr (trim g)
    | None => lookup type ds
    end.
Proof.
  intros Hin Hf. unfold enrichDates, datePatterns in *. cbn [fold_left].
  destruct Hin as [E | [E | [E | []]]]; inversion E; subst; clear E.
  - rewrite !enrichDate_other by discriminate.
    now apply enrichDate_same.
  - rewrite enrichDate_other by discriminate.
    rewrite enrichDate_same by (now rewrite enrichDate_other by discriminate).
    now rewrite enrichDate_other by discriminate.
  - rewrite enrichDate_same by (now rewrite !enrichDate_other by discriminate).
    now rewrite !enrichDate_other by discriminate.
Qed.

Lemma enrichStatus_appends (raw : string) (st : list value) :
  exists extra : list value,
    enrichStatus raw st = st ++ extra /\ length extra <= 1.
Proof.
  unfold enrichStatus.
  destruct (firstMatch _ raw) as [[_ g] |].
  - destruct (existsb _ st).
    + exists []. rewrite app_nil_r. split; [reflexivity | simpl; lia].
    + eexists. split; [reflexivity | simpl; lia].
  - exists []. rewrite app_nil_r. split; [reflexivity | simpl; lia].
Qed.

Lemma enrichRegistrant_frame (raw : string) (r : value) :
  truthy (get_opt r "name") || truthy (get_opt r "organization") = true ->
  enrichRegistrant raw r = Ok r.
Proof.
  intros H. unfold enrichRegistrant.
  destruct (firstMatch _ raw) as [[organization g] |]; [| reflexivity].
  assert (Hr : truthy r = true).
  { destruct r as [| | [] | n | s | |]; try reflexivity;
      cbv in H; discriminate H. }
  rewrite Hr. simpl negb. cbv iota.
  apply orb_true_iff in H.
  destruct (truthy (get_opt r "name")); simpl; [reflexivity |].
  destruct H as [H | H]; [discriminate | now rewrite H].
Qed.

(** C6, the claim on concrete inputs: a record whose status list holds
    [active] gets [ok] added by the pass; and when the block of the first
    nameserver pattern names no host, the second pattern is consulted
    although the first one matched. *)
Lemma enrich_writes_populated_status :
  Samples.activeRecord.(status) = [VStr "active"]
  /\ enrichFromRawData Samples.activeRecord "Status: ok"
     = Ok {| domain := "example.com"; rawData := VStr "Status: ok";
             registrar := VNull; registrant := VNull; nameservers := VArr [];
             status := [VStr "active"; VStr "ok"]; dates := [];
             dnssec := VNull; whoisServer := VNull; additionalInfo := None |}
  /\ (exists o : obj,
        formatApiResponse Samples.activePayload "example.com" = Ok o
        /\ lookup "status" o = VArr [VStr "active"; VStr "ok"])
  /\ Regex.match1 true (nth 0 nameserverPatterns (labelled ""))
       Samples.noHostBlock = Some "none"
  /\ enrichNameservers Samples.noHostBlock (VArr [])
     = VArr [VStr "ns1.example.com"].
Proof.
  split; [reflexivity |]. split; [vm_compute; reflexivity |].
  split; [eexists; split; vm_compute; reflexivity |].
  split; vm_compute; reflexivity.
Qed.

Lemma enrichRegistrant_total (raw : string) (r : value) :
  settable r = true -> exists r', enrichRegistrant raw r = Ok r'.
Proof.
  intros Hs. unfold enrichRegistrant.
  destruct (firstMatch _ raw) as [[organization g] |]; [| eauto].
  destruct (truthy r) eqn:Ht; simpl negb; cbv iota.
  - unfold settable in Hs. rewrite Ht in Hs. simpl in Hs.
    destruct r; try discriminate Hs;
      (destruct (_ && _); [simpl; eauto | eauto]).
  - simpl. eauto.
Qed.

(** A nameserver pattern whose block names no host is passed over. *)
Lemma nameserversLoop_step (p : Regex.grouped) (ps : list Regex.grouped)
    (raw block : string) :
  Regex.match1 true p raw = Some block ->
  nameserversLoop (p :: ps) raw
  = match blockNameservers block with
    | [] => nameserversLoop ps raw
    | ns => Some ns
    end.
Proof. intros H. simpl. now rewrite H. Qed.

Lemma enrichRegistrant_fill (raw : string) (r : value) (props : obj) :
  (truthy r = false /\ props = []) \/ r = VObj props ->
  truthy (lookup "name" props) || truthy (lookup "organization" props) = false ->
  enrichRegistrant raw r
  = Ok match firstMatch registrantPatterns raw with
       | Some (organization, g) =>
           VObj (set (if organization then "organization" else "name")
                     (VStr (trim g)) props)
       | None => r
       end.
Proof.
  intros Hr Hno. unfold enrichRegistrant.
  destruct (firstMatch registrantPatterns raw) as [[organization g] |];
    [| reflexivity].
  apply orb_false_iff in Hno as [Hn Ho].
  destruct Hr as [[Hf ->] | ->].
  - rewrite Hf. reflexivity.
  - cbn [truthy negb get_opt get]. rewrite Hn, Ho. reflexivity.
Qed.

(** C6, amended. The pass completes on every record whose registrant is
    falsy or an object. Whenever it completes:
    - [domain], [rawData] and [dnssec] are as before;
    - a date, the nameservers, the registrar and the WHOIS server are as
      before when they were populated; when empty, a date, the registrar and
      the WHOIS server take [match[1]], trimmed, of the first pattern of
      their list that matches, and the nameservers take the hosts of the
      first pattern whose block names a host;
    - the registrant is as before when it had a name or an organization;
      an empty registrant, or an object without the two, gets the name or
      the organization of the first registrant pattern that matches;
    - the status list, populated or not, keeps its entries and gets the
      value of the first status pattern that matches added, unless it is
      listed already;
    - [additionalInfo] is rebuilt from the raw text alone.
    In a loop over patterns the first pattern that matches decides, whatever
    patterns follow it; in the loop over the nameserver patterns a pattern
    that matches a block without a host is passed over. *)
Theorem enrichFromRawData_frame (r : record) (raw : string) :
  (settable r.(registrant) = true ->
   exists r', enrichFromRawData r raw = Ok r')
  /\ (forall r', enrichFromRawData r raw = Ok r' ->
        r'.(domain) = r.(domain)
        /\ r'.(rawData) = r.(rawData)
        /\ r'.(dnssec) = r.(dnssec)
        /\ (forall type, truthy (lookup type r.(dates)) = true ->
              lookup type r'.(dates) = lookup type r.(dates))
        /\ (forall type patterns,
              In (type, patterns) datePatterns ->
              truthy (lookup type r.(dates)) = false ->
              lookup type r'.(dates)
              = match firstMatch (untagged patterns) raw with
                | Some (_, g) => VStr (trim g)
                | None => lookup type r.(dates)
                end)
        /\ (noNameservers r.(nameservers) = false ->
              r'.(nameservers) = r.(nameservers))
        /\ (noNameservers r.(nameservers) = true ->
              r'.(nameservers)
              = match nameserversLoop nameserverPatterns raw with
                | Some hosts => strings hosts
                | None => r.(nameservers)
                end)
        /\ (truthy r.(registrar) = true -> r'.(registrar) = r.(registrar))
        /\ (truthy r.(registrar) = false ->
              r'.(registrar)
              = match firstMatch (untagged registrarPatterns) raw with
                | Some (_, g) => VStr (trim g)
                | None => r.(registrar)
                end)
        /\ (truthy r.(whoisServer) = true ->
              r'.(whoisServer) = r.(whoisServer))
        /\ (truthy r.(whoisServer) = false ->
              r'.(whoisServer)
              = match Regex.match1 true whoisServerPattern raw with
                | Some g => VStr (trim g)
                | None => r.(whoisServer)
                end)
        /\ (truthy (get_opt r.(registrant) "name")
            || truthy (get_opt r.(registrant) "organization") = true ->
              r'.(registrant) = r.(registrant))
        /\ (forall props,
              (truthy r.(registrant) = false /\ props = [])
              \/ r.(registrant) = VObj props ->
              truthy (lookup "name" props)
              || truthy (lookup "organization" props) = false ->
              r'.(registrant)
              = match firstMatch registrantPatterns raw with
                | Some (organization, g) =>
                    VObj (set (if organization then "organization" else "name")
                              (VStr (trim g)) props)
                | None => r.(registrant)
                end)
        /\ r'.(status)
           = match firstMatch (untagged statusPatterns) raw with
             | Some (_, g) =>
                 if existsb (fun v => is_str v (trim g)) r.(status)
                 then r.(status)
                 else r.(status) ++ [VStr (trim g)]
             | None => r.(status)
             end
        /\ r'.(additionalInfo) = enrichAdditionalInfo raw)
  /\ (forall (T : Type) (pre post : list (T * Regex.grouped)) (t : T)
             (p : Regex.grouped) (g : string),
        Forall (fun q => Regex.match1 true (snd q) raw = None) pre ->
        Regex.match1 true p raw = Some g ->
        firstMatch (pre ++ (t, p) :: post) raw = Some (t, g))
  /\ (forall (p : Regex.grouped) (ps : list Regex.grouped) (block : string),
        Regex.match1 true p raw = Some block ->
        nameserversLoop (p :: ps) raw
        = match blockNameservers block with
          | [] => nameserversLoop ps raw
          | hosts => Some hosts
          end).
Proof.
  split; [| split; [| split]].
  - intros Hs. unfold enrichFromRawData.
    destruct (enrichRegistrant_total raw _ Hs) as [rt Hrt].
    rewrite Hrt. eexists. reflexivity.
  - intros r' H. unfold enrichFromRawData in H.
    destruct (enrichRegistrant raw r.(registrant)) as [rt | e] eqn:Hrt;
      [| discriminate H].
    unfold mbind, result_bind in H. injection H as <-. cbn [domain rawData
      dnssec dates nameservers registrar whoisServer registrant status
      additionalInfo].
    split; [reflexivity |]. split; [reflexivity |]. split; [reflexivity |].
    split; [intros type Ht; now apply enrichDates_frame |].
    split; [intros type patterns Hin Ht; now apply enrichDates_fill |].
    split; [intros Hn; unfold enrichNameservers; now rewrite Hn |].
    split; [intros Hn; unfold enrichNameservers; now rewrite Hn |].
    split; [intros Ht; unfold enrichRegistrar; now rewrite Ht |].
    split; [intros Ht; unfold enrichRegistrar; rewrite Ht; simpl negb;
            cbv iota;
            now destruct (firstMatch (untagged registrarPatterns) raw)
              as [[[] g] |] |].
    split; [intros Ht; unfold enrichWhoisServer; now rewrite Ht |].
    split; [intros Ht; unfold enrichWhoisServer; now rewrite Ht |].
    split; [intros Ht; rewrite (enrichRegistrant_frame raw _ Ht) in Hrt;
            now injection Hrt |].
    split; [intros props Hp Hno;
            rewrite (enrichRegistrant_fill raw _ props Hp Hno) in Hrt;
            now injection Hrt |].
    split; [| reflexivity].
    unfold enrichStatus.
    now destruct (firstMatch (untagged statusPatterns) raw) as [[[] g] |].
  - intros T pre post t p g. apply firstMatch_first.
  - intros p ps block. apply nameserversLoop_step.
Qed.

Lemma enrichFromRawData_frame_witness :
  settable Samples.activeRecord.(registrant) = true
  /\ exists r', enrichFromRawData Samples.activeRecord "Status: ok" = Ok r'.
Proof.
  split; [reflexivity |].
  apply (enrichFromRawData_frame Samples.activeRecord "Status: ok").
  reflexivity.
Defined.

(** *** The nameserver block *)

Lemma nameserversLoop_some (patterns : list Regex.grouped) (raw : string)
    (l : list string) :
  nameserversLoop patterns raw = Some l ->
  exists pattern block,
    In pattern patterns
    /\ Regex.match1 true pattern raw = Some block
    /\ l = blockNameservers block
    /\ l <> [].
Proof.
  induction patterns as [|p ps IH]; simpl; [discriminate |].
  destruct (Regex.match1 true p raw) as [block |] eqn:Hm.
  - destruct (blockNameservers block) as [|h hs] eqn:Hb.
    + intros H. destruct (IH H) as (q & b & Hin & Hq & Hl & Hne).
      exists q, b. split; [now right | auto].
    + intros [= <-]. exists p, block. rewrite Hb.
      split; [now left |]. split; [exact Hm |].
      split; [reflexivity | discriminate].
  - intros H. destruct (IH H) as (q & b & Hin & Hq & Hl & Hne).
    exists q, b. split; [now right | auto].
Qed.

Lemma candidates_are_hosts (block h : string) :
  In h (candidates block) ->
  includes h "." = true
  /\ 3 < String.length h
  /\ exists line, In line (split nl block) /\ h = firstToken (trim line).
Proof.
  unfold candidates. intros H.
  apply filter_In in H as [Hin Hkeep].
  unfold keepHost in Hkeep.
  apply andb_true_iff in Hkeep as [Hkeep Hlen].
  apply andb_true_iff in Hkeep as [_ Hdot].
  apply Nat.ltb_lt in Hlen.
  apply in_map_iff in Hin as (line' & <- & Hin).
  apply filter_In in Hin as [Hin _].
  apply in_map_iff in Hin as (line & <- & Hin).
  eauto.
Qed.

(** [slice(0, 10)] leaves no host exactly when there is no candidate. *)
Lemma blockNameservers_nil (block : string) :
  blockNameservers block = [] <-> candidates block = [].
Proof.
  unfold blockNameservers. destruct (candidates block); simpl; split;
    first [reflexivity | discriminate].
Qed.

(** The loop passes over the patterns that do not match and over those
    whose block has no candidate. *)
Lemma nameserversLoop_passes (patterns : list Regex.grouped) (raw : string) :
  (forall q b, In q patterns -> Regex.match1 true q raw = Some b ->
               candidates b = []) ->
  nameserversLoop patterns raw = None.
Proof.
  induction patterns as [|p ps IH]; intros H; [reflexivity |].
  simpl. destruct (Regex.match1 true p raw) as [block |] eqn:Hm.
  - assert (Hb : blockNameservers block = [])
      by (apply blockNameservers_nil, (H p); [now left | exact Hm]).
    rewrite Hb. apply IH. intros q b Hq. apply H. now right.
  - apply IH. intros q b Hq. apply H. now right.
Qed.

(** The loop ends at the first pattern whose block has a candidate, with
    the first ten candidates of that block. *)
Lemma nameserversLoop_first (pre post : list Regex.grouped)
    (p : Regex.grouped) (raw block : string) :
  (forall q b, In q pre -> Regex.match1 true q raw = Some b ->
               candidates b = []) ->
  Regex.match1 true p raw = Some block ->
  candidates block <> [] ->
  nameserversLoop (pre ++ p :: post) raw = Some (firstn 10 (candidates block)).
Proof.
  intros Hpre Hm Hne. induction pre as [|q qs IH]; simpl.
  - rewrite Hm. fold (blockNameservers block).
    destruct (blockNameservers block) eqn:Hb; [| reflexivity].
    now apply blockNameservers_nil in Hb.
  - assert (IH' : nameserversLoop (qs ++ p :: post) raw
                  = Some (firstn 10 (candidates block)))
      by (apply IH; intros q' b Hq'; apply Hpre; now right).
    destruct (Regex.match1 true q raw) as [b |] eqn:Hq; [| exact IH'].
    assert (Hb : blockNameservers b = [])
      by (apply blockNameservers_nil, (Hpre q); [now left | exact Hq]).
    now rewrite Hb.
Qed.

(** C10. When the record has no nameservers, the pass looks at the two
    nameserver patterns in turn. The first pattern that matches a block with
    a candidate decides: the nameservers become the first ten candidates of
    that block, all of them when there are ten or fewer, each the first
    white-space separated token of a line of the block, with a dot in it
    and more than three characters. When no pattern matches a block with a
    candidate the field stays as it is. Either way the field is as before
    or a list of one to ten hosts, and the nameservers of the record the
    pass returns are those. *)
Theorem enrichNameservers_first_ten (raw : string) (ns : value) :
  noNameservers ns = true ->
  (forall (pre post : list Regex.grouped) (p : Regex.grouped) (block : string),
      nameserverPatterns = pre ++ p :: post ->
      (forall q b, In q pre -> Regex.match1 true q raw = Some b ->
                   candidates b = []) ->
      Regex.match1 true p raw = Some block ->
      candidates block <> [] ->
      enrichNameservers raw ns = strings (firstn 10 (candidates block))
      /\ length (firstn 10 (candidates block))
         = Nat.min 10 (length (candidates block))
      /\ Forall (fun h => includes h "." = true
                          /\ 3 < String.length h
                          /\ exists line, In line (split nl block)
                                          /\ h = firstToken (trim line))
           (firstn 10 (candidates block)))
  /\ ((forall q b, In q nameserverPatterns ->
                   Regex.match1 true q raw = Some b -> candidates b = []) ->
      enrichNameservers raw ns = ns)
  /\ (enrichNameservers raw ns = ns
      \/ exists hosts, enrichNameservers raw ns = strings hosts
                       /\ 1 <= length hosts <= 10)
  /\ (forall r r', enrichFromRawData r raw = Ok r' ->
        r'.(nameservers) = enrichNameservers raw r.(nameservers)).
Proof.
  intros Hn. split; [| split; [| split]].
  - intros pre post p block Hps Hpre Hm Hne.
    split; [| split].
    + unfold enrichNameservers. rewrite Hn, Hps.
      now rewrite (nameserversLoop_first pre post p raw block Hpre Hm Hne).
    + apply List.length_firstn.
    + apply List.Forall_forall. intros h Hh.
      apply candidates_are_hosts.
      rewrite <- (firstn_skipn 10 (candidates block)).
      apply in_or_app. now left.
  - intros Hall. unfold enrichNameservers. rewrite Hn.
    now rewrite (nameserversLoop_passes _ _ Hall).
  - unfold enrichNameservers. rewrite Hn.
    destruct (nameserversLoop nameserverPatterns raw) as [l |] eqn:Hl;
      [| now left].
    right. exists l. split; [reflexivity |].
    destruct (nameserversLoop_some _ _ _ Hl)
      as (pattern & block & _ & _ & -> & Hne).
    unfold blockNameservers in *. split.
    + destruct (firstn 10 (candidates block)); [contradiction | simpl; lia].
    + rewrite List.length_firstn. lia.
  - intros r r' H. unfold enrichFromRawData in H.
    destruct (enrichRegistrant raw r.(registrant)) as [rt | e];
      [| discriminate H].
    unfold mbind, result_bind in H. now injection H as <-.
Qed.

Lemma enrichNameservers_first_ten_witness :
  noNameservers (VArr []) = true
  /\ enrichNameservers Cases.twelveHosts (VArr [])
     = strings ["ns01.example.com"; "ns02.example.com"; "ns03.example.com";
                "ns04.example.com"; "ns05.example.com"; "ns06.example.com";
                "ns07.example.com"; "ns08.example.com"; "ns09.example.com";
                "ns10.example.com"].
Proof.
  split; [reflexivity |].
  set (p := nth 0 nameserverPatterns (labelled "")).
  set (block := match Regex.match1 true p Cases.twelveHosts with
                | Some b => b
                | None => EmptyString
                end).
  destruct (enrichNameservers_first_ten Cases.twelveHosts (VArr []) eq_refl)
    as (Hfirst & _).
  destruct (Hfirst [] (tl nameserverPatterns) p block) as (E & _).
  - reflexivity.
  - intros q b [].
  - vm_compute. reflexivity.
  - vm_compute. discriminate.
  - rewrite E. vm_compute. reflexivity.
Defined.
End EnrichFacts.

(** *** The RDAP client *)

Module RdapFacts.
Import Js JsVal Net RdapClient ObjFacts.

(** A key of the bootstrap map resolves without the network. *)
Lemma getRdapUrl_cached (net : network) (cache : gmap string string)
    (d k url : string) :
  RegistryDetector.getTLD d = Ok k ->
  cache !! k = Some url ->
  RegistryDetector.getRdapUrl net cache d = Ok (Some url, cache).
Proof.
  intros Hk Hc. unfold RegistryDetector.getRdapUrl. rewrite Hk.
  unfold mbind, result_bind. now rewrite Hc.
Qed.

(** C4. For a lookup that reaches the registry (a well-formed domain whose
    RDAP URL is known): a response with status 404 makes [lookupDomain]
    return the not-found record, with [found: false]; a response with any
    other status outside 200..299 makes it throw an error whose message is
    [RDAP query failed:] followed by the status and the reason; a fetch
    that is aborted by the timeout makes it throw an error with the message
    [RDAP query timed out after 10000ms]; a fetch that fails in another way
    has its own error thrown on. *)
Theorem lookupDomain_by_status (net : network) (cache cache' : gmap string string)
    (d url : string) :
  d <> "" ->
  Regex.test true RegistryDetector.domainFormat (trim (toLowerCase d)) = true ->
  RegistryDetector.getRdapUrl net cache (trim (toLowerCase d))
    = Ok (Some url, cache') ->
  url <> "" ->
  let clean := trim (toLowerCase d) in
  let answer := fst (lookupDomain net cache (VStr d)) in
  (forall reason body,
      net.(fetch) (url +:+ "domain/" +:+ clean) = Response 404 reason body ->
      answer = Ok (notFound clean)
      /\ lookup "found" (notFound clean) = VBool false)
  /\ (forall st reason body,
         net.(fetch) (url +:+ "domain/" +:+ clean) = Response st reason body ->
         ok st = false -> st <> 404%Z ->
         answer = Throw (Error ("RDAP query failed: " +:+ pretty st +:+ " "
                                +:+ reason))
         /\ occurs_in (pretty st)
              ("RDAP query failed: " +:+ pretty st +:+ " " +:+ reason)
         /\ occurs_in reason
              ("RDAP query failed: " +:+ pretty st +:+ " " +:+ reason))
  /\ (forall e,
         net.(fetch) (url +:+ "domain/" +:+ clean) = Rejected e ->
         e.(exn_name) = "TimeoutError" ->
         answer = Throw (Error "RDAP query timed out after 10000ms")
         /\ occurs_in "timed out" "RDAP query timed out after 10000ms")
  /\ (forall e,
         net.(fetch) (url +:+ "domain/" +:+ clean) = Rejected e ->
         e.(exn_name) <> "TimeoutError" ->
         answer = Throw e).
Proof.
  intros Hd Hfmt Hurl Hne clean answer.
  assert (E : answer
              = try_catch (query net (Some url) clean) rethrow).
  { unfold answer, lookupDomain.
    destruct (String.eqb_spec d ""); [contradiction |].
    fold clean. unfold clean at 1. rewrite Hfmt. simpl negb. cbv iota.
    unfold clean at 1. rewrite Hurl. reflexivity. }
  assert (Q : query net (Some url) clean
              = match net.(fetch) (url +:+ "domain/" +:+ clean) with
                | Rejected e => Throw e
                | Response st statusText body =>
                    if negb (ok st) then
                      if (st =? 404)%Z then Ok (notFound clean)
                      else Throw (Error ("RDAP query failed: " +:+ pretty st
                                         +:+ " " +:+ statusText))
                    else data ← body; parseRdapResponse data clean
                end).
  { unfold query. destruct url; [contradiction | reflexivity]. }
  rewrite E, Q. clear E Q.
  split; [| split; [| split]].
  - intros reason body ->. split; reflexivity.
  - intros st reason body -> Hok H404. rewrite Hok. simpl negb. cbv iota.
    destruct (Z.eqb_spec st 404); [contradiction |].
    split; [reflexivity |]. split.
    + exists "RDAP query failed: ", (" " +:+ reason). reflexivity.
    + exists ("RDAP query failed: " +:+ pretty st +:+ " "), "".
      now rewrite JsFacts.append_nil_r, !JsFacts.append_assoc.
  - intros e -> Hname. unfold try_catch, rethrow. rewrite Hname.
    split; [reflexivity |].
    exists "RDAP query ", " after 10000ms". reflexivity.
  - intros e -> Hname. unfold try_catch, rethrow.
    destruct (String.eqb_spec e.(exn_name) "TimeoutError");
      [contradiction | reflexivity].
Qed.

Lemma lookupDomain_by_status_witness :
  fst (lookupDomain (Samples.rdapStatus 503 "Service Unavailable")
         RegistryDetector.rdapBootstrap (VStr "Example.COM"))
  = Throw (Error "RDAP query failed: 503 Service Unavailable").
Proof.
  pose proof (lookupDomain_by_status
                (Samples.rdapStatus 503 "Service Unavailable")
                RegistryDetector.rdapBootstrap RegistryDetector.rdapBootstrap
                "Example.COM" "https://rdap.verisign.com/com/v1/") as H.
  destruct H as (_ & H & _).
  - discriminate.
  - vm_compute. reflexivity.
  - apply (getRdapUrl_cached _ _ _ "com"); vm_compute; reflexivity.
  - discriminate.
  - destruct (H 503%Z "Service Unavailable" (Ok VNull)) as [E _].
    + vm_compute. reflexivity.
    + reflexivity.
    + discriminate.
    + rewrite E. vm_compute. reflexivity.
Defined.

(** *** vCards *)

Lemma lookup_push (k : string) (v : value) (contact : obj) :
  lookup k (push k v contact) = VArr (listed (lookup k contact) ++ [v]).
Proof.
  unfold push. destruct (lookup k contact); apply lookup_set_eq.
Qed.

(** C5, the claim on a concrete input: a member with the three elements
    property, parameters and value is passed over, and the contact gets no
    name; with the type before the value the name is set. *)
Lemma parseVCard_triple_ignored :
  parseVCard (VArr [VArr [VStr "fn"; VObj []; VStr "Jane Doe"]]) = Ok []
  /\ parseVCard (VArr [VArr [VStr "fn"; VObj []; VStr "text"; VStr "Jane Doe"]])
     = Ok [("name", VStr "Jane Doe")].
Proof. split; reflexivity. Qed.

(** C5, amended. The parser reads each member of the vCard array as the
    four elements property, parameters, type and value, and matches the
    lower-cased property: [fn] sets the name; [org] sets the organization,
    to the first element when the value is an array; [email] adds the value
    to the emails; [tel] adds a phone with the value and the [type]
    parameter, [voice] when there is none; [adr] with a value of at least
    seven components adds an address with the [type] parameter ([postal]
    when there is none) and the components PO box, extended address,
    street, locality, region, postal code and country. A member with fewer
    than four elements changes nothing. *)
Theorem parseField_reads_quadruple (contact : obj) (property : string)
    (params kind val : value) (more : list value) :
  (exists c' : obj,
      parseField contact (VArr (VStr property :: params :: kind :: val :: more))
      = Ok c'
      /\ (toLowerCase property = "fn" -> lookup "name" c' = val)
      /\ (toLowerCase property = "org" ->
          lookup "organization" c'
          = match val with VArr items => nth 0 items VUndef | _ => val end)
      /\ (toLowerCase property = "email" ->
          lookup "emails" c'
          = VArr (listed (lookup "emails" contact) ++ [val]))
      /\ (toLowerCase property = "tel" ->
          lookup "phones" c'
          = VArr (listed (lookup "phones" contact)
                  ++ [VObj [("type", or_else (get_opt params "type")
                                       (VStr "voice"));
                            ("value", val)]]))
      /\ (toLowerCase property = "adr" ->
          forall components,
            val = VArr components -> 7 <= length components ->
            lookup "addresses" c'
            = VArr (listed (lookup "addresses" contact)
                    ++ [VObj [("type", or_else (get_opt params "type")
                                         (VStr "postal"));
                              ("poBox", nth 0 components VUndef);
                              ("extendedAddress", nth 1 components VUndef);
                              ("streetAddress", nth 2 components VUndef);
                              ("locality", nth 3 components VUndef);
                              ("region", nth 4 components VUndef);
                              ("postalCode", nth 5 components VUndef);
                              ("country", nth 6 components VUndef)]])))
  /\ (forall items, length items < 4 ->
                    parseField contact (VArr items) = Ok contact).
Proof.
  split.
  - eexists. split; [reflexivity |]. unfold interpret.
    split; [| split; [| split; [| split]]].
    + intros ->. simpl. apply lookup_set_eq.
    + intros ->. simpl. apply lookup_set_eq.
    + intros ->. simpl. apply lookup_push.
    + intros ->. simpl. apply lookup_push.
    + intros -> components -> Hlen.
      change (lookup "addresses"
                (if 7 <=? length components
                 then push "addresses" (address params components)
                        (ensure "addresses" contact)
                 else ensure "addresses" contact)
              = VArr (listed (lookup "addresses" contact)
                      ++ [address params components])).
      destruct (Nat.leb_spec 7 (length components)) as [_ | Hlt]; [| lia].
      rewrite lookup_push. unfold ensure.
      destruct (lookup "addresses" contact) as [| | b | n | s | l | o] eqn:El;
        cbn [truthy]; rewrite ?El, ?lookup_set_eq; try reflexivity.
      all: match goal with
           | |- context [if ?c then _ else _] => destruct c
           end; rewrite ?El, ?lookup_set_eq; reflexivity.
  - intros items Hlen. unfold parseField.
    destruct (Nat.ltb_spec (length items) 4); [reflexivity | lia].
Qed.
End RdapFacts.

(** *** The lookup tool *)

Module ToolFacts.
Import Js JsVal Net DomainLookupTool ObjFacts.

Lemma lookup_setIf_ne (c : bool) (k k' : string) (v : value) (o : obj) :
  k <> k' -> lookup k' (setIf c k v o) = lookup k' o.
Proof.
  intros Hne. unfold setIf. destruct c; [now apply lookup_set_ne | reflexivity].
Qed.

(** Reads of a key through writes to other keys. *)
Ltac through :=
  repeat first
    [ rewrite lookup_setIf_ne by discriminate
    | rewrite lookup_set_ne by discriminate
    | rewrite lookup_set_eq ].

(** C3. When both clients throw, [execute] throws one error; its message
    is [Both RDAP and WHOIS lookups failed. RDAP: ] followed by the message
    of the RDAP client, [, WHOIS: ] and the message of the WHOIS client,
    whichever of the two ran first. It holds both protocol names and both
    messages. *)
Theorem execute_both_fail (rdapLookup whoisLookup : value -> result obj)
    (now : Z) (params domain : value) (e1 e2 : exn) :
  get params "domain" = Ok domain ->
  truthy domain = true ->
  rdapLookup domain = Throw e1 ->
  whoisLookup domain = Throw e2 ->
  let msg := "Both RDAP and WHOIS lookups failed. RDAP: " +:+ e1.(exn_message)
             +:+ ", WHOIS: " +:+ e2.(exn_message) in
  execute rdapLookup whoisLookup now params = Throw (Error msg)
  /\ occurs_in "RDAP" msg /\ occurs_in "WHOIS" msg
  /\ occurs_in e1.(exn_message) msg /\ occurs_in e2.(exn_message) msg.
Proof.
  intros Hd Ht H1 H2 msg. split.
  - unfold execute. rewrite (ObjFacts.destructure_get _ _ _ _ Hd).
    unfold mbind at 1, result_bind at 1.
    rewrite Ht. simpl negb. cbv iota.
    unfold attempt, lookupBy.
    destruct (truthy (get_opt params "prefer_whois")); simpl String.eqb;
      cbv iota; rewrite H1, H2; reflexivity.
  - unfold msg. split; [| split; [| split]].
    + exists "Both ", (" and WHOIS lookups failed. RDAP: " +:+ e1.(exn_message)
                      +:+ ", WHOIS: " +:+ e2.(exn_message)). reflexivity.
    + exists "Both RDAP and ", (" lookups failed. RDAP: " +:+ e1.(exn_message)
                                +:+ ", WHOIS: " +:+ e2.(exn_message)).
      reflexivity.
    + exists "Both RDAP and WHOIS lookups failed. RDAP: ",
             (", WHOIS: " +:+ e2.(exn_message)). reflexivity.
    + exists ("Both RDAP and WHOIS lookups failed. RDAP: " +:+ e1.(exn_message)
              +:+ ", WHOIS: "), "".
      now rewrite JsFacts.append_nil_r, !JsFacts.append_assoc.
Qed.

Lemma execute_both_fail_witness :
  run Samples.strictEngine Samples.bothBroken RegistryDetector.rdapBootstrap 0
      Samples.exampleParams
  = Throw (Error "Both RDAP and WHOIS lookups failed. RDAP: RDAP query failed: 503 Service Unavailable, WHOIS: WHOIS lookup failed: whoisText.split is not a function").
Proof.
  unfold run.
  refine (proj1 (execute_both_fail _ _ 0 Samples.exampleParams
                   (VStr "example.com")
                   (Error "RDAP query failed: 503 Service Unavailable")
                   (Error "WHOIS lookup failed: whoisText.split is not a function")
                   _ _ _ _)); vm_compute; reflexivity.
Defined.

(** **** The WHOIS client never reports a domain as not found *)

Lemma queryOne_object (net : network) (apiUrl : string) (data : value) :
  WhoisClient.queryOne net apiUrl = Some data -> truthy data = true.
Proof.
  unfold WhoisClient.queryOne.
  destruct (net.(fetch) apiUrl) as [e | st reason body]; [discriminate |].
  destruct (ok st); [| discriminate].
  destruct body as [body | e]; [| discriminate].
  destruct body as [| | b | n | s | l | o]; cbn [get]; try discriminate.
  all: try (replace (String.eqb "parsedData" "length") with false by reflexivity;
            replace (String.eqb "rawData" "length") with false by reflexivity).
  all: cbn [truthy orb]; try discriminate.
  destruct (truthy (lookup "parsedData" o) || truthy (lookup "rawData" o));
    [| discriminate].
  intros [= <-]. reflexivity.
Qed.

Lemma queryWhoisServer_truthy (net : network) (server d : string) :
  truthy (WhoisClient.queryWhoisServer net server d) = true.
Proof.
  unfold WhoisClient.queryWhoisServer.
  destruct (WhoisClient.queryLoop net (WhoisClient.apiUrls d)) as [data |] eqn:E.
  - revert E. generalize (WhoisClient.apiUrls d) as urls.
    induction urls as [|u urls IH]; simpl; [discriminate |].
    destruct (WhoisClient.queryOne net u) as [data' |] eqn:E1.
    + intros [= <-]. exact (queryOne_object _ _ _ E1).
    + exact IH.
  - reflexivity.
Qed.

Lemma formatApiResponse_found (apiResponse : value) (d : string) (r : obj) :
  WhoisClient.formatApiResponse apiResponse d = Ok r ->
  lookup "found" r = VBool true.
Proof.
  unfold WhoisClient.formatApiResponse, mbind, result_bind.
  destruct (get apiResponse "parsedData") as [pd | e]; [| discriminate].
  destruct (get apiResponse "rawData") as [raw | e]; [| discriminate].
  destruct (truthy raw).
  - destruct raw; try discriminate.
    destruct (WhoisClient.enrichFromRawData _ _) as [r' | e]; [| discriminate].
    intros [= <-]. reflexivity.
  - intros [= <-]. reflexivity.
Qed.

Lemma whois_lookup_found (eng : JsDate.engine) (net : network)
    (domain : value) (r : obj) :
  WhoisClient.lookupDomain eng net domain = Ok r ->
  lookup "found" r = VBool true.
Proof.
  unfold WhoisClient.lookupDomain.
  destruct domain as [| | b | n | d | l | o]; try discriminate.
  destruct (String.eqb d ""); [discriminate |].
  destruct (negb _); [discriminate |].
  unfold try_catch, mbind, result_bind.
  destruct (RegistryDetector.getWhoisServer _) as [server | e]; [| discriminate].
  set (answer := WhoisClient.queryWhoisServer net server _).
  pose proof (queryWhoisServer_truthy net server (trim (toLowerCase d))) as Ht.
  fold answer in Ht.
  destruct (truthy answer && WhoisClient.isObject answer && _).
  - destruct (WhoisClient.formatApiResponse _ _) as [r' | e] eqn:E;
      [| discriminate].
    intros [= <-]. exact (formatApiResponse_found _ _ _ E).
  - unfold WhoisClient.parseWhoisResponse. rewrite Ht. simpl negb. cbv iota.
    destruct answer; try discriminate.
    intros [= <-]. reflexivity.
Qed.

(** **** The published record of a WHOIS answer *)

Lemma formatResult_whois (now : Z) (result : obj) (includeRaw : value) :
  truthy (lookup "found" result) = true ->
  lookup "method" result = VStr "whois" ->
  lookup "fallback_used" result = VBool true ->
  exists out : obj,
    formatResult now result includeRaw = Ok out
    /\ lookup "fallback_used" out = VBool true
    /\ lookup "method" out = VStr "whois"
    /\ lookup "primary_method_failed" out
       = lookup "primary_method_failed" result.
Proof.
  intros Hf Hm Hu. unfold formatResult.
  rewrite Hf, Hm, Hu. simpl negb. cbn [truthy is_str]. cbv iota.
  replace (String.eqb "whois" "rdap") with false by reflexivity.
  unfold mbind, result_bind.
  eexists. split; [reflexivity |].
  split; [| split]; through; reflexivity.
Qed.

(** Whatever [formatResult] returns for a record found by the fallback
    carries the three marks of the record. *)
Lemma formatResult_marks (now : Z) (result out : obj) (includeRaw : value) :
  truthy (lookup "found" result) = true ->
  lookup "fallback_used" result = VBool true ->
  formatResult now result includeRaw = Ok out ->
  lookup "fallback_used" out = VBool true
  /\ lookup "method" out = lookup "method" result
  /\ lookup "primary_method_failed" out
     = lookup "primary_method_failed" result.
Proof.
  intros Hf Hu. unfold formatResult.
  rewrite Hf, Hu. simpl negb. cbn [truthy]. cbv iota.
  unfold mbind, result_bind.
  destruct (is_str (lookup "method" result) "rdap").
  - destruct (formatRdapResult result) as [rdap | e]; [| discriminate].
    intros [= <-]. split; [| split]; through; reflexivity.
  - intros [= <-]. split; [| split]; through; reflexivity.
Qed.

(** For any two clients: when the client of the preferred protocol returns
    a record that is not found and the other client returns a record that is
    found, [execute] hands [formatResult] the record of the other client with
    its method, [fallback_used: true] and the name of the preferred
    protocol; every outcome it returns has the three marks. *)
Lemma execute_fallback_marks (rdapLookup whoisLookup : value -> result obj)
    (now : Z) (params domain : value) (r1 r2 : obj) :
  get params "domain" = Ok domain ->
  truthy domain = true ->
  let primary := if truthy (get_opt params "prefer_whois")
                 then "whois" else "rdap" in
  let fallback := if truthy (get_opt params "prefer_whois")
                  then "rdap" else "whois" in
  (if String.eqb primary "rdap" then rdapLookup else whoisLookup) domain
  = Ok r1 ->
  truthy (lookup "found" r1) = false ->
  (if String.eqb fallback "rdap" then rdapLookup else whoisLookup) domain
  = Ok r2 ->
  truthy (lookup "found" r2) = true ->
  execute rdapLookup whoisLookup now params
  = formatResult now
      (set "primary_method_failed" (VStr primary)
         (set "fallback_used" (VBool true)
            (set "method" (VStr fallback) r2)))
      (get_opt params "include_raw")
  /\ forall out : obj,
       execute rdapLookup whoisLookup now params = Ok out ->
       lookup "fallback_used" out = VBool true
       /\ lookup "method" out = VStr fallback
       /\ lookup "primary_method_failed" out = VStr primary.
Proof.
  intros Hd Ht primary fallback H1 Hf1 H2 Hf2.
  assert (E : execute rdapLookup whoisLookup now params
              = formatResult now
                  (set "primary_method_failed" (VStr primary)
                     (set "fallback_used" (VBool true)
                        (set "method" (VStr fallback) r2)))
                  (get_opt params "include_raw")).
  { unfold execute. rewrite (ObjFacts.destructure_get _ _ _ _ Hd).
    unfold mbind at 1, result_bind at 1.
    rewrite Ht. simpl negb. cbv iota.
    unfold primary, fallback in *. clear primary fallback.
    destruct (truthy (get_opt params "prefer_whois"));
      cbn in H1, H2; unfold attempt, lookupBy;
      change (String.eqb "rdap" "rdap") with true;
      change (String.eqb "whois" "rdap") with false;
      change (String.eqb "rdap" "") with false;
      change (String.eqb "whois" "") with false; cbv iota;
      rewrite H1, H2; unfold mbind, result_bind, try_catch;
      rewrite !lookup_set_ne by discriminate; rewrite Hf1, Hf2;
      reflexivity. }
  split; [exact E |].
  intros out Hout. rewrite E in Hout.
  apply formatResult_marks in Hout.
  - revert Hout. through. tauto.
  - through. exact Hf2.
  - through. reflexivity.
Qed.
End ToolFacts.

Module AlphabetFacts.
Import Regex HostNames JsFacts.

Lemma allChars_complete (c : ascii) : In c allChars.
Proof.
  unfold allChars. apply in_map_iff. exists (nat_of_ascii c).
  split; [apply ascii_nat_embedding |].
  apply in_seq. pose proof (nat_ascii_bounded c). lia.
Qed.

Lemma everyChar_app (p : ascii -> bool) (a b : string) :
  everyChar p (a +:+ b) = everyChar p a && everyChar p b.
Proof.
  unfold everyChar. induction a as [|x a IH]; [reflexivity |].
  rewrite append_cons. simpl. now rewrite IH, andb_assoc.
Qed.

Lemma everyChar_weaken (p q : ascii -> bool) (s : string) :
  (forall c, p c = true -> q c = true) ->
  everyChar p s = true -> everyChar q s = true.
Proof.
  intros Hpq. unfold everyChar. rewrite !forallb_forall. auto.
Qed.

Section Sound.
Context {A : Type}.
Variable ic : bool.
Variable total : nat.

Lemma sound_weaken (p q : ascii -> bool) (step : cont (A:=A) -> cont (A:=A)) :
  (forall c, p c = true -> q c = true) -> sound p step -> sound q step.
Proof.
  intros Hpq Hs k rest x H. destruct (Hs k rest x H) as (u & r' & E & Hk & Hu).
  exists u, r'. split; [exact E |]. split; [exact Hk |].
  now apply (everyChar_weaken p q).
Qed.

Lemma one_sound (p : ascii -> bool) : sound (A:=A) p (one p).
Proof.
  intros k rest x H. unfold one in H.
  destruct rest as [|c r]; [discriminate |].
  destruct (p c) eqn:Hc; [| discriminate].
  exists (String c ""), r. split; [reflexivity |]. split; [exact H |].
  unfold everyChar. simpl. now rewrite Hc.
Qed.

Lemma free_sound (p : ascii -> bool) (step : cont (A:=A) -> cont (A:=A)) (greedy : bool) :
  sound p step ->
  forall fuel hi, sound p (fun k => free step greedy k fuel hi).
Proof.
  intros Hs fuel. induction fuel as [|fuel IH]; intros hi k rest x H.
  - exists "", rest. split; [reflexivity |]. split; [| reflexivity].
    simpl in H. now destruct (hi_is_zero hi).
  - cbn [free] in H. destruct (hi_is_zero hi).
    { exists "", rest. split; [reflexivity |]. split; [exact H | reflexivity]. }
    assert (Hround : forall x,
               step (fun rest' =>
                       if String.length rest' <? String.length rest
                       then free step greedy k fuel (dec_hi hi) rest'
                       else None) rest = Some x ->
               exists used rest' : string,
                 rest = used +:+ rest' /\ k rest' = Some x
                 /\ everyChar p used = true).
    { intros y Hy. destruct (Hs _ _ _ Hy) as (u1 & r1 & E1 & Hk1 & Hu1).
      destruct (String.length r1 <? String.length rest); [| discriminate].
      destruct (IH _ _ _ _ Hk1) as (u2 & r2 & E2 & Hk2 & Hu2).
      exists (u1 +:+ u2), r2. split; [now rewrite append_assoc, <- E2 |].
      split; [exact Hk2 |]. now rewrite everyChar_app, Hu1, Hu2. }
    assert (Hstop : forall x, k rest = Some x ->
               exists used rest' : string,
                 rest = used +:+ rest' /\ k rest' = Some x
                 /\ everyChar p used = true).
    { intros y Hy. exists "", rest. split; [reflexivity |].
      split; [exact Hy | reflexivity]. }
    destruct greedy; unfold orelse in H.
    + destruct (step _ rest) as [y |] eqn:Er.
      * injection H as <-. now apply Hround.
      * now apply Hstop.
    + destruct (k rest) as [y |] eqn:Ek.
      * injection H as <-. now apply Hstop.
      * now apply Hround.
Qed.

Lemma forced_sound (p : ascii -> bool) (step : cont (A:=A) -> cont (A:=A)) (greedy : bool) :
  sound p step ->
  forall lo hi, sound p (fun k => forced step greedy k lo hi).
Proof.
  intros Hs lo. induction lo as [|lo IH]; intros hi k rest x H.
  - simpl in H. exact (free_sound p step greedy Hs _ _ _ _ _ H).
  - simpl in H. destruct (hi_is_zero hi).
    + exists "", rest. split; [reflexivity |]. split; [exact H | reflexivity].
    + destruct (Hs _ _ _ H) as (u1 & r1 & E1 & Hk1 & Hu1).
      destruct (IH _ _ _ _ Hk1) as (u2 & r2 & E2 & Hk2 & Hu2).
      exists (u1 +:+ u2), r2. split; [now rewrite append_assoc, <- E2 |].
      split; [exact Hk2 |]. now rewrite everyChar_app, Hu1, Hu2.
Qed.

(** What a pattern matched is made of characters the pattern can
    consume. *)
Lemma m_sound (r : regex) : sound (A:=A) (consumes ic r) (m ic total r).
Proof.
  induction r as [| a | | neg items | a IHa b IHb | a IHa b IHb
                  | lo hi greedy a IHa | |].
  - intros k rest x H. exists "", rest. now split.
  - apply one_sound.
  - apply one_sound.
  - apply one_sound.
  - intros k rest x H. simpl in H.
    destruct (IHa _ _ _ H) as (u1 & r1 & E1 & Hk1 & Hu1).
    destruct (IHb _ _ _ Hk1) as (u2 & r2 & E2 & Hk2 & Hu2).
    exists (u1 +:+ u2), r2. split; [now rewrite append_assoc, <- E2 |].
    split; [exact Hk2 |]. rewrite everyChar_app. apply andb_true_iff. split.
    + apply (everyChar_weaken (consumes ic a)); [| exact Hu1].
      intros c Hc. simpl. now rewrite Hc.
    + apply (everyChar_weaken (consumes ic b)); [| exact Hu2].
      intros c Hc. simpl. now rewrite Hc, orb_true_r.
  - intros k rest x H. simpl in H. unfold orelse in H.
    destruct (m ic total a k rest) as [y |] eqn:Ea.
    + injection H as <-.
      refine (sound_weaken (consumes ic a) _ _ _ IHa _ _ _ Ea).
      intros c Hc. simpl. now rewrite Hc.
    + refine (sound_weaken (consumes ic b) _ _ _ IHb _ _ _ H).
      intros c Hc. simpl. now rewrite Hc, orb_true_r.
  - intros k rest x H. simpl in H.
    exact (forced_sound _ _ greedy IHa lo hi _ _ _ H).
  - intros k rest x H. simpl in H. exists "", rest.
    destruct (_ =? _); [now split | discriminate].
  - intros k rest x H. simpl in H. exists "", rest.
    destruct rest; [now split | discriminate].
Qed.
End Sound.

Lemma append_length (a b : string) :
  String.length (a +:+ b) = String.length a + String.length b.
Proof.
  induction a as [|x a IH]; [reflexivity |].
  rewrite append_cons. simpl. now rewrite IH.
Qed.

(** [scan] succeeds at a position: after a prefix it has passed over. *)
Lemma scan_some {A} (at_ : nat -> string -> option A) (pos : nat)
    (rest : string) (x : A) :
  scan at_ pos rest = Some x ->
  exists skipped rest' : string,
    rest = skipped +:+ rest'
    /\ at_ (pos + String.length skipped) rest' = Some x.
Proof.
  revert pos. induction rest as [|c r IH]; intros pos H; simpl in H.
  - destruct (at_ pos "") as [y |] eqn:E; [| discriminate].
    exists "", "". split; [reflexivity |]. simpl. now rewrite Nat.add_0_r, E.
  - destruct (at_ pos (String c r)) as [y |] eqn:E.
    + exists "", (String c r). split; [reflexivity |].
      simpl. now rewrite Nat.add_0_r, E.
    + destruct (IH _ H) as (sk & r' & E1 & E2).
      exists (String c sk), r'. split; [now rewrite append_cons, <- E1 |].
      simpl. now rewrite <- Nat.add_succ_comm.
Qed.

(** What stands before a final [$] has matched the input to its end. *)
Lemma eol_whole {A} (ic : bool) (total : nat) (k : cont (A:=A))
    (rest : string) (x : A) :
  m ic total Eol k rest = Some x ->
  everyChar (consumes ic Eol) rest = true.
Proof. simpl. destruct rest; [reflexivity | discriminate]. Qed.

Lemma cat_whole {A} (ic : bool) (total : nat) (a b : regex) :
  (forall (k : cont (A:=A)) rest x,
      m ic total b k rest = Some x -> everyChar (consumes ic b) rest = true) ->
  forall (k : cont (A:=A)) rest x,
    m ic total (Cat a b) k rest = Some x ->
    everyChar (consumes ic (Cat a b)) rest = true.
Proof.
  intros Hb k rest x H. cbn [m] in H.
  destruct (m_sound ic total a _ _ _ H) as (u & r' & E & Hk & Hu).
  apply Hb in Hk. rewrite E, everyChar_app. apply andb_true_iff. split.
  - apply (everyChar_weaken (consumes ic a)); [| exact Hu].
    intros c Hc. simpl. now rewrite Hc.
  - apply (everyChar_weaken (consumes ic b)); [| exact Hk].
    intros c Hc. simpl. now rewrite Hc, orb_true_r.
Qed.

(** A pattern that starts with [^] matches at index 0 or nowhere. *)
Lemma bol_at_start (ic : bool) (r : regex) (s : string) :
  test ic (Cat Bol r) s = true ->
  m ic (String.length s) r (fun _ => Some tt) s = Some tt.
Proof.
  unfold test.
  destruct (scan _ 0 s) as [[] |] eqn:E; [intros _ | discriminate].
  apply scan_some in E as (sk & r' & E1 & E2).
  cbn [m] in E2.
  destruct (Nat.eqb_spec (String.length r') (String.length s)) as [Hl | ];
    [| discriminate].
  assert (sk = "") as ->.
  { rewrite E1, append_length in Hl.
    destruct sk; [reflexivity | simpl in Hl; lia]. }
  change (s = r') in E1. now subst r'.
Qed.

Lemma domainFormat_consumes (c : ascii) :
  consumes true RegistryDetector.domainFormat c = true -> hostChar c = true.
Proof.
  intros H.
  assert (Hall : forallb (fun c => implb (consumes true RegistryDetector.domainFormat c)
                                         (hostChar c)) allChars = true)
    by (vm_compute; reflexivity).
  rewrite forallb_forall in Hall. specialize (Hall c (allChars_complete c)).
  now rewrite H in Hall.
Qed.

(** The format check lets through host characters only. *)
Lemma domainFormat_chars (s : string) :
  test true RegistryDetector.domainFormat s = true ->
  everyChar hostChar s = true.
Proof.
  intros H. apply (everyChar_weaken (consumes true RegistryDetector.domainFormat));
    [apply domainFormat_consumes |].
  apply bol_at_start in H.
  unfold RegistryDetector.domainFormat in H. cbn [seq] in H.
  assert (Hw := fun Hb => cat_whole true (String.length s) _ _ Hb _ _ _ H).
  apply Hw. apply cat_whole. intros k rest x. apply eol_whole.
Qed.

(** X1. A name that passes the format check of the two clients is not
    empty and is made of letters, digits, [-] and [.] only: it holds no
    white space, no line break, no slash and no other character. *)
Theorem domainFormat_host_chars (s : string) :
  test true RegistryDetector.domainFormat s = true ->
  s <> "" /\ everyChar hostChar s = true
  /\ forall c, In c (list_ascii_of_string s) ->
               Js.is_space c = false /\ c <> WhoisClient.nl /\ c <> "/"%char.
Proof.
  intros H. split; [intros ->; vm_compute in H; discriminate |].
  pose proof (domainFormat_chars s H) as Hc. split; [exact Hc |].
  intros c Hin. unfold everyChar in Hc. rewrite forallb_forall in Hc.
  specialize (Hc c Hin).
  assert (Hall : forallb (fun c => implb (hostChar c)
                            (negb (Js.is_space c)
                             && negb (Ascii.eqb c WhoisClient.nl)
                             && negb (Ascii.eqb c "/"))) allChars = true)
    by (vm_compute; reflexivity).
  rewrite forallb_forall in Hall. specialize (Hall c (allChars_complete c)).
  rewrite Hc in Hall. simpl in Hall.
  apply andb_true_iff in Hall as [Hall H3].
  apply andb_true_iff in Hall as [H1 H2].
  split; [now destruct (Js.is_space c) |].
  split; intros ->; discriminate.
Qed.

Lemma domainFormat_host_chars_witness :
  test true RegistryDetector.domainFormat "example.co.uk" = true
  /\ everyChar hostChar "example.co.uk" = true.
Proof.
  assert (H : test true RegistryDetector.domainFormat "example.co.uk" = true)
    by (vm_compute; reflexivity).
  split; [exact H |].
  exact (proj1 (proj2 (domainFormat_host_chars "example.co.uk" H))).
Defined.

End AlphabetFacts.

(** *** More on strings *)

Module StringFacts.
Import Js JsFacts HostNames AlphabetFacts.

Lemma lower_idem (c : ascii) : lower (lower c) = lower c.
Proof.
  assert (Hall : forallb (fun c => Ascii.eqb (lower (lower c)) (lower c))
                   allChars = true) by (vm_compute; reflexivity).
  rewrite forallb_forall in Hall.
  apply Ascii.eqb_eq, Hall, allChars_complete.
Qed.

Lemma toLowerCase_idem (s : string) : toLowerCase (toLowerCase s) = toLowerCase s.
Proof.
  induction s as [|c s IH]; [reflexivity |].
  simpl. now rewrite lower_idem, IH.
Qed.

Lemma lower_dot (c : ascii) : Ascii.eqb (lower c) "." = Ascii.eqb c ".".
Proof.
  assert (Hall : forallb (fun c => Bool.eqb (Ascii.eqb (lower c) ".")
                                            (Ascii.eqb c "."))
                   allChars = true) by (vm_compute; reflexivity).
  rewrite forallb_forall in Hall.
  apply Bool.eqb_prop, Hall, allChars_complete.
Qed.

Lemma toLowerCase_app (a b : string) :
  toLowerCase (a +:+ b) = toLowerCase a +:+ toLowerCase b.
Proof.
  induction a as [|x a IH]; [reflexivity |].
  rewrite append_cons. simpl. now rewrite IH.
Qed.

Lemma toLowerCase_join (sep : string) (l : list string) :
  toLowerCase (join sep l) = join (toLowerCase sep) (map toLowerCase l).
Proof.
  induction l as [|x l IH]; [reflexivity |].
  destruct l as [|y l]; [reflexivity |].
  change (join sep (x :: y :: l)) with (x +:+ sep +:+ join sep (y :: l)).
  rewrite !toLowerCase_app, IH. reflexivity.
Qed.

Lemma split_lower_dot (s : string) :
  split "." (toLowerCase s) = map toLowerCase (split "." s).
Proof.
  induction s as [|c s IH]; [reflexivity |].
  cbn [toLowerCase split]. rewrite lower_dot, IH.
  destruct (Ascii.eqb c "."); [reflexivity |].
  destruct (split "." s); reflexivity.
Qed.

Lemma indexOf_lower_dot (s : string) :
  indexOf (toLowerCase s) "." = indexOf s ".".
Proof.
  induction s as [|c s IH]; [reflexivity |].
  cbn [toLowerCase indexOf]. now rewrite lower_dot, IH.
Qed.

(** Without the separator there is one piece, with it at least two. *)
Lemma split_without (c : ascii) (s : string) :
  indexOf s c = None -> split c s = [s].
Proof.
  induction s as [|a s IH]; [reflexivity |].
  simpl. destruct (Ascii.eqb a c); [discriminate |].
  destruct (indexOf s c); [discriminate |].
  intros _. now rewrite IH.
Qed.

Lemma split_with (c : ascii) (s : string) :
  indexOf s c <> None -> 2 <= length (split c s).
Proof.
  induction s as [|a s IH]; [contradiction |].
  simpl. pose proof (split_not_nil c s) as Hn.
  destruct (Ascii.eqb a c).
  - intros _. destruct (split c s); [contradiction | simpl; lia].
  - destruct (indexOf s c); [| contradiction].
    intros _. specialize (IH ltac:(discriminate)).
    destruct (split c s); [contradiction | exact IH].
Qed.

(** No piece holds the separator. *)
Lemma split_pieces (c : ascii) (s : string) :
  Forall (fun p => indexOf p c = None) (split c s).
Proof.
  induction s as [|a s IH]; [repeat constructor |].
  simpl. destruct (Ascii.eqb a c) eqn:E.
  - constructor; [reflexivity | exact IH].
  - destruct (split c s) as [|w ws]; [repeat constructor; simpl; now rewrite E |].
    inversion IH as [|? ? Hw Hws]; subst.
    constructor; [| exact Hws]. simpl. now rewrite E, Hw.
Qed.

Lemma split_app (c : ascii) (a b : string) :
  split c (a +:+ String c b) = split c a ++ split c b.
Proof.
  induction a as [|x a IH].
  - change ("" +:+ String c b) with (String c b). simpl.
    now rewrite Ascii.eqb_refl.
  - rewrite append_cons. simpl. rewrite IH.
    destruct (Ascii.eqb x c); [reflexivity |].
    pose proof (split_not_nil c a) as Hn.
    destruct (split c a); [contradiction | reflexivity].
Qed.

End StringFacts.

(** *** More on registry resolution *)

Module RegistryMore.
Import Js JsVal RegistryDetector JsFacts StringFacts.

Lemma getTLD_without_dot (d : string) :
  d <> "" -> indexOf d "." = None ->
  getTLD d = Throw (Error "Invalid domain format").
Proof.
  intros Hne Hdot. unfold getTLD.
  destruct (String.eqb_spec d ""); [contradiction |].
  rewrite <- indexOf_lower_dot in Hdot.
  now rewrite (split_without _ _ Hdot).
Qed.

Lemma getTLD_with_dot (d : string) :
  indexOf d "." <> None -> exists k, getTLD d = Ok k.
Proof.
  intros Hdot. unfold getTLD.
  destruct (String.eqb_spec d "") as [-> | _]; [contradiction |].
  rewrite <- indexOf_lower_dot in Hdot. apply split_with in Hdot.
  destruct (Nat.ltb_spec (length (split "." (toLowerCase d))) 2); [lia |].
  destruct (_ && _); eauto.
Qed.

(** X2. [getTLD] throws [Invalid domain provided] for the empty string
    and for no other string, [Invalid domain format] for the non-empty
    strings without a dot and for no other string, and returns a key for
    every string with a dot. *)
Theorem getTLD_errors (d : string) :
  (getTLD d = Throw (Error "Invalid domain provided") <-> d = "")
  /\ (getTLD d = Throw (Error "Invalid domain format")
      <-> d <> "" /\ indexOf d "." = None)
  /\ ((exists k, getTLD d = Ok k) <-> indexOf d "." <> None).
Proof.
  unfold getTLD. destruct (String.eqb_spec d "") as [-> | Hne].
  - split; [tauto |]. split.
    + split; [discriminate | tauto].
    + split; [intros [k Hk]; discriminate | simpl; tauto].
  - rewrite <- (indexOf_lower_dot d).
    destruct (indexOf (toLowerCase d) ".") as [i |] eqn:Ei.
    + assert (Hlen : 2 <= length (split "." (toLowerCase d))).
      { apply split_with. now rewrite Ei. }
      destruct (Nat.ltb_spec (length (split "." (toLowerCase d))) 2); [lia |].
      split; [| split].
      * split; [| contradiction].
        destruct (_ && _); discriminate.
      * split; [destruct (_ && _); discriminate | intros [_ ?]; discriminate].
      * split; [discriminate |]. intros _. destruct (_ && _); eauto.
    + rewrite (split_without _ _ Ei). simpl.
      split; [split; [discriminate | contradiction] |].
      split; [tauto |].
      split; [intros [k Hk]; discriminate | contradiction].
Qed.

Lemma map_fixed {A} (f : A -> A) (l : list A) :
  (forall x, In x l -> f x = x) -> map f l = l.
Proof.
  induction l as [|x l IH]; [reflexivity |].
  intros H. simpl. rewrite (H x) by now left.
  rewrite IH; [reflexivity |]. intros y Hy. apply H. now right.
Qed.

Lemma last2_incl {A} (l : list A) (x : A) : In x (last2 l) -> In x l.
Proof.
  unfold last2. intros H. rewrite <- (firstn_skipn (length l - 2) l).
  apply in_or_app. now right.
Qed.

(** X3. The key [getTLD] returns is in lower case, and it is a suffix of
    the compound list or a single label, without a dot; the domain gives
    the same key in any mix of upper and lower case. *)
Theorem getTLD_key_shape (d k : string) :
  getTLD d = Ok k ->
  toLowerCase k = k
  /\ (k ∈ commonSecondLevel \/ indexOf k "." = None)
  /\ getTLD (toLowerCase d) = Ok k.
Proof.
  intros H.
  assert (Hcase : getTLD (toLowerCase d) = getTLD d).
  { unfold getTLD. rewrite toLowerCase_idem. now destruct d. }
  split; [| split; [| now rewrite Hcase]].
  - unfold getTLD in H. destruct (String.eqb d ""); [discriminate |].
    rewrite split_lower_dot in H.
    destruct (_ <? 2); [discriminate |].
    destruct (_ && _); injection H as <-.
    + rewrite toLowerCase_join. f_equal.
      apply map_fixed. intros p Hp. apply last2_incl in Hp.
      apply in_map_iff in Hp as (q & <- & _). apply toLowerCase_idem.
    + remember (split "." d) as ps. pose proof (split_not_nil "." d) as Hn.
      rewrite <- Heqps in Hn. clear Heqps.
      induction ps as [|p ps IH]; [contradiction |].
      destruct ps as [|q ps]; [apply toLowerCase_idem |].
      apply IH. discriminate.
  - unfold getTLD in H. destruct (String.eqb d ""); [discriminate |].
    destruct (_ <? 2); [discriminate |].
    assert (Hlast : indexOf (List.last (split "." (toLowerCase d)) "") "."
                    = None).
    { pose proof (split_pieces "." (toLowerCase d)) as Hp.
      pose proof (split_not_nil "." (toLowerCase d)) as Hn.
      revert Hn. clear H.
      induction Hp as [|p ps Hp0 Hps IH]; [contradiction |].
      intros _. destruct ps as [|q ps]; [exact Hp0 | apply IH; discriminate]. }
    destruct (3 <=? _);
      [rewrite andb_true_l in H | rewrite andb_false_l in H].
    + revert H.
      match goal with
      | |- context [bool_decide ?P] =>
          destruct (bool_decide_reflect P) as [Hin | Hnin]
      end; intros H; injection H as <-; [now left | now right].
    + injection H as <-. now right.
Qed.

Lemma getTLD_key_shape_witness :
  getTLD "WWW.Example.CO.UK" = Ok "co.uk"
  /\ getTLD (toLowerCase "WWW.Example.CO.UK") = Ok "co.uk".
Proof.
  assert (H : getTLD "WWW.Example.CO.UK" = Ok "co.uk")
    by (vm_compute; reflexivity).
  split; [exact H |].
  exact (proj2 (proj2 (getTLD_key_shape "WWW.Example.CO.UK" "co.uk" H))).
Defined.

End RegistryMore.

(** *** Validation and resolution in the two clients *)

Module ResolveFacts.
Import Js JsVal Net RegistryDetector HostNames.

(** X4. [getRdapUrl] only adds to the bootstrap map: every entry stays, and
    the map is unchanged when the answer is [null]. A URL it has returned
    is in the map afterwards, so that the next call for the same domain
    returns it on any network, reachable or not, and leaves the map as it
    is. *)
Theorem getRdapUrl_memo (net : network) (cache cache' : gmap string string)
    (d : string) (answer : option string) :
  getRdapUrl net cache d = Ok (answer, cache') ->
  cache ⊆ cache'
  /\ (answer = None -> cache' = cache)
  /\ (forall url, answer = Some url ->
        forall net', getRdapUrl net' cache' d = Ok (Some url, cache')).
Proof.
  unfold getRdapUrl, mbind, result_bind.
  destruct (getTLD d) as [k | e]; [| discriminate].
  destruct (cache !! k) as [u |] eqn:Ec.
  - intros [= <- <-]. split; [reflexivity |]. split; [discriminate |].
    intros url [= <-] net'. now rewrite Ec.
  - destruct net.(bootstrap) as [svcs |].
    + destruct (List.find _ svcs) as [[tlds [|u urls]] |].
      * intros [= <- <-]. split; [reflexivity |]. split; [reflexivity |].
        discriminate.
      * intros [= <- <-]. split; [now apply insert_subseteq |].
        split; [discriminate |].
        intros url [= <-] net'. now rewrite lookup_insert_eq.
      * intros [= <- <-]. split; [reflexivity |]. split; [reflexivity |].
        discriminate.
    + intros [= <- <-]. split; [reflexivity |]. split; [reflexivity |].
      discriminate.
Qed.

Lemma getRdapUrl_memo_witness :
  getRdapUrl Cases.bootstrapOnly ∅ "example.zz"
  = Ok (Some "https://rdap.nic.zz/", <["zz" := "https://rdap.nic.zz/"]> ∅)
  /\ getRdapUrl Samples.offline (<["zz" := "https://rdap.nic.zz/"]> ∅)
       "example.zz"
     = Ok (Some "https://rdap.nic.zz/", <["zz" := "https://rdap.nic.zz/"]> ∅).
Proof.
  assert (H : getRdapUrl Cases.bootstrapOnly ∅ "example.zz"
              = Ok (Some "https://rdap.nic.zz/",
                    <["zz" := "https://rdap.nic.zz/"]> ∅))
    by (vm_compute; reflexivity).
  split; [exact H |].
  exact (proj2 (proj2 (getRdapUrl_memo _ _ _ _ _ H)) _ eq_refl Samples.offline).
Defined.

Lemma bad_character_fails (s : string) :
  everyChar hostChar s = false -> Regex.test true domainFormat s = false.
Proof.
  intros Hbad. destruct (Regex.test true domainFormat s) eqn:E; [| reflexivity].
  apply AlphabetFacts.domainFormat_chars in E. congruence.
Qed.

(** X5. A domain that, lower-cased and trimmed, holds a character that is
    no letter, digit, [-] or [.] is refused by both clients with
    [Invalid domain format], whatever the network does: no request is
    needed for the answer, and the bootstrap map of the RDAP client stays
    as it is. *)
Theorem invalid_character_rejected (eng : JsDate.engine) (net : network)
    (cache : gmap string string) (d : string) :
  d <> "" ->
  everyChar hostChar (trim (toLowerCase d)) = false ->
  WhoisClient.lookupDomain eng net (VStr d)
  = Throw (Error "Invalid domain format")
  /\ RdapClient.lookupDomain net cache (VStr d)
     = (Throw (Error "Invalid domain format"), cache).
Proof.
  intros Hne Hbad. apply bad_character_fails in Hbad.
  unfold WhoisClient.lookupDomain, RdapClient.lookupDomain.
  destruct (String.eqb_spec d ""); [contradiction |].
  rewrite Hbad. split; reflexivity.
Qed.

Lemma invalid_character_rejected_witness :
  RdapClient.lookupDomain Samples.rdapMissWhoisHit rdapBootstrap
    (VStr "my domain.com")
  = (Throw (Error "Invalid domain format"), rdapBootstrap).
Proof.
  apply (invalid_character_rejected Samples.strictEngine);
    [discriminate | vm_compute; reflexivity].
Defined.

(** X6. A name of a single label (no dot) that passes the format check is
    refused by [getTLD] inside both clients: the RDAP client throws
    [Invalid domain format], the WHOIS client wraps the same error, and the
    tool reports that both lookups failed, on every network. *)
Theorem single_label_fails (eng : JsDate.engine) (net : network)
    (cache : gmap string string) (now : Z) (params : value) (d : string) :
  get params "domain" = Ok (VStr d) ->
  Regex.test true domainFormat (trim (toLowerCase d)) = true ->
  indexOf (trim (toLowerCase d)) "." = None ->
  RdapClient.lookupDomain net cache (VStr d)
  = (Throw (Error "Invalid domain format"), cache)
  /\ WhoisClient.lookupDomain eng net (VStr d)
     = Throw (Error "WHOIS lookup failed: Invalid domain format")
  /\ DomainLookupTool.run eng net cache now params
     = Throw (Error "Both RDAP and WHOIS lookups failed. RDAP: Invalid domain format, WHOIS: WHOIS lookup failed: Invalid domain format").
Proof.
  intros Hd Hfmt Hdot.
  assert (Hne : d <> "").
  { intros ->. vm_compute in Hfmt. discriminate. }
  assert (Hclean : trim (toLowerCase d) <> "").
  { intros E. rewrite E in Hfmt. vm_compute in Hfmt. discriminate. }
  assert (Htld : getTLD (trim (toLowerCase d))
                 = Throw (Error "Invalid domain format")).
  { now apply RegistryMore.getTLD_without_dot. }
  assert (H1 : RdapClient.lookupDomain net cache (VStr d)
               = (Throw (Error "Invalid domain format"), cache)).
  { unfold RdapClient.lookupDomain.
    destruct (String.eqb_spec d ""); [contradiction |].
    rewrite Hfmt. unfold getRdapUrl. rewrite Htld. reflexivity. }
  assert (H2 : WhoisClient.lookupDomain eng net (VStr d)
               = Throw (Error "WHOIS lookup failed: Invalid domain format")).
  { unfold WhoisClient.lookupDomain.
    destruct (String.eqb_spec d ""); [contradiction |].
    rewrite Hfmt. unfold getWhoisServer. rewrite Htld. reflexivity. }
  split; [exact H1 |]. split; [exact H2 |].
  assert (Ht : truthy (VStr d) = true).
  { simpl. now destruct (String.eqb_spec d ""). }
  unfold DomainLookupTool.run, DomainLookupTool.execute.
  rewrite (ObjFacts.destructure_get _ _ _ _ Hd).
  unfold mbind at 1, result_bind at 1.
  rewrite Ht. simpl negb. cbv iota.
  unfold DomainLookupTool.attempt, DomainLookupTool.lookupBy,
    DomainLookupTool.clientOf.
  destruct (truthy (get_opt params "prefer_whois")); simpl String.eqb;
    cbv iota; rewrite H1, H2; reflexivity.
Qed.

Lemma single_label_fails_witness :
  DomainLookupTool.run Samples.strictEngine Samples.rdapMissWhoisHit
    rdapBootstrap 0 (VObj [("domain", VStr "localhost")])
  = Throw (Error "Both RDAP and WHOIS lookups failed. RDAP: Invalid domain format, WHOIS: WHOIS lookup failed: Invalid domain format").
Proof.
  apply (single_label_fails Samples.strictEngine Samples.rdapMissWhoisHit
           rdapBootstrap 0 (VObj [("domain", VStr "localhost")]) "localhost");
    vm_compute; reflexivity.
Defined.

(** X7. For a well-formed domain whose registry key is neither in the
    bootstrap map nor in the IANA bootstrap file (or when that file cannot
    be fetched), the RDAP client throws
    [No RDAP server found for domain: ] followed by the cleaned domain,
    sends no query and leaves the map as it is. *)
Theorem lookupDomain_no_server (net : network) (cache : gmap string string)
    (d k : string) :
  d <> "" ->
  Regex.test true domainFormat (trim (toLowerCase d)) = true ->
  getTLD (trim (toLowerCase d)) = Ok k ->
  cache !! k = None ->
  match net.(bootstrap) with
  | Some svcs => forallb (fun s => negb (existsb (String.eqb k) (fst s)
                                         && (0 <? length (snd s)))) svcs = true
  | None => True
  end ->
  RdapClient.lookupDomain net cache (VStr d)
  = (Throw (Error ("No RDAP server found for domain: " +:+ trim (toLowerCase d))),
     cache).
Proof.
  intros Hne Hfmt Hk Hc Hb. unfold RdapClient.lookupDomain.
  destruct (String.eqb_spec d ""); [contradiction |].
  rewrite Hfmt. simpl negb. cbv iota.
  assert (E : getRdapUrl net cache (trim (toLowerCase d)) = Ok (None, cache)).
  { unfold getRdapUrl. rewrite Hk. unfold mbind, result_bind. rewrite Hc.
    destruct net.(bootstrap) as [svcs |]; [| reflexivity].
    destruct (List.find _ svcs) as [[tlds urls] |] eqn:Ef; [| reflexivity].
    apply find_some in Ef as [Hin Hp].
    rewrite forallb_forall in Hb. specialize (Hb _ Hin).
    simpl in Hb, Hp. rewrite Hp in Hb. discriminate. }
  rewrite E. reflexivity.
Qed.

Lemma lookupDomain_no_server_witness :
  RdapClient.lookupDomain Cases.bootstrapOnly rdapBootstrap (VStr "Example.YY")
  = (Throw (Error "No RDAP server found for domain: example.yy"),
     rdapBootstrap).
Proof.
  apply (lookupDomain_no_server Cases.bootstrapOnly rdapBootstrap
           "Example.YY" "yy"); vm_compute; try reflexivity; discriminate.
Defined.

End ResolveFacts.

(** *** More on objects *)

Module ObjMore.
Import JsVal ObjFacts.

Lemma has_key_set (k k' : string) (v : value) (o : obj) :
  has_key k' (set k v o) = String.eqb k k' || has_key k' o.
Proof.
  induction o as [|[k0 v0] o IH]; simpl.
  - now rewrite orb_false_r.
  - destruct (String.eqb_spec k0 k) as [-> | Hne]; simpl;
      [now destruct (String.eqb k k') |].
    rewrite IH. destruct (String.eqb k0 k'), (String.eqb k k'); reflexivity.
Qed.

Lemma has_key_set_ne (k k' : string) (v : value) (o : obj) :
  k <> k' -> has_key k' (set k v o) = has_key k' o.
Proof.
  intros Hne. rewrite has_key_set.
  now destruct (String.eqb_spec k k').
Qed.

Lemma has_key_set_eq (k : string) (v : value) (o : obj) :
  has_key k (set k v o) = true.
Proof. now rewrite has_key_set, String.eqb_refl. Qed.

(** A key an object does not have reads as [undefined]. *)
Lemma lookup_absent (k : string) (o : obj) :
  has_key k o = false -> lookup k o = VUndef.
Proof.
  induction o as [|[k0 v0] o IH]; simpl; [reflexivity |].
  destruct (String.eqb k0 k); [discriminate | exact IH].
Qed.

(** Writing to a key the value it has changes nothing. *)
Lemma set_same (k : string) (v : value) (o : obj) :
  has_key k o = true -> lookup k o = v -> set k v o = o.
Proof.
  induction o as [|[k0 v0] o IH]; simpl; [discriminate |].
  destruct (String.eqb_spec k0 k) as [-> | Hne]; simpl.
  - now intros _ ->.
  - intros Hh Hl. now rewrite IH.
Qed.

End ObjMore.

(** *** More on the RDAP parser *)

Module RdapParseFacts.
Import Js JsVal Net RdapClient ObjFacts ObjMore Shapes.

Lemma parseField_readable (contact : obj) (field : value) :
  (exists c, parseField contact field = Ok c) <-> readable field = true.
Proof.
  unfold parseField, readable.
  destruct field as [| | b | n | s | items | o]; try (split; eauto).
  - intros [c H]. destruct (length items <? 4); [reflexivity |].
    destruct (nth 0 items VUndef); try discriminate. reflexivity.
  - intros H. destruct (length items <? 4); [eauto |].
    destruct (nth 0 items VUndef); try discriminate. simpl. eauto.
Qed.

Lemma parseFields_readable (fields : list value) (contact : obj) :
  (exists c, parseFields contact fields = Ok c)
  <-> forallb readable fields = true.
Proof.
  revert contact. induction fields as [|f fs IH]; intros contact; simpl.
  - split; eauto.
  - rewrite andb_true_iff, <- (parseField_readable contact f).
    unfold mbind, result_bind. split.
    + intros [c H]. destruct (parseField contact f) as [c1 |]; [| discriminate].
      split; [eauto |]. apply (IH c1). eauto.
    + intros [[c1 H1] H2]. rewrite H1. apply IH. exact H2.
Qed.

(** X8. [parseVCard] returns the empty contact for everything that is no
    array. On an array it returns a contact exactly when every member that
    is an array of four or more elements starts with a string; one member
    that starts with something else (a number, [null], an array) makes the
    whole call throw. *)
Theorem parseVCard_returns_iff (vcard : value) :
  (isArray vcard = false -> parseVCard vcard = Ok [])
  /\ forall fields, vcard = VArr fields ->
       ((exists c, parseVCard vcard = Ok c) <-> forallb readable fields = true).
Proof.
  split.
  - destruct vcard; try reflexivity. discriminate.
  - intros fields ->. apply parseFields_readable.
Qed.

(** The keys a round of the loop can add. *)
Lemma interpret_keys (name : string) (params val : value) (contact : obj)
    (k : string) :
  has_key k (interpret name params val contact) = true ->
  has_key k contact = true
  \/ In k ["name"; "organization"; "emails"; "phones"; "addresses"].
Proof.
  unfold interpret, push, ensure.
  repeat match goal with
         | |- context [if ?c then _ else _] => destruct c
         | |- context [match ?v with _ => _ end] => destruct v
         end;
    rewrite ?has_key_set; intros H;
    repeat (apply orb_true_iff in H as [H | H]);
    try (apply String.eqb_eq in H; subst k; right; simpl; tauto);
    try (now left).
Qed.

Lemma parseFields_keys (fields : list value) (contact c : obj) (k : string) :
  parseFields contact fields = Ok c ->
  has_key k c = true ->
  has_key k contact = true
  \/ In k ["name"; "organization"; "emails"; "phones"; "addresses"].
Proof.
  revert contact. induction fields as [|f fs IH]; intros contact; simpl.
  - intros [= <-]. now left.
  - unfold mbind, result_bind.
    destruct (parseField contact f) as [c1 |] eqn:E1; [| discriminate].
    intros H Hk. destruct (IH _ H Hk) as [Hc1 | Hin]; [| now right].
    unfold parseField in E1. destruct f; try (injection E1 as <-; now left).
    destruct (_ <? 4); [injection E1 as <-; now left |].
    unfold mbind, result_bind in E1.
    destruct (lowerCased _) as [name |]; [| discriminate].
    injection E1 as <-. now apply interpret_keys in Hc1.
Qed.

(** X9. The contact [parseVCard] returns has no property beyond [name],
    [organization], [emails], [phones] and [addresses]: a vCard property
    the parser does not know (and the type element of every member) leaves
    no trace in it. *)
Theorem parseVCard_keys (vcard : value) (c : obj) (k : string) :
  parseVCard vcard = Ok c ->
  has_key k c = true ->
  In k ["name"; "organization"; "emails"; "phones"; "addresses"].
Proof.
  intros H Hk. destruct vcard; try (injection H as <-; discriminate).
  destruct (parseFields_keys _ _ _ _ H Hk) as [Hc | Hin];
    [discriminate | exact Hin].
Qed.

Lemma parseVCard_keys_witness :
  parseVCard
    (VArr [VArr [VStr "FN"; VObj []; VStr "text"; VStr "Jane Doe"];
           VArr [VStr "x-custom"; VObj []; VStr "text"; VStr "ignored"]])
  = Ok [("name", VStr "Jane Doe")]
  /\ In "name" ["name"; "organization"; "emails"; "phones"; "addresses"].
Proof.
  split; [reflexivity |].
  apply (parseVCard_keys
           (VArr [VArr [VStr "FN"; VObj []; VStr "text"; VStr "Jane Doe"];
                  VArr [VStr "x-custom"; VObj []; VStr "text"; VStr "ignored"]])
           [("name", VStr "Jane Doe")] "name");
    vm_compute; reflexivity.
Defined.


(** A round of the loop adds its value to the emails when the property is
    [email], and leaves the emails alone otherwise. *)
Lemma interpret_emails (name : string) (params val : value) (contact : obj) :
  listed (lookup "emails" (interpret name params val contact))
  = listed (lookup "emails" contact)
    ++ (if String.eqb name "email" then [val] else []).
Proof.
  unfold interpret.
  destruct (String.eqb_spec name "fn") as [-> | _];
    [rewrite lookup_set_ne by discriminate; now rewrite app_nil_r |].
  destruct (String.eqb_spec name "org") as [-> | _];
    [rewrite lookup_set_ne by discriminate; now rewrite app_nil_r |].
  destruct (String.eqb_spec name "email") as [-> | _];
    [now rewrite RdapFacts.lookup_push |].
  rewrite app_nil_r.
  destruct (String.eqb_spec name "tel") as [-> | _].
  { unfold push. destruct (lookup "phones" contact);
      now rewrite lookup_set_ne by discriminate. }
  destruct (String.eqb_spec name "adr") as [-> | _]; [| reflexivity].
  assert (He : lookup "emails" (ensure "addresses" contact)
               = lookup "emails" contact).
  { unfold ensure. destruct (truthy _); [reflexivity |].
    now rewrite lookup_set_ne by discriminate. }
  destruct val; try (now rewrite He).
  destruct (7 <=? _); [| now rewrite He].
  unfold push. destruct (lookup "addresses" _);
    rewrite lookup_set_ne by discriminate; now rewrite He.
Qed.

Lemma parseField_emails (contact c : obj) (field : value) :
  parseField contact field = Ok c ->
  listed (lookup "emails" c)
  = listed (lookup "emails" contact) ++ valueOf "email" field.
Proof.
  unfold parseField, valueOf.
  destruct field as [| | b | n | s | items | o];
    try (intros [= <-]; now rewrite app_nil_r).
  destruct (Nat.ltb_spec (length items) 4) as [Hlt | Hge].
  - intros [= <-]. destruct (Nat.leb_spec 4 (length items)); [lia |].
    now rewrite app_nil_r.
  - destruct (Nat.leb_spec 4 (length items)); [| lia].
    unfold mbind, result_bind.
    destruct (nth 0 items VUndef) as [| | b | n | s | l | o]; try discriminate.
    simpl. intros [= <-]. apply interpret_emails.
Qed.

Lemma parseFields_emails (fields : list value) (contact c : obj) :
  parseFields contact fields = Ok c ->
  listed (lookup "emails" c)
  = listed (lookup "emails" contact) ++ flat_map (valueOf "email") fields.
Proof.
  revert contact. induction fields as [|f fs IH]; intros contact; simpl.
  - intros [= <-]. now rewrite app_nil_r.
  - unfold mbind, result_bind.
    destruct (parseField contact f) as [c1 |] eqn:E1; [| discriminate].
    intros H. rewrite (IH _ H), (parseField_emails _ _ _ E1).
    now rewrite app_assoc.
Qed.

(** X10. The emails of the contact [parseVCard] returns are the values
    (the fourth elements) of the members whose property name is [email] in
    any case, all of them, in the order of the vCard, and nothing else. *)
Theorem parseVCard_emails (fields : list value) (c : obj) :
  parseVCard (VArr fields) = Ok c ->
  listed (lookup "emails" c) = flat_map (valueOf "email") fields.
Proof. intros H. exact (parseFields_emails _ _ _ H). Qed.

Lemma parseVCard_emails_witness :
  exists c : obj,
    parseVCard
      (VArr [VArr [VStr "email"; VObj []; VStr "text"; VStr "a@example.com"];
             VArr [VStr "tel"; VObj []; VStr "uri"; VStr "tel:+1"];
             VArr [VStr "EMAIL"; VObj []; VStr "text"; VStr "b@example.com"]])
    = Ok c
    /\ listed (lookup "emails" c)
       = [VStr "a@example.com"; VStr "b@example.com"].
Proof.
  eexists. split; [reflexivity |].
  rewrite (parseVCard_emails
             [VArr [VStr "email"; VObj []; VStr "text"; VStr "a@example.com"];
              VArr [VStr "tel"; VObj []; VStr "uri"; VStr "tel:+1"];
              VArr [VStr "EMAIL"; VObj []; VStr "text"; VStr "b@example.com"]]
             _ eq_refl).
  reflexivity.
Defined.

(** **** [parseRdapResponse] *)

Lemma lookup_copyEventDate_ne (k k' : string) (event : value) (o : obj) :
  k <> k' -> lookup k' (copyEventDate k event o) = lookup k' o.
Proof.
  intros Hne. unfold copyEventDate.
  destruct (truthy event); [now apply lookup_set_ne | reflexivity].
Qed.

Lemma has_key_copyEventDate_ne (k k' : string) (event : value) (o : obj) :
  k <> k' -> has_key k' (copyEventDate k event o) = has_key k' o.
Proof.
  intros Hne. unfold copyEventDate.
  destruct (truthy event); [now apply has_key_set_ne | reflexivity].
Qed.

(** Reads of a key through the three date properties. *)
Ltac dates :=
  repeat first
    [ rewrite lookup_copyEventDate_ne by discriminate
    | rewrite has_key_copyEventDate_ne by discriminate ].

Lemma findAction_first (action : string) (evs : list obj) :
  findAction action (map VObj evs)
  = Ok (match firstEvent action evs with
        | Some e => VObj e
        | None => VUndef
        end).
Proof.
  induction evs as [|e evs IH]; [reflexivity |].
  simpl. unfold mbind, result_bind.
  destruct (is_str (lookup "eventAction" e) action); [reflexivity | exact IH].
Qed.

(** What [parseRdapResponse] returns, when it returns: the record before
    the three dates, and the three events found. *)
Lemma parseRdapResponse_ok (data : value) (d : string) (r : obj) :
  parseRdapResponse data d = Ok r ->
  exists conformance events entities nameservers e1 e2 e3,
    findEvent "registration" (get_opt data "events") = Ok e1
    /\ findEvent "expiration" (get_opt data "events") = Ok e2
    /\ findEvent "last changed" (get_opt data "events") = Ok e3
    /\ (if truthy (get_opt data "entities")
        then mapArray "data.entities" parseEntity (get_opt data "entities")
        else Ok (VArr [])) = Ok entities
    /\ (if truthy (get_opt data "events")
        then mapArray "data.events" parseEvent (get_opt data "events")
        else Ok (VArr [])) = Ok events
    /\ (if truthy (get_opt data "nameservers")
        then mapArray "data.nameservers" parseNameserver
               (get_opt data "nameservers")
        else Ok (VArr [])) = Ok nameservers
    /\ r = copyEventDate "lastChangedDate" e3
             (copyEventDate "expirationDate" e2
                (copyEventDate "registrationDate" e1
                   [("domain", VStr d); ("found", VBool true);
                    ("lookupStatus", VStr "found");
                    ("rdapConformance", or_else conformance (VArr []));
                    ("objectClassName", get_opt data "objectClassName");
                    ("ldhName", or_else (get_opt data "ldhName") (VStr d));
                    ("unicodeName", get_opt data "unicodeName");
                    ("handle", get_opt data "handle");
                    ("status", or_else (get_opt data "status") (VArr []));
                    ("events", events);
                    ("entities", entities);
                    ("nameservers", nameservers);
                    ("secureDNS", get_opt data "secureDNS");
                    ("remarks", or_else (get_opt data "remarks") (VArr []));
                    ("links", or_else (get_opt data "links") (VArr []));
                    ("port43", get_opt data "port43");
                    ("rawData", data)])).
Proof.
  unfold parseRdapResponse, mbind, result_bind.
  destruct (get data "rdapConformance") as [conformance |]; [| discriminate].
  destruct (if truthy (get_opt data "events") then _ else _) as [events |];
    [| discriminate].
  destruct (if truthy (get_opt data "entities") then _ else _) as [entities |];
    [| discriminate].
  destruct (if truthy (get_opt data "nameservers") then _ else _)
    as [nameservers |]; [| discriminate].
  destruct (findEvent "registration" _) as [e1 |]; [| discriminate].
  destruct (findEvent "expiration" _) as [e2 |]; [| discriminate].
  destruct (findEvent "last changed" _) as [e3 |]; [| discriminate].
  intros [= <-]. exists conformance, events, entities, nameservers, e1, e2, e3.
  repeat split; reflexivity.
Qed.

(** X11. For RDAP data whose events are objects: the record
    [parseRdapResponse] returns has [registrationDate] exactly when there
    is an event with the action [registration], and then it is the date of
    the first such event; the same for [expirationDate] with [expiration]
    and [lastChangedDate] with [last changed]. An action in another
    spelling or case gives no date. *)
Theorem parseRdapResponse_event_dates (data : value) (d : string)
    (evs : list obj) (r : obj) :
  get_opt data "events" = VArr (map VObj evs) ->
  parseRdapResponse data d = Ok r ->
  forall k action : string,
    In (k, action) [("registrationDate", "registration");
                    ("expirationDate", "expiration");
                    ("lastChangedDate", "last changed")] ->
    match firstEvent action evs with
    | Some e => has_key k r = true /\ lookup k r = lookup "eventDate" e
    | None => has_key k r = false
    end.
Proof.
  intros Hev H k action Hin.
  apply parseRdapResponse_ok in H
    as (conformance & events & entities & nameservers & e1 & e2 & e3
        & H1 & H2 & H3 & _ & _ & _ & ->).
  rewrite Hev in H1, H2, H3. unfold findEvent in H1, H2, H3.
  rewrite findAction_first in H1, H2, H3.
  injection H1 as <-. injection H2 as <-. injection H3 as <-.
  destruct Hin as [E | [E | [E | []]]]; injection E as <- <-; dates.
  - destruct (firstEvent "registration" evs) as [e |]; [| reflexivity].
    unfold copyEventDate. cbn [truthy].
    split; [apply has_key_set_eq | apply lookup_set_eq].
  - destruct (firstEvent "expiration" evs) as [e |].
    + unfold copyEventDate at 1. cbn [truthy].
      split; [apply has_key_set_eq | apply lookup_set_eq].
    + unfold copyEventDate at 1. cbn [truthy]. dates. reflexivity.
  - destruct (firstEvent "last changed" evs) as [e |].
    + unfold copyEventDate at 1. cbn [truthy].
      split; [apply has_key_set_eq | apply lookup_set_eq].
    + unfold copyEventDate at 1. cbn [truthy]. dates. reflexivity.
Qed.

Lemma parseRdapResponse_event_dates_witness :
  exists r : obj,
    parseRdapResponse
      (VObj [("events",
              VArr [VObj [("eventAction", VStr "Registration");
                          ("eventDate", VStr "1990-01-01T00:00:00Z")];
                    VObj [("eventAction", VStr "expiration");
                          ("eventDate", VStr "2030-01-01T00:00:00Z")];
                    VObj [("eventAction", VStr "expiration");
                          ("eventDate", VStr "2031-01-01T00:00:00Z")]])])
      "example.com" = Ok r
    /\ has_key "registrationDate" r = false
    /\ lookup "expirationDate" r = VStr "2030-01-01T00:00:00Z".
Proof.
  eexists. split; [reflexivity |].
  pose proof (parseRdapResponse_event_dates
                (VObj [("events",
                        VArr [VObj [("eventAction", VStr "Registration");
                                    ("eventDate", VStr "1990-01-01T00:00:00Z")];
                              VObj [("eventAction", VStr "expiration");
                                    ("eventDate", VStr "2030-01-01T00:00:00Z")];
                              VObj [("eventAction", VStr "expiration");
                                    ("eventDate", VStr "2031-01-01T00:00:00Z")]])])
                "example.com"
                [[("eventAction", VStr "Registration");
                  ("eventDate", VStr "1990-01-01T00:00:00Z")];
                 [("eventAction", VStr "expiration");
                  ("eventDate", VStr "2030-01-01T00:00:00Z")];
                 [("eventAction", VStr "expiration");
                  ("eventDate", VStr "2031-01-01T00:00:00Z")]]
                _ eq_refl eq_refl) as H.
  split.
  - exact (H "registrationDate" "registration" (or_introl eq_refl)).
  - exact (proj2 (H "expirationDate" "expiration"
                    (or_intror (or_introl eq_refl)))).
Defined.

(** **** A vCard the parser cannot read *)

Lemma mapM_throws {A B} (f : A -> result B) (l : list A) (x : A) :
  In x l -> (exists e, f x = Throw e) -> exists e, mapM f l = Throw e.
Proof.
  intros Hin [e Hx]. induction l as [|y l IH]; [contradiction |].
  simpl. unfold mbind, result_bind.
  destruct (f y) as [b |] eqn:Ey; [| eauto].
  destruct Hin as [-> | Hin]; [congruence |].
  destruct (IH Hin) as [e' ->]. eauto.
Qed.

(** X12. The RDAP parser has no partial result: when one entity of the
    data carries a vCard with a member of four or more elements whose first
    element is no string, [parseRdapResponse] throws, whatever else the
    data holds. *)
Theorem unreadable_vcard_fails (data : value) (d : string)
    (entities card fields : list value) (entity : value) :
  get_opt data "entities" = VArr entities ->
  In entity entities ->
  get_opt entity "vcardArray" = VArr card ->
  nth 1 card VUndef = VArr fields ->
  forallb readable fields = false ->
  exists e, parseRdapResponse data d = Throw e.
Proof.
  intros Hent Hin Hcard Hnth Hbad.
  assert (He : exists e, parseEntity entity = Throw e).
  { unfold parseEntity.
    destruct entity as [| | b | n | s | l | props]; try discriminate Hcard;
      try (cbv in Hcard; discriminate Hcard).
    cbn [get]. unfold mbind at 1, result_bind at 1.
    rewrite Hcard. cbn [truthy get_opt get andb].
    change (String.eqb "length" "length") with true. cbv iota.
    assert (Hlen : gt_num (VNum (Z.of_nat (length card))) 1 = true).
    { destruct card as [|a [|b card]]; try discriminate Hnth.
      simpl. apply Z.ltb_lt. lia. }
    rewrite Hlen. cbn [at_index]. rewrite Hnth.
    unfold mbind, result_bind.
    destruct (parseVCard (VArr fields)) as [c |] eqn:Ec; [| eauto].
    assert (Hr : forallb readable fields = true).
    { apply parseFields_readable with (contact := []). eauto. }
    congruence. }
  destruct (mapM_throws parseEntity entities entity Hin He) as [e Hm].
  unfold parseRdapResponse, mbind, result_bind.
  destruct (get data "rdapConformance") as [conformance |]; [| eauto].
  destruct (if truthy (get_opt data "events") then _ else _) as [events |];
    [| eauto].
  rewrite Hent. cbn [truthy mapArray]. unfold mbind, result_bind.
  rewrite Hm. eauto.
Qed.

Lemma unreadable_vcard_fails_witness :
  exists e,
    parseRdapResponse
      (VObj [("entities",
              VArr [VObj [("handle", VStr "H1");
                          ("vcardArray",
                           VArr [VStr "vcard";
                                 VArr [VArr [VStr "fn"; VObj []; VStr "text";
                                             VStr "Jane Doe"];
                                       VArr [VNull; VObj []; VStr "text";
                                             VStr "x"]]])]])])
      "example.com" = Throw e.
Proof.
  eapply (unreadable_vcard_fails _ "example.com"
            [VObj [("handle", VStr "H1");
                   ("vcardArray",
                    VArr [VStr "vcard";
                          VArr [VArr [VStr "fn"; VObj []; VStr "text";
                                      VStr "Jane Doe"];
                                VArr [VNull; VObj []; VStr "text";
                                      VStr "x"]]])]]);
    [reflexivity | left; reflexivity | reflexivity | reflexivity
     | vm_compute; reflexivity].
Defined.

End RdapParseFacts.

(** *** More on the WHOIS text parser and the WHOIS client *)

Module WhoisMore.
Import Js JsVal Net WhoisClient JsFacts StringFacts HostNames.

(** **** Nameservers *)

Lemma route_nameservers (eng : JsDate.engine) (key val : string) (r : parsed) :
  p_nameservers (route eng key val r) = p_nameservers r
  \/ (p_nameservers (route eng key val r)
      = p_nameservers r ++ [toLowerCase val]
      /\ existsb (String.eqb (toLowerCase val)) (p_nameservers r) = false).
Proof.
  unfold route.
  repeat match goal with
         | |- context [if key_in ?k ?l then _ else _] =>
             destruct (key_in k l); [simpl; auto |]
         end; [| now left].
  destruct (existsb _ _) eqn:E; [now left | now right].
Qed.

Lemma parseLine_nameservers (eng : JsDate.engine) (r : parsed) (line : string) :
  p_nameservers (parseLine eng r line) = p_nameservers r
  \/ exists val,
       p_nameservers (parseLine eng r line)
       = p_nameservers r ++ [toLowerCase val]
       /\ existsb (String.eqb (toLowerCase val)) (p_nameservers r) = false.
Proof.
  unfold parseLine. destruct (_ || _); [now left |].
  destruct (indexOf _ ":") as [i |]; [| now left].
  destruct (String.eqb _ ""); [now left |].
  destruct (route_nameservers eng
              (toLowerCase (trim (take i (trim line))))
              (trim (drop (S i) (trim line))) r) as [E | E]; [now left |].
  right. eauto.
Qed.

Lemma nodup_add_last (l : list string) (x : string) :
  NoDup l -> existsb (String.eqb x) l = false -> NoDup (l ++ [x]).
Proof.
  intros Hl Hx. apply NoDup_app. split; [exact Hl |].
  split; [| apply NoDup_singleton].
  intros y Hy Hyx. apply list_elem_of_singleton in Hyx. subst y.
  apply list_elem_of_In in Hy.
  assert (Ht : existsb (String.eqb x) l = true).
  { apply existsb_exists. exists x. split; [exact Hy | apply String.eqb_refl]. }
  congruence.
Qed.

Lemma parseLines_nameservers (eng : JsDate.engine) (lines : list string)
    (r : parsed) :
  NoDup (p_nameservers r) ->
  Forall (fun h => toLowerCase h = h) (p_nameservers r) ->
  NoDup (p_nameservers (fold_left (parseLine eng) lines r))
  /\ Forall (fun h => toLowerCase h = h)
       (p_nameservers (fold_left (parseLine eng) lines r)).
Proof.
  revert r. induction lines as [|line lines IH]; intros r Hn Hl; [now split |].
  simpl. apply IH.
  - destruct (parseLine_nameservers eng r line) as [-> | (val & -> & Hx)];
      [exact Hn | now apply nodup_add_last].
  - destruct (parseLine_nameservers eng r line) as [-> | (val & -> & Hx)];
      [exact Hl |].
    apply Forall_app. split; [exact Hl |].
    constructor; [apply toLowerCase_idem | constructor].
Qed.

(** X13. The nameservers of the record [parseWhoisResponse] returns for a
    WHOIS text are in lower case, and no name is listed twice: a name
    server the text gives again, in whatever case, is not added again. *)
Theorem parseWhoisResponse_nameservers (eng : JsDate.engine)
    (text domain : string) :
  text <> "" ->
  exists (o : obj) (hosts : list string),
    parseWhoisResponse eng (VStr text) domain = Ok o
    /\ lookup "nameservers" o = strings hosts
    /\ NoDup hosts
    /\ Forall (fun h => toLowerCase h = h) hosts.
Proof.
  intros Hne. unfold parseWhoisResponse.
  assert (Ht : truthy (VStr text) = true).
  { simpl. now destruct (String.eqb_spec text ""). }
  rewrite Ht. simpl negb. cbv iota.
  eexists. exists (p_nameservers (parseLines eng text)).
  split; [reflexivity |]. split; [reflexivity |].
  apply parseLines_nameservers; [apply NoDup_nil_2 | constructor].
Qed.

Lemma parseWhoisResponse_nameservers_witness :
  exists (o : obj) (hosts : list string),
    parseWhoisResponse Samples.strictEngine
      (VStr ("Name Server: NS1.EXAMPLE.COM" +:+ String nl
             "nserver: ns1.example.com")) "example.com" = Ok o
    /\ lookup "nameservers" o = strings hosts
    /\ NoDup hosts
    /\ Forall (fun h => toLowerCase h = h) hosts.
Proof.
  apply (parseWhoisResponse_nameservers Samples.strictEngine). discriminate.
Defined.

(** **** Comment lines *)

Lemma indexOf_app_none (a b : string) (c : ascii) :
  indexOf a c = None -> indexOf b c = None -> indexOf (a +:+ b) c = None.
Proof.
  intros Ha Hb. induction a as [|x a IH]; [exact Hb |].
  rewrite append_cons. simpl in *. destruct (Ascii.eqb x c); [discriminate |].
  destruct (indexOf a c); [discriminate |]. now rewrite IH.
Qed.

(** X14. A comment line (one whose first character that is no white space
    is [%]) put between two lines of a WHOIS text changes nothing in what
    the parser extracts. *)
Theorem comment_line_ignored (eng : JsDate.engine) (a line b : string) :
  indexOf line nl = None ->
  startsWith (trim line) "%" = true ->
  parseLines eng (a +:+ String nl (line +:+ String nl b))
  = parseLines eng (a +:+ String nl b).
Proof.
  intros Hnl Hc. unfold parseLines.
  rewrite !split_app, (split_without _ _ Hnl).
  rewrite !fold_left_app. cbn [fold_left]. f_equal.
  unfold parseLine at 1. now rewrite Hc, orb_true_r.
Qed.

Lemma comment_line_ignored_witness :
  parseLines Samples.strictEngine
    ("Registrar: Example" +:+ String nl
       ("  % Terms of use" +:+ String nl "Status: ok"))
  = parseLines Samples.strictEngine
      ("Registrar: Example" +:+ String nl "Status: ok").
Proof.
  apply (comment_line_ignored Samples.strictEngine "Registrar: Example"
           "  % Terms of use" "Status: ok"); vm_compute; reflexivity.
Defined.

(** **** When no backend answers *)

Lemma host_no_newline (s : string) :
  everyChar hostChar s = true -> indexOf s nl = None.
Proof.
  unfold everyChar. induction s as [|c s IH]; [reflexivity |].
  simpl. intros H. apply andb_true_iff in H as [Hc Hs].
  destruct (Ascii.eqb_spec c nl) as [-> | _]; [discriminate Hc |].
  now rewrite IH.
Qed.

Lemma comment_head (s : string) : startsWith (trim (String "%" s)) "%" = true.
Proof.
  unfold trim. cbn [trimStart]. change (is_space "%") with false. cbv iota.
  cbn [trimEnd]. destruct (trimEnd s); reflexivity.
Qed.

(** The text returned when no backend answers has four lines, all of them
    comments. *)
Lemma notAvailable_lines (d : string) :
  indexOf d nl = None ->
  Forall (fun line => startsWith (trim line) "%" = true)
    (split nl (notAvailable d)).
Proof.
  intros Hd. unfold notAvailable, apiUrls, join.
  rewrite <- !append_assoc. rewrite !split_app.
  repeat match goal with
         | |- context [split nl ?s] =>
             rewrite (split_without nl s)
               by (repeat first [exact Hd | reflexivity
                                | apply indexOf_app_none])
         end.
  cbn [app]. repeat constructor; apply comment_head.
Qed.

(** X15. For a well-formed domain with a dot: when neither backend gives
    a payload (the request fails, the status is not 2xx, the body is no JSON,
    or it has neither [parsedData] nor [rawData]), the WHOIS client does
    not throw and does not report the domain as not found: it returns the
    record with [found: true], every field empty, and the text that names
    the two backends as [rawData]. *)
Theorem whois_unreachable_blank (eng : JsDate.engine) (net : network)
    (d : string) :
  Regex.test true RegistryDetector.domainFormat (trim (toLowerCase d)) = true ->
  indexOf (trim (toLowerCase d)) "." <> None ->
  (forall url, In url (apiUrls (trim (toLowerCase d))) ->
               queryOne net url = None) ->
  lookupDomain eng net (VStr d)
  = Ok (Samples.blank (trim (toLowerCase d))
          (notAvailable (trim (toLowerCase d)))).
Proof.
  intros Hfmt Hdot Hnone.
  assert (Hne : d <> "").
  { intros ->. vm_compute in Hfmt. discriminate. }
  apply RegistryMore.getTLD_with_dot in Hdot as [k Hk].
  unfold lookupDomain. destruct (String.eqb_spec d ""); [contradiction |].
  rewrite Hfmt. simpl negb. cbv iota.
  unfold RegistryDetector.getWhoisServer. rewrite Hk.
  unfold mbind at 2, result_bind at 2.
  assert (Hq : forall server,
             queryWhoisServer net server (trim (toLowerCase d))
             = VStr (notAvailable (trim (toLowerCase d)))).
  { intros server. unfold queryWhoisServer.
    assert (E : queryLoop net (apiUrls (trim (toLowerCase d))) = None).
    { revert Hnone. generalize (apiUrls (trim (toLowerCase d))) as urls.
      induction urls as [|u urls IH]; intros H; [reflexivity |].
      simpl. rewrite (H u) by now left. apply IH. intros v Hv. apply H.
      now right. }
    now rewrite E. }
  assert (Hlines : parseLines eng (notAvailable (trim (toLowerCase d)))
                   = parsed0).
  { unfold parseLines. apply WhoisParseFacts.comment_lines_skipped.
    apply notAvailable_lines, host_no_newline.
    now apply AlphabetFacts.domainFormat_chars. }
  destruct (RegistryDetector.whoisServers !! k) as [s |];
    unfold mbind, result_bind; rewrite Hq;
    unfold parseWhoisResponse; cbn [truthy isObject andb negb];
    change (String.eqb (notAvailable (trim (toLowerCase d))) "") with false;
    cbn [negb andb]; cbv iota; rewrite Hlines; reflexivity.
Qed.

Lemma whois_unreachable_blank_witness :
  lookupDomain Samples.strictEngine Samples.offline (VStr " Example.ORG ")
  = Ok (Samples.blank "example.org" (notAvailable "example.org")).
Proof.
  apply (whois_unreachable_blank Samples.strictEngine Samples.offline
           " Example.ORG ").
  - vm_compute. reflexivity.
  - vm_compute. discriminate.
  - intros url [<- | [<- | []]]; vm_compute; reflexivity.
Defined.

(** **** A payload without parsed data *)

(** X16. For a well-formed domain with a dot: when the backend that
    answers sends an object whose [parsedData] is missing or falsy (so that
    it came through on its [rawData] alone), the WHOIS client hands the
    object itself to the text parser and throws
    [WHOIS lookup failed: whoisText.split is not a function]: the raw text
    of such a payload is never parsed. *)
Theorem whois_raw_only_throws (eng : JsDate.engine) (net : network)
    (d : string) (props : obj) :
  Regex.test true RegistryDetector.domainFormat (trim (toLowerCase d)) = true ->
  indexOf (trim (toLowerCase d)) "." <> None ->
  queryLoop net (apiUrls (trim (toLowerCase d))) = Some (VObj props) ->
  truthy (lookup "parsedData" props) = false ->
  lookupDomain eng net (VStr d)
  = Throw (Error "WHOIS lookup failed: whoisText.split is not a function").
Proof.
  intros Hfmt Hdot Hq Hpd.
  assert (Hne : d <> "").
  { intros ->. vm_compute in Hfmt. discriminate. }
  apply RegistryMore.getTLD_with_dot in Hdot as [k Hk].
  unfold lookupDomain. destruct (String.eqb_spec d ""); [contradiction |].
  rewrite Hfmt. simpl negb. cbv iota.
  unfold RegistryDetector.getWhoisServer. rewrite Hk.
  unfold mbind at 2, result_bind at 2.
  destruct (RegistryDetector.whoisServers !! k) as [s |];
    unfold mbind, result_bind, queryWhoisServer; rewrite Hq;
    cbn [truthy isObject andb get_opt get]; rewrite Hpd; reflexivity.
Qed.

Lemma whois_raw_only_throws_witness :
  lookupDomain Samples.strictEngine Samples.bothBroken (VStr "example.com")
  = Throw (Error "WHOIS lookup failed: whoisText.split is not a function").
Proof.
  apply (whois_raw_only_throws Samples.strictEngine Samples.bothBroken
           "example.com" [("rawData", VStr "Domain Name: example.com")]).
  - vm_compute. reflexivity.
  - vm_compute. discriminate.
  - vm_compute. reflexivity.
  - reflexivity.
Defined.

End WhoisMore.

(** *** More on the enrichment pass *)

Module EnrichMore.
Import Js JsVal WhoisClient ObjFacts ObjMore EnrichFacts.

(** **** A second run of the pass *)

Lemma set_set (k : string) (v : value) (o : obj) :
  set k v (set k v o) = set k v o.
Proof. apply set_same; [apply has_key_set_eq | apply lookup_set_eq]. Qed.

(** A date is settled in [ds]: it is populated, or it holds what the
    patterns of its type give. *)
Lemma enrichDate_stable (raw : string) (ds : obj) (type : string)
    (patterns : list Regex.grouped) :
  (truthy (lookup type ds) = false ->
   forall u g, firstMatch (untagged patterns) raw = Some (u, g) ->
               has_key type ds = true /\ lookup type ds = VStr (trim g)) ->
  enrichDate raw ds (type, patterns) = ds.
Proof.
  intros H. unfold enrichDate.
  destruct (truthy (lookup type ds)); [reflexivity |]. simpl.
  destruct (firstMatch _ raw) as [[u g] |]; [| reflexivity].
  destruct (H eq_refl u g eq_refl) as [Hh Hl]. now apply set_same.
Qed.

Lemma enrichDate_done (raw : string) (ds : obj) (type : string)
    (patterns : list Regex.grouped) :
  truthy (lookup type (enrichDate raw ds (type, patterns))) = false ->
  forall u g, firstMatch (untagged patterns) raw = Some (u, g) ->
    has_key type (enrichDate raw ds (type, patterns)) = true
    /\ lookup type (enrichDate raw ds (type, patterns)) = VStr (trim g).
Proof.
  unfold enrichDate.
  destruct (truthy (lookup type ds)) eqn:Ht; simpl; [congruence |].
  intros _ u g ->. split; [apply has_key_set_eq | apply lookup_set_eq].
Qed.

Lemma enrichDate_keeps (raw : string) (ds : obj) (type type' : string)
    (patterns patterns' : list Regex.grouped) :
  type' <> type ->
  (truthy (lookup type ds) = false ->
   forall u g, firstMatch (untagged patterns) raw = Some (u, g) ->
               has_key type ds = true /\ lookup type ds = VStr (trim g)) ->
  truthy (lookup type (enrichDate raw ds (type', patterns'))) = false ->
  forall u g, firstMatch (untagged patterns) raw = Some (u, g) ->
    has_key type (enrichDate raw ds (type', patterns')) = true
    /\ lookup type (enrichDate raw ds (type', patterns')) = VStr (trim g).
Proof.
  intros Hne H. rewrite enrichDate_other by exact Hne.
  intros Hf u g Hm. destruct (H Hf u g Hm) as [Hh Hl].
  split; [| exact Hl]. unfold enrichDate.
  destruct (negb _); [| exact Hh].
  destruct (firstMatch (untagged patterns') raw) as [[u' g'] |]; [| exact Hh].
  now rewrite has_key_set_ne.
Qed.

Lemma enrichDates_twice (raw : string) (ds : obj) :
  enrichDates raw (enrichDates raw ds) = enrichDates raw ds.
Proof.
  unfold enrichDates, datePatterns. cbn [fold_left].
  set (e1 := ("created", _)). set (e2 := ("expires", _)).
  set (e3 := ("updated", _)).
  set (D1 := enrichDate raw ds e1). set (D2 := enrichDate raw D1 e2).
  set (D3 := enrichDate raw D2 e3).
  assert (H1 : enrichDate raw D3 e1 = D3).
  { apply enrichDate_stable. apply enrichDate_keeps; [discriminate |].
    apply enrichDate_keeps; [discriminate |]. apply enrichDate_done. }
  assert (H2 : enrichDate raw D3 e2 = D3).
  { apply enrichDate_stable. apply enrichDate_keeps; [discriminate |].
    apply enrichDate_done. }
  assert (H3 : enrichDate raw D3 e3 = D3).
  { apply enrichDate_stable. apply enrichDate_done. }
  now rewrite H1, H2, H3.
Qed.

Lemma enrichNameservers_twice (raw : string) (ns : value) :
  enrichNameservers raw (enrichNameservers raw ns) = enrichNameservers raw ns.
Proof.
  unfold enrichNameservers at 2 3.
  destruct (noNameservers ns) eqn:Hn.
  - destruct (nameserversLoop nameserverPatterns raw) as [l |] eqn:El.
    + apply nameserversLoop_some in El as (p & block & _ & _ & _ & Hne).
      unfold enrichNameservers.
      assert (Hs : noNameservers (strings l) = false).
      { destruct l; [contradiction | reflexivity]. }
      now rewrite Hs.
    + unfold enrichNameservers. now rewrite Hn, El.
  - unfold enrichNameservers. now rewrite Hn.
Qed.

Lemma enrichStatus_twice (raw : string) (st : list value) :
  enrichStatus raw (enrichStatus raw st) = enrichStatus raw st.
Proof.
  unfold enrichStatus.
  destruct (firstMatch _ raw) as [[u g] |]; [| reflexivity].
  destruct (existsb _ st) eqn:E; [now rewrite E |].
  rewrite existsb_app. simpl. now rewrite String.eqb_refl, orb_true_r.
Qed.

Lemma enrichRegistrar_twice (raw : string) (r : value) :
  enrichRegistrar raw (enrichRegistrar raw r) = enrichRegistrar raw r.
Proof.
  unfold enrichRegistrar.
  destruct (truthy r) eqn:Hr; cbn [negb]; [now rewrite Hr |].
  destruct (firstMatch (untagged registrarPatterns) raw) as [[u g] |];
    [| now rewrite Hr].
  destruct (negb _); reflexivity.
Qed.

Lemma enrichWhoisServer_twice (raw : string) (w : value) :
  enrichWhoisServer raw (enrichWhoisServer raw w) = enrichWhoisServer raw w.
Proof.
  unfold enrichWhoisServer.
  destruct (truthy w) eqn:Hw; cbn [negb]; [now rewrite Hw |].
  destruct (Regex.match1 true whoisServerPattern raw) as [g |];
    [| now rewrite Hw].
  destruct (negb _); reflexivity.
Qed.

Lemma enrichRegistrant_twice (raw : string) (r r1 : value) :
  enrichRegistrant raw r = Ok r1 -> enrichRegistrant raw r1 = Ok r1.
Proof.
  unfold enrichRegistrant.
  destruct (firstMatch registrantPatterns raw) as [[organization g] |];
    [| now intros [= <-]].
  set (key := if organization then "organization" else "name").
  assert (Hobj : forall props,
             negb (truthy (lookup "name" props))
             && negb (truthy (lookup "organization" props)) = true ->
             (if negb (truthy (lookup "name" (set key (VStr (trim g)) props)))
                 && negb (truthy (lookup "organization"
                                    (set key (VStr (trim g)) props)))
              then assign (VObj (set key (VStr (trim g)) props)) key
                     (VStr (trim g))
              else Ok (VObj (set key (VStr (trim g)) props)))
             = Ok (VObj (set key (VStr (trim g)) props))).
  { intros props _.
    destruct (_ && _); [| reflexivity].
    cbn [assign]. now rewrite set_set. }
  destruct r as [| | b | n | s | items | props]; cbn [truthy negb].
  - (* undefined *)
    cbn [get_opt get lookup truthy negb andb assign].
    intros [= <-]. cbn [truthy negb get_opt get]. exact (Hobj [] eq_refl).
  - cbn [get_opt get lookup truthy negb andb assign].
    intros [= <-]. cbn [truthy negb get_opt get]. exact (Hobj [] eq_refl).
  - destruct b; cbn [negb]; cbv iota.
    + cbn [get_opt get truthy negb andb assign]. discriminate.
    + cbn [get_opt get lookup truthy negb andb assign].
      intros [= <-]. cbn [truthy negb get_opt get]. exact (Hobj [] eq_refl).
  - destruct (n =? 0)%Z eqn:En; cbn [negb]; cbv iota.
    + cbn [get_opt get lookup truthy negb andb assign].
      intros [= <-]. cbn [truthy negb get_opt get]. exact (Hobj [] eq_refl).
    + cbn [get_opt get truthy negb andb assign]. discriminate.
  - destruct (String.eqb s "") eqn:Es; cbn [negb]; cbv iota.
    + cbn [get_opt get lookup truthy negb andb assign].
      intros [= <-]. cbn [truthy negb get_opt get]. exact (Hobj [] eq_refl).
    + cbn [get_opt get].
      change (String.eqb "name" "length") with false.
      change (String.eqb "organization" "length") with false.
      cbn [truthy negb andb assign]. discriminate.
  - cbn [get_opt get].
    change (String.eqb "name" "length") with false.
    change (String.eqb "organization" "length") with false.
    cbn [truthy negb andb assign]. intros [= <-].
    cbn [truthy negb get_opt get].
    change (String.eqb "name" "length") with false.
    change (String.eqb "organization" "length") with false.
    reflexivity.
  - cbn [get_opt get].
    destruct (negb (truthy (lookup "name" props))
              && negb (truthy (lookup "organization" props))) eqn:E.
    + cbn [assign]. intros [= <-]. cbn [truthy negb get_opt get].
      exact (Hobj props E).
    + intros [= <-]. cbn [truthy negb get_opt get]. now rewrite E.
Qed.

(** X17. The enrichment pass is idempotent: run again on the record it
    has returned, with the same raw text, it returns that record
    unchanged. No status is added twice and no field it has filled is
    filled again with something else. *)
Theorem enrichFromRawData_idempotent (r r1 : record) (raw : string) :
  enrichFromRawData r raw = Ok r1 ->
  enrichFromRawData r1 raw = Ok r1.
Proof.
  unfold enrichFromRawData at 1. unfold mbind, result_bind.
  destruct (enrichRegistrant raw r.(registrant)) as [rt |] eqn:Hrt;
    [| discriminate].
  intros [= <-]. unfold enrichFromRawData.
  cbn [domain rawData dnssec dates nameservers registrar whoisServer
       registrant status additionalInfo].
  rewrite (enrichRegistrant_twice _ _ _ Hrt).
  unfold mbind, result_bind.
  now rewrite enrichDates_twice, enrichNameservers_twice, enrichStatus_twice,
    enrichRegistrar_twice, enrichWhoisServer_twice.
Qed.

Lemma enrichFromRawData_idempotent_witness :
  exists r1 : record,
    enrichFromRawData Samples.activeRecord "Status: ok" = Ok r1
    /\ enrichFromRawData r1 "Status: ok" = Ok r1
    /\ r1.(status) = [VStr "active"; VStr "ok"].
Proof.
  eexists. split; [vm_compute; reflexivity |].
  split; [| reflexivity].
  apply (enrichFromRawData_idempotent Samples.activeRecord).
  vm_compute. reflexivity.
Defined.

(** **** When the pass throws *)

Lemma enrichRegistrant_refused (raw : string) (r : value) (organization : bool)
    (g : string) :
  settable r = false ->
  firstMatch registrantPatterns raw = Some (organization, g) ->
  exists e, enrichRegistrant raw r = Throw e /\ e.(exn_name) = "TypeError".
Proof.
  intros Hs Hm. unfold enrichRegistrant. rewrite Hm.
  unfold settable in Hs. apply orb_false_iff in Hs as [Ht Hs].
  rewrite Ht. cbv iota.
  destruct r as [| | b | n | s | items | props]; try discriminate Hs;
    try discriminate Ht.
  - cbn [get_opt get truthy negb andb assign]. eauto.
  - cbn [get_opt get truthy negb andb assign]. eauto.
  - cbn [get_opt get].
    change (String.eqb "name" "length") with false.
    change (String.eqb "organization" "length") with false.
    cbn [truthy negb andb assign]. eauto.
Qed.

(** X18. The enrichment pass throws in one situation only: the registrant
    of the record is a truthy value that is no object (a string, a number,
    [true]) and one of the registrant patterns matches the raw text; the
    error is then a [TypeError]. In every other situation it returns a
    record. *)
Theorem enrichFromRawData_throws_iff (r : record) (raw : string) :
  (exists e, enrichFromRawData r raw = Throw e)
  <-> settable r.(registrant) = false
      /\ firstMatch registrantPatterns raw <> None.
Proof.
  split.
  - intros [e H]. destruct (settable r.(registrant)) eqn:Hs.
    + unfold enrichFromRawData in H.
      destruct (enrichRegistrant_total raw _ Hs) as [rt Hrt].
      rewrite Hrt in H. discriminate H.
    + split; [reflexivity |]. intros Hm.
      unfold enrichFromRawData, enrichRegistrant in H. rewrite Hm in H.
      discriminate H.
  - intros [Hs Hm].
    destruct (firstMatch registrantPatterns raw) as [[organization g] |] eqn:E;
      [| contradiction].
    destruct (enrichRegistrant_refused raw _ organization g Hs E) as (e & He & _).
    exists e. unfold enrichFromRawData. now rewrite He.
Qed.

End EnrichMore.

(** *** The record of a backend payload *)

Module ApiFacts.
Import Js JsVal Net WhoisClient ObjFacts ObjMore EnrichFacts.

Lemma toObject_fields (r : record) :
  lookup "domain" (toObject r) = VStr r.(domain)
  /\ lookup "rawData" (toObject r) = r.(rawData)
  /\ lookup "registrar" (toObject r) = r.(registrar)
  /\ lookup "nameservers" (toObject r) = r.(nameservers)
  /\ lookup "dates" (toObject r) = VObj r.(dates)
  /\ lookup "dnssec" (toObject r) = r.(dnssec)
  /\ lookup "whoisServer" (toObject r) = r.(whoisServer).
Proof. unfold toObject. repeat split; reflexivity. Qed.

Lemma copyDate_ne (pd : value) (k name name' : string) (ds : obj) :
  name <> name' -> lookup name' (copyDate pd k name ds) = lookup name' ds.
Proof.
  intros Hne. unfold copyDate.
  destruct (truthy _); [now apply lookup_set_ne | reflexivity].
Qed.

Lemma copyDate_eq (pd : value) (k name : string) (ds : obj) :
  truthy (get_opt pd k) = true ->
  lookup name (copyDate pd k name ds) = get_opt pd k.
Proof. intros Ht. unfold copyDate. rewrite Ht. apply lookup_set_eq. Qed.

(** What [formatApiResponse] returns is the object of the record after the
    enrichment pass, or of the record as built when there is no raw
    text. *)
Lemma formatApiResponse_ok (api : value) (d : string) (o : obj) :
  formatApiResponse api d = Ok o ->
  exists r : record,
    o = toObject r
    /\ (r = fromParsedData (get_opt api "parsedData") (get_opt api "rawData") d
        \/ exists text,
             enrichFromRawData
               (fromParsedData (get_opt api "parsedData")
                  (get_opt api "rawData") d) text = Ok r).
Proof.
  unfold formatApiResponse, mbind, result_bind, get_opt.
  destruct (get api "parsedData") as [pd |]; [| discriminate].
  destruct (get api "rawData") as [raw |]; [| discriminate].
  destruct (truthy raw).
  - destruct raw; try discriminate.
    destruct (enrichFromRawData _ _) as [r |] eqn:E; [| discriminate].
    intros [= <-]. exists r. split; [reflexivity |]. right. eauto.
  - intros [= <-]. eexists. split; [reflexivity |]. now left.
Qed.

(** X19. In the record [formatApiResponse] returns, a field the parsed
    data of the payload populates is the parsed one, whatever the raw text
    says: the registrar, the WHOIS server, a non-empty list of nameservers
    and the three dates; [dnssec], the domain and the raw text are never
    touched by the pass. *)
Theorem formatApiResponse_keeps_parsed (api : value) (d : string) (o : obj) :
  formatApiResponse api d = Ok o ->
  let pd := get_opt api "parsedData" in
  lookup "domain" o = VStr d
  /\ lookup "rawData" o = or_else (get_opt api "rawData") VNull
  /\ lookup "dnssec" o = or_else (get_opt pd "dnssec") VNull
  /\ (truthy (get_opt pd "registrar") = true ->
      lookup "registrar" o = get_opt pd "registrar")
  /\ (truthy (get_opt pd "whoisServer") = true ->
      lookup "whoisServer" o = get_opt pd "whoisServer")
  /\ (noNameservers (get_opt pd "nameservers") = false ->
      lookup "nameservers" o = get_opt pd "nameservers")
  /\ (forall k name : string,
        In (k, name) [("creationDate", "created");
                      ("expirationDate", "expires");
                      ("lastModified", "updated")] ->
        truthy (get_opt pd k) = true ->
        exists ds, lookup "dates" o = VObj ds
                   /\ lookup name ds = get_opt pd k).
Proof.
  intros H pd. apply formatApiResponse_ok in H as (r & -> & Hr).
  fold pd in Hr.
  destruct (toObject_fields r) as (-> & -> & -> & -> & -> & -> & ->).
  assert (Hdates : forall k name : string,
             In (k, name) [("creationDate", "created");
                           ("expirationDate", "expires");
                           ("lastModified", "updated")] ->
             truthy (get_opt pd k) = true ->
             lookup name
               (copyDate pd "lastModified" "updated"
                  (copyDate pd "expirationDate" "expires"
                     (copyDate pd "creationDate" "created" [])))
             = get_opt pd k).
  { intros k name Hin Ht.
    destruct Hin as [E | [E | [E | []]]]; injection E as <- <-.
    - rewrite !copyDate_ne by discriminate. now apply copyDate_eq.
    - rewrite copyDate_ne by discriminate. now apply copyDate_eq.
    - now apply copyDate_eq. }
  assert (Hns : noNameservers (get_opt pd "nameservers") = false ->
                or_else (get_opt pd "nameservers") (VArr [])
                = get_opt pd "nameservers").
  { intros Hn. unfold or_else.
    unfold noNameservers in Hn. apply orb_false_iff in Hn as [Hn _].
    apply negb_false_iff in Hn. now rewrite Hn. }
  destruct Hr as [-> | [text Hr]].
  - unfold fromParsedData.
    cbn [domain rawData dnssec dates nameservers registrar whoisServer].
    split; [reflexivity |]. split; [reflexivity |]. split; [reflexivity |].
    split; [intros Ht; unfold or_else; now rewrite Ht |].
    split; [intros Ht; unfold or_else; now rewrite Ht |].
    split; [exact Hns |].
    intros k name Hin Ht. eexists. split; [reflexivity |].
    now apply Hdates.
  - unfold enrichFromRawData, mbind, result_bind in Hr.
    destruct (enrichRegistrant text _) as [rt |]; [| discriminate].
    injection Hr as <-. unfold fromParsedData.
    cbn [domain rawData dnssec dates nameservers registrar whoisServer].
    split; [reflexivity |]. split; [reflexivity |]. split; [reflexivity |].
    split; [| split; [| split]].
    + intros Ht. unfold or_else, enrichRegistrar. now rewrite !Ht.
    + intros Ht. unfold or_else, enrichWhoisServer. now rewrite !Ht.
    + intros Hn. rewrite (Hns Hn). unfold enrichNameservers. now rewrite Hn.
    + intros k name Hin Ht. eexists. split; [reflexivity |].
      rewrite enrichDates_frame; rewrite (Hdates k name Hin Ht);
        [reflexivity | exact Ht].
Qed.

Lemma formatApiResponse_keeps_parsed_witness :
  exists o : obj,
    formatApiResponse Cases.fullPayload "example.com" = Ok o
    /\ lookup "registrar" o = VStr "Parsed Registrar"
    /\ lookup "whoisServer" o = VStr "whois.parsed.example".
Proof.
  assert (H : exists o, formatApiResponse Cases.fullPayload "example.com" = Ok o).
  { eexists. vm_compute. reflexivity. }
  destruct H as [o Ho]. exists o. split; [exact Ho |].
  destruct (formatApiResponse_keeps_parsed _ _ _ Ho)
    as (_ & _ & _ & Hreg & Hws & _).
  split; [apply Hreg | apply Hws]; reflexivity.
Defined.

End ApiFacts.

(** *** More on the lookup tool *)

Module ToolMore.
Import Js JsVal Net DomainLookupTool ObjFacts ObjMore ToolFacts Marks.

Lemma has_key_setIf_ne (c : bool) (k k' : string) (v : value) (o : obj) :
  k <> k' -> has_key k' (setIf c k v o) = has_key k' o.
Proof.
  intros Hne. unfold setIf. destruct c; [now apply has_key_set_ne | reflexivity].
Qed.

(** Whether a key is there, through writes to other keys. *)
Ltac keys :=
  repeat first
    [ rewrite has_key_setIf_ne by discriminate
    | rewrite has_key_set_ne by discriminate
    | rewrite has_key_set_eq ].

(** **** The records of the two clients *)

Lemma whois_record_unmarked (eng : JsDate.engine) (net : network)
    (domain : value) (r : obj) (k : string) :
  WhoisClient.lookupDomain eng net domain = Ok r ->
  In k marks -> has_key k r = false.
Proof.
  unfold WhoisClient.lookupDomain.
  destruct domain as [| | b | n | d | l | o]; try discriminate.
  destruct (String.eqb d ""); [discriminate |].
  destruct (negb _); [discriminate |].
  unfold try_catch, mbind, result_bind.
  destruct (RegistryDetector.getWhoisServer _) as [server |]; [| discriminate].
  set (answer := WhoisClient.queryWhoisServer net server _).
  destruct (truthy answer && WhoisClient.isObject answer && _).
  - destruct (WhoisClient.formatApiResponse _ _) as [r' |] eqn:E;
      [| discriminate].
    intros [= <-] Hin.
    apply ApiFacts.formatApiResponse_ok in E as (rec & -> & _).
    unfold WhoisClient.toObject.
    destruct (WhoisClient.additionalInfo rec);
      destruct Hin as [<- | [<- | [<- | [<- | []]]]]; reflexivity.
  - unfold WhoisClient.parseWhoisResponse.
    destruct (negb (truthy answer)).
    + intros [= <-] [<- | [<- | [<- | [<- | []]]]]; reflexivity.
    + destruct answer; try discriminate.
      intros [= <-] [<- | [<- | [<- | [<- | []]]]]; reflexivity.
Qed.

Lemma whois_domain_truthy (eng : JsDate.engine) (net : network)
    (domain : value) (r : obj) :
  WhoisClient.lookupDomain eng net domain = Ok r -> truthy domain = true.
Proof.
  unfold WhoisClient.lookupDomain.
  destruct domain as [| | b | n | d | l | o]; try discriminate.
  simpl. destruct (String.eqb d ""); [discriminate | reflexivity].
Qed.

(** What the RDAP client returns is the not-found record or a record of
    [parseRdapResponse]. *)
Lemma rdap_record (net : network) (cache : gmap string string)
    (domain : value) (r : obj) :
  fst (RdapClient.lookupDomain net cache domain) = Ok r ->
  (exists clean, r = RdapClient.notFound clean)
  \/ exists data clean, RdapClient.parseRdapResponse data clean = Ok r.
Proof.
  unfold RdapClient.lookupDomain.
  destruct domain as [| | b | n | d | l | o]; try discriminate.
  destruct (String.eqb d ""); [discriminate |].
  destruct (negb _); [discriminate |].
  assert (Hre : forall e, RdapClient.rethrow e <> Ok r).
  { intros e. unfold RdapClient.rethrow.
    destruct (String.eqb _ _); discriminate. }
  destruct (RegistryDetector.getRdapUrl _ _ _) as [[url cache'] | e];
    cbn [fst]; [| intros H; now apply Hre in H].
  unfold try_catch.
  destruct (RdapClient.query net url _) as [r' |] eqn:Eq;
    [| intros H; now apply Hre in H].
  intros [= <-]. unfold RdapClient.query in Eq.
  destruct url as [[|c u] |]; try discriminate.
  destruct (net.(fetch) _) as [e | st reason body]; [discriminate |].
  destruct (negb (ok st)).
  - destruct (st =? 404)%Z; [| discriminate].
    injection Eq as <-. left. eauto.
  - unfold mbind, result_bind in Eq.
    destruct body as [data |]; [| discriminate]. right. eauto.
Qed.

Lemma parsed_record (data : value) (clean : string) (r : obj) :
  RdapClient.parseRdapResponse data clean = Ok r ->
  lookup "found" r = VBool true
  /\ lookup "domain" r = VStr clean
  /\ lookup "rawData" r = data
  /\ (exists l, lookup "entities" r = VArr (map VObj l))
  /\ (forall k, In k marks -> has_key k r = false).
Proof.
  intros H. apply RdapParseFacts.parseRdapResponse_ok in H
    as (conformance & events & entities & nameservers & e1 & e2 & e3
        & _ & _ & _ & Hent & _ & _ & ->).
  split; [RdapParseFacts.dates; reflexivity |].
  split; [RdapParseFacts.dates; reflexivity |].
  split; [RdapParseFacts.dates; reflexivity |].
  split.
  - RdapParseFacts.dates. cbn [lookup String.eqb].
    change (lookup "entities" [("entities", entities);
                               ("nameservers", nameservers);
                               ("secureDNS", get_opt data "secureDNS");
                               ("remarks", or_else (get_opt data "remarks") (VArr []));
                               ("links", or_else (get_opt data "links") (VArr []));
                               ("port43", get_opt data "port43");
                               ("rawData", data)]) with entities.
    destruct (truthy (get_opt data "entities")).
    + unfold RdapClient.mapArray, mbind, result_bind in Hent.
      destruct (get_opt data "entities"); try discriminate.
      destruct (RdapClient.mapM _ _) as [l |]; [| discriminate].
      injection Hent as <-. eauto.
    + injection Hent as <-. exists []. reflexivity.
  - intros k [<- | [<- | [<- | [<- | []]]]]; RdapParseFacts.dates; reflexivity.
Qed.

(** **** [formatResult] on those records *)

Lemma contactsOf_objects (l : list obj) :
  exists c, contactsOf (VArr (map VObj l)) = Ok c.
Proof.
  unfold contactsOf.
  assert (H : exists c, RdapClient.mapM contactOf (map VObj l) = Ok c).
  { induction l as [|e l [c IH]]; [eexists; reflexivity |].
    simpl. unfold mbind, result_bind. rewrite IH. eexists. reflexivity. }
  destruct H as [c ->]. eexists. reflexivity.
Qed.

Lemma formatRdapResult_returns (r : obj) (l : list obj) :
  lookup "entities" r = VArr (map VObj l) ->
  exists out, formatRdapResult r = Ok out.
Proof.
  intros H. unfold formatRdapResult. rewrite H.
  destruct (nonEmpty (VArr (map VObj l))).
  - destruct (contactsOf_objects l) as [c ->].
    unfold mbind, result_bind. eexists. reflexivity.
  - unfold mbind, result_bind. eexists. reflexivity.
Qed.

Lemma formatResult_returns (now : Z) (rec : obj) (raw : value) :
  truthy (lookup "found" rec) = false
  \/ is_str (lookup "method" rec) "rdap" = false
  \/ (exists l, lookup "entities" rec = VArr (map VObj l)) ->
  exists out, formatResult now rec raw = Ok out.
Proof.
  intros H. unfold formatResult.
  destruct (truthy (lookup "found" rec)) eqn:Hf; cbn [negb];
    [| eexists; reflexivity].
  destruct H as [H | [H | [l H]]]; [discriminate | |].
  - rewrite H. unfold mbind, result_bind. eexists. reflexivity.
  - destruct (is_str (lookup "method" rec) "rdap").
    + destruct (formatRdapResult_returns rec l H) as [rdap ->].
      unfold mbind, result_bind. eexists. reflexivity.
    + unfold mbind, result_bind. eexists. reflexivity.
Qed.

(** **** [formatResult]: what the outcome holds *)

(** X20. The outcome [formatResult] returns holds [raw_data] exactly when
    the record is found, [include_raw] is truthy and the record has a truthy
    [rawData]; it is then that [rawData]. Without the request for it, no
    raw response reaches the outcome. *)
Theorem formatResult_raw_data (now : Z) (result out : obj)
    (includeRaw : value) :
  formatResult now result includeRaw = Ok out ->
  has_key "raw_data" out
  = truthy (lookup "found" result) && truthy includeRaw
    && truthy (lookup "rawData" result)
  /\ (has_key "raw_data" out = true ->
      lookup "raw_data" out = lookup "rawData" result).
Proof.
  unfold formatResult.
  destruct (truthy (lookup "found" result)); cbn [negb andb].
  - unfold mbind, result_bind.
    destruct (if is_str (lookup "method" result) "rdap" then _ else _)
      as [formatted |] eqn:E; [| discriminate].
    intros [= <-].
    assert (Hno : has_key "raw_data" formatted = false).
    { destruct (is_str (lookup "method" result) "rdap").
      - destruct (formatRdapResult result) as [rdap |]; [| discriminate].
        injection E as <-. keys.
        destruct (truthy (lookup "fallback_used" result)); keys; reflexivity.
      - injection E as <-. keys.
        destruct (truthy (lookup "fallback_used" result)); keys; reflexivity. }
    unfold setIf.
    destruct (truthy includeRaw && truthy (lookup "rawData" result)).
    + rewrite has_key_set_eq, lookup_set_eq. now split.
    + rewrite Hno. split; [reflexivity | discriminate].
  - intros [= <-]. keys.
    destruct (truthy (lookup "fallback_used" result)); keys;
      (split; [reflexivity | discriminate]).
Qed.

Lemma formatResult_raw_data_witness :
  exists out : obj,
    formatResult 0
      (set "method" (VStr "whois")
         (Samples.blank "example.com" "Domain Name: EXAMPLE.COM"))
      (VBool false) = Ok out
    /\ has_key "raw_data" out = false.
Proof.
  assert (H : exists out,
             formatResult 0
               (set "method" (VStr "whois")
                  (Samples.blank "example.com" "Domain Name: EXAMPLE.COM"))
               (VBool false) = Ok out)
    by (eexists; vm_compute; reflexivity).
  destruct H as [out Ho]. exists out. split; [exact Ho |].
  rewrite (proj1 (formatResult_raw_data _ _ _ _ Ho)). reflexivity.
Defined.

(** X21. For a record that is not found, [formatResult] returns without
    throwing; the outcome has the message of the record, else its error,
    else [Domain not found], and none of [status], [nameservers], [rdap],
    [whois] and [raw_data], whatever the record holds under these names. *)
Theorem formatResult_not_found (now : Z) (result : obj) (includeRaw : value) :
  truthy (lookup "found" result) = false ->
  exists out : obj,
    formatResult now result includeRaw = Ok out
    /\ lookup "found" out = lookup "found" result
    /\ lookup "domain" out = lookup "domain" result
    /\ lookup "message" out
       = or_else (lookup "message" result)
           (or_else (lookup "error" result) (VStr "Domain not found"))
    /\ forall k, In k ["status"; "nameservers"; "rdap"; "whois"; "raw_data"] ->
                 has_key k out = false.
Proof.
  intros Hf. unfold formatResult. rewrite Hf. cbn [negb].
  eexists. split; [reflexivity |].
  split; [| split; [| split]].
  - through. destruct (truthy (lookup "fallback_used" result)); through;
      reflexivity.
  - through. destruct (truthy (lookup "fallback_used" result)); through;
      reflexivity.
  - through. reflexivity.
  - intros k [<- | [<- | [<- | [<- | [<- | []]]]]]; keys;
      destruct (truthy (lookup "fallback_used" result)); keys; reflexivity.
Qed.

Lemma formatResult_not_found_witness :
  exists out : obj,
    formatResult 0 (set "method" (VStr "rdap") (RdapClient.notFound "example.com"))
      (VBool true) = Ok out
    /\ lookup "message" out = VStr "Domain not found in registry"
    /\ has_key "raw_data" out = false.
Proof.
  destruct (formatResult_not_found 0
              (set "method" (VStr "rdap") (RdapClient.notFound "example.com"))
              (VBool true) eq_refl) as (out & Ho & _ & _ & Hm & Hk).
  exists out. split; [exact Ho |]. split; [exact Hm |].
  apply Hk. simpl. tauto.
Defined.

Lemma setIf_good (names : list string) (c : bool) (k0 : string) (v : value)
    (o : obj) :
  In k0 names ->
  (c = true -> truthy v = true) ->
  (forall k, has_key k o = true ->
             In k names /\ truthy (lookup k o) = true) ->
  forall k, has_key k (setIf c k0 v o) = true ->
            In k names /\ truthy (lookup k (setIf c k0 v o)) = true.
Proof.
  intros Hin Hv Ho k. unfold setIf. destruct c; [| apply Ho].
  rewrite has_key_set.
  destruct (String.eqb_spec k0 k) as [<- | Hne].
  - intros _. rewrite lookup_set_eq. auto.
  - rewrite lookup_set_ne by exact Hne. apply Ho.
Qed.

Lemma hasDates_truthy (v : value) : hasDates v = true -> truthy v = true.
Proof. destruct v; simpl; congruence. Qed.

(** X22. The [whois] section of an outcome has no property beyond
    [registrar], [registrant], [admin_contact], [technical_contact],
    [billing_contact], [dates] and [dnssec], and every property it has is
    truthy: the WHOIS server and the additional information the enrichment
    pass extracts, the source and the raw text never appear in it. *)
Theorem formatWhoisResult_keys (result : obj) (k : string) :
  has_key k (formatWhoisResult result) = true ->
  In k ["registrar"; "registrant"; "admin_contact"; "technical_contact";
        "billing_contact"; "dates"; "dnssec"]
  /\ truthy (lookup k (formatWhoisResult result)) = true.
Proof.
  unfold formatWhoisResult. revert k.
  repeat (apply setIf_good;
          [simpl; tauto | first [exact id | apply hasDates_truthy] |]).
  intros k H. discriminate H.
Qed.

Lemma formatWhoisResult_keys_witness :
  has_key "registrar"
    (formatWhoisResult
       [("registrar", VStr "Example Registrar");
        ("whoisServer", VStr "whois.example.net");
        ("additionalInfo", VObj [("registrarUrl", VStr "https://example.net")])])
  = true
  /\ truthy
       (lookup "registrar"
          (formatWhoisResult
             [("registrar", VStr "Example Registrar");
              ("whoisServer", VStr "whois.example.net");
              ("additionalInfo",
               VObj [("registrarUrl", VStr "https://example.net")])]))
     = true.
Proof.
  assert (H : has_key "registrar"
                (formatWhoisResult
                   [("registrar", VStr "Example Registrar");
                    ("whoisServer", VStr "whois.example.net");
                    ("additionalInfo",
                     VObj [("registrarUrl", VStr "https://example.net")])])
              = true) by reflexivity.
  split; [exact H |].
  exact (proj2 (formatWhoisResult_keys _ _ H)).
Defined.

End ToolMore.

(** *** [execute]: which client answers *)

Module ExecuteFacts.
Import Js JsVal Net DomainLookupTool ObjFacts ObjMore ToolFacts Marks ToolMore.

(** The outcome of a record that is found and carries no mark. *)
Lemma formatResult_plain (now : Z) (rec out : obj) (raw : value) :
  truthy (lookup "found" rec) = true ->
  (forall k, In k marks -> has_key k rec = false) ->
  formatResult now rec raw = Ok out ->
  lookup "method" out = lookup "method" rec
  /\ lookup "found" out = lookup "found" rec
  /\ lookup "domain" out = lookup "domain" rec
  /\ forall k, In k marks -> has_key k out = false.
Proof.
  intros Hf Hm. unfold formatResult. rewrite Hf. cbn [negb].
  rewrite (lookup_absent "fallback_used"),
    (lookup_absent "primary_method_error"),
    (lookup_absent "fallback_error") by (apply Hm; simpl; tauto).
  cbn [truthy]. unfold mbind, result_bind.
  destruct (is_str (lookup "method" rec) "rdap").
  - destruct (formatRdapResult rec) as [rdap |]; [| discriminate].
    intros [= <-]. split; [| split; [| split]]; through; try reflexivity.
    intros k [<- | [<- | [<- | [<- | []]]]]; keys; reflexivity.
  - intros [= <-]. split; [| split; [| split]]; through; try reflexivity.
    intros k [<- | [<- | [<- | [<- | []]]]]; keys; reflexivity.
Qed.

Section Clients.
Variables rdapLookup whoisLookup : value -> result obj.
Variable now : Z.

Lemma primary_found_eq (params domain : value) (r : obj) :
  get params "domain" = Ok domain ->
  truthy domain = true ->
  let primary := if truthy (get_opt params "prefer_whois")
                 then "whois" else "rdap" in
  (if String.eqb primary "rdap" then rdapLookup else whoisLookup) domain
  = Ok r ->
  truthy (lookup "found" r) = true ->
  execute rdapLookup whoisLookup now params
  = formatResult now (set "method" (VStr primary) r)
      (get_opt params "include_raw").
Proof.
  intros Hd Ht primary H1 Hf.
  unfold execute. rewrite (ObjFacts.destructure_get _ _ _ _ Hd).
    unfold mbind at 1, result_bind at 1.
  rewrite Ht. simpl negb. cbv iota.
  unfold primary in *. clear primary.
  destruct (truthy (get_opt params "prefer_whois"));
    cbn in H1; unfold attempt, lookupBy;
    change (String.eqb "rdap" "rdap") with true;
    change (String.eqb "whois" "rdap") with false;
    change (String.eqb "rdap" "") with false;
    change (String.eqb "whois" "") with false; cbv iota;
    rewrite H1; unfold mbind, result_bind, try_catch;
    rewrite !lookup_set_ne by discriminate; rewrite Hf; reflexivity.
Qed.

(** C2. For any two clients and either preferred protocol: when the client
    of the preferred protocol returns a record that is not found and the
    other client returns a record that is found, [execute] returns an
    outcome with [fallback_used: true], with the name of the other protocol
    as [method] and the name of the preferred protocol as
    [primary_method_failed]. An outcome of the RDAP protocol lists the
    contacts with [result.entities.map]: when RDAP is the other protocol,
    the entities of its record are a list of objects, as they are in every
    record [parseRdapResponse] builds ([ToolMore.parsed_record]). *)
Theorem execute_fallback_found (params domain : value) (r1 r2 : obj) :
  get params "domain" = Ok domain ->
  truthy domain = true ->
  let primary := if truthy (get_opt params "prefer_whois")
                 then "whois" else "rdap" in
  let fallback := if truthy (get_opt params "prefer_whois")
                  then "rdap" else "whois" in
  (if String.eqb primary "rdap" then rdapLookup else whoisLookup) domain
  = Ok r1 ->
  truthy (lookup "found" r1) = false ->
  (if String.eqb fallback "rdap" then rdapLookup else whoisLookup) domain
  = Ok r2 ->
  truthy (lookup "found" r2) = true ->
  (fallback = "rdap" -> exists l, lookup "entities" r2 = VArr (map VObj l)) ->
  exists out : obj,
    execute rdapLookup whoisLookup now params = Ok out
    /\ lookup "fallback_used" out = VBool true
    /\ lookup "method" out = VStr fallback
    /\ lookup "primary_method_failed" out = VStr primary.
Proof.
  intros Hd Ht primary fallback H1 Hf1 H2 Hf2 Hent.
  destruct (execute_fallback_marks rdapLookup whoisLookup now params domain
              r1 r2 Hd Ht H1 Hf1 H2 Hf2) as [E Hmarks].
  fold primary fallback in E, Hmarks.
  destruct (formatResult_returns now
              (set "primary_method_failed" (VStr primary)
                 (set "fallback_used" (VBool true)
                    (set "method" (VStr fallback) r2)))
              (get_opt params "include_raw")) as [out Hout].
  - through. unfold fallback in *.
    destruct (truthy (get_opt params "prefer_whois")).
    + right. right. now apply Hent.
    + right. left. reflexivity.
  - exists out. rewrite E. split; [exact Hout |].
    apply Hmarks. now rewrite E.
Qed.

(** X23. When the client of the preferred protocol returns a record that
    is found, [execute] formats that record and nothing else: what the
    other client would do plays no part; the outcome names the preferred
    protocol as its method and, for a record without marks, has none of
    [fallback_used], [primary_method_failed], [primary_method_error] and
    [fallback_error]. *)
Theorem execute_primary_found (params domain : value) (r : obj) :
  get params "domain" = Ok domain ->
  truthy domain = true ->
  let primary := if truthy (get_opt params "prefer_whois")
                 then "whois" else "rdap" in
  (if String.eqb primary "rdap" then rdapLookup else whoisLookup) domain
  = Ok r ->
  truthy (lookup "found" r) = true ->
  (forall k, In k marks -> has_key k r = false) ->
  execute rdapLookup whoisLookup now params
  = formatResult now (set "method" (VStr primary) r)
      (get_opt params "include_raw")
  /\ forall out : obj,
       execute rdapLookup whoisLookup now params = Ok out ->
       lookup "method" out = VStr primary
       /\ lookup "found" out = lookup "found" r
       /\ lookup "domain" out = lookup "domain" r
       /\ forall k, In k marks -> has_key k out = false.
Proof.
  intros Hd Ht primary H1 Hf Hm.
  pose proof (primary_found_eq params domain r Hd Ht H1 Hf) as E.
  fold primary in E.
  split; [exact E |].
  intros out Hout. rewrite E in Hout.
  apply formatResult_plain in Hout.
  - revert Hout. through. tauto.
  - through. exact Hf.
  - intros k Hk. rewrite has_key_set_ne; [now apply Hm |].
    destruct Hk as [<- | [<- | [<- | [<- | []]]]]; discriminate.
Qed.

(** X24. When the client of the preferred protocol throws and the other
    client returns a record, found or not, [execute] formats the record of
    the other client with [fallback_used: true] and the message of the
    error as [primary_method_error]; the outcome names the other protocol
    as its method. [primary_method_failed] is written too, but with the
    value the record had for it: [undefined] for a record of a client. *)
Theorem execute_primary_throws (params domain : value) (e1 : exn) (r2 : obj) :
  get params "domain" = Ok domain ->
  truthy domain = true ->
  let primary := if truthy (get_opt params "prefer_whois")
                 then "whois" else "rdap" in
  let fallback := if truthy (get_opt params "prefer_whois")
                  then "rdap" else "whois" in
  (if String.eqb primary "rdap" then rdapLookup else whoisLookup) domain
  = Throw e1 ->
  (if String.eqb fallback "rdap" then rdapLookup else whoisLookup) domain
  = Ok r2 ->
  e1.(exn_message) <> "" ->
  has_key "primary_method_failed" r2 = false ->
  execute rdapLookup whoisLookup now params
  = formatResult now
      (set "primary_method_error" (VStr e1.(exn_message))
         (set "fallback_used" (VBool true)
            (set "method" (VStr fallback) r2)))
      (get_opt params "include_raw")
  /\ forall out : obj,
       execute rdapLookup whoisLookup now params = Ok out ->
       lookup "fallback_used" out = VBool true
       /\ lookup "method" out = VStr fallback
       /\ lookup "primary_method_error" out = VStr e1.(exn_message)
       /\ has_key "primary_method_failed" out = true
       /\ lookup "primary_method_failed" out = VUndef.
Proof.
  intros Hd Ht primary fallback H1 H2 Hmsg Hpmf.
  assert (E : execute rdapLookup whoisLookup now params
              = formatResult now
                  (set "primary_method_error" (VStr e1.(exn_message))
                     (set "fallback_used" (VBool true)
                        (set "method" (VStr fallback) r2)))
                  (get_opt params "include_raw")).
  { unfold execute. rewrite (ObjFacts.destructure_get _ _ _ _ Hd).
    unfold mbind at 1, result_bind at 1.
    rewrite Ht. simpl negb. cbv iota.
    unfold primary, fallback in *. clear primary fallback.
    destruct (truthy (get_opt params "prefer_whois"));
      cbn in H1, H2; unfold attempt, lookupBy;
      change (String.eqb "rdap" "rdap") with true;
      change (String.eqb "whois" "rdap") with false; cbv iota;
      rewrite H1, H2; reflexivity. }
  split; [exact E |].
  intros out Hout. rewrite E in Hout. clear E.
  assert (Hmt : truthy (VStr e1.(exn_message)) = true).
  { simpl. now destruct (String.eqb_spec e1.(exn_message) ""). }
  unfold formatResult in Hout. revert Hout. through.
  rewrite (lookup_absent "primary_method_failed") by exact Hpmf.
  rewrite Hmt. cbn [truthy].
  destruct (negb (truthy (lookup "found" r2))).
  - intros [= <-]. repeat split; through; keys; reflexivity.
  - unfold mbind, result_bind.
    change (is_str (VStr fallback) "rdap") with (String.eqb fallback "rdap").
    destruct (String.eqb fallback "rdap").
    + destruct (formatRdapResult _) as [rdap |]; [| discriminate].
      intros [= <-]. repeat split; through; keys; reflexivity.
    + intros [= <-]. repeat split; through; keys; reflexivity.
Qed.

(** X25. When the client of the preferred protocol returns a record that
    is not found and the other client finds nothing either (it returns a
    record that is not found, or throws), [execute] does not throw: it
    returns the outcome of the record of the preferred protocol, with that
    protocol as method and the message of that record, without
    [fallback_used]; the error of the other client, when it threw, is the
    [fallback_error] of the outcome. *)
Theorem execute_not_found_kept (params domain : value) (r1 : obj) :
  get params "domain" = Ok domain ->
  truthy domain = true ->
  let primary := if truthy (get_opt params "prefer_whois")
                 then "whois" else "rdap" in
  let fallback := if truthy (get_opt params "prefer_whois")
                  then "rdap" else "whois" in
  (if String.eqb primary "rdap" then rdapLookup else whoisLookup) domain
  = Ok r1 ->
  truthy (lookup "found" r1) = false ->
  (forall k, In k marks -> has_key k r1 = false) ->
  match (if String.eqb fallback "rdap" then rdapLookup else whoisLookup) domain
  with
  | Ok r2 => truthy (lookup "found" r2) = false
  | Throw e2 => e2.(exn_message) <> ""
  end ->
  exists out : obj,
    execute rdapLookup whoisLookup now params = Ok out
    /\ lookup "found" out = lookup "found" r1
    /\ lookup "method" out = VStr primary
    /\ lookup "message" out
       = or_else (lookup "message" r1)
           (or_else (lookup "error" r1) (VStr "Domain not found"))
    /\ has_key "fallback_used" out = false
    /\ match (if String.eqb fallback "rdap" then rdapLookup else whoisLookup)
               domain with
       | Ok _ => has_key "fallback_error" out = false
       | Throw e2 => lookup "fallback_error" out = VStr e2.(exn_message)
       end.
Proof.
  intros Hd Ht primary fallback H1 Hf Hm H2.
  assert (Hu : forall k, In k marks -> lookup k r1 = VUndef).
  { intros k Hk. apply lookup_absent. now apply Hm. }
  assert (E : execute rdapLookup whoisLookup now params
              = formatResult now
                  (match (if String.eqb fallback "rdap"
                          then rdapLookup else whoisLookup) domain with
                   | Ok _ => set "method" (VStr primary) r1
                   | Throw e2 =>
                       set "fallback_error" (VStr e2.(exn_message))
                         (set "method" (VStr primary) r1)
                   end)
                  (get_opt params "include_raw")).
  { unfold execute. rewrite (ObjFacts.destructure_get _ _ _ _ Hd).
    unfold mbind at 1, result_bind at 1.
    rewrite Ht. simpl negb. cbv iota.
    unfold primary, fallback in *. clear primary fallback.
    destruct (truthy (get_opt params "prefer_whois"));
      cbn in H1, H2 |- *; unfold attempt, lookupBy;
      change (String.eqb "rdap" "rdap") with true;
      change (String.eqb "whois" "rdap") with false;
      change (String.eqb "rdap" "") with false;
      change (String.eqb "whois" "") with false; cbv iota;
      rewrite H1;
      match goal with
      | |- context [?f domain] => destruct (f domain) as [r2 | e2]
      end;
      unfold mbind, result_bind, try_catch; cbv beta iota;
      rewrite ?lookup_set_ne by discriminate; rewrite Hf;
      cbn [negb andb]; cbv beta iota;
      rewrite ?lookup_set_ne by discriminate; rewrite ?H2; reflexivity. }
  rewrite E. clear E. unfold formatResult.
  destruct ((if String.eqb fallback "rdap" then rdapLookup else whoisLookup)
              domain) as [r2 | e2].
  - through. rewrite Hf, (Hu "fallback_used"), (Hu "primary_method_error"),
      (Hu "fallback_error") by (simpl; tauto). cbn [truthy negb setIf].
    eexists. split; [reflexivity |]. repeat split; through; keys; reflexivity.
  - assert (Hmt : truthy (VStr e2.(exn_message)) = true).
    { simpl. now destruct (String.eqb_spec e2.(exn_message) ""). }
    through. rewrite Hf, Hmt, (Hu "fallback_used"),
      (Hu "primary_method_error") by (simpl; tauto).
    cbn [truthy negb setIf].
    eexists. split; [reflexivity |]. repeat split; through; keys; reflexivity.
Qed.

(** What [attempt] returns is the record of one of the two clients, with
    its method and with marks. *)
Lemma attempt_ok (p f : string) (domain : value) (rec : obj) :
  (p = "rdap" /\ f = "whois") \/ (p = "whois" /\ f = "rdap") ->
  attempt rdapLookup whoisLookup p f domain = Ok rec ->
  exists (m : string) (r : obj),
    ((m = "rdap" /\ rdapLookup domain = Ok r)
     \/ (m = "whois" /\ whoisLookup domain = Ok r))
    /\ lookup "method" rec = VStr m
    /\ lookup "found" rec = lookup "found" r
    /\ lookup "entities" rec = lookup "entities" r.
Proof.
  intros [[-> ->] | [-> ->]]; unfold attempt, lookupBy;
    change (String.eqb "rdap" "rdap") with true;
    change (String.eqb "whois" "rdap") with false;
    change (String.eqb "rdap" "") with false;
    change (String.eqb "whois" "") with false; cbv iota;
    destruct (rdapLookup domain) as [r1 | e1];
    destruct (whoisLookup domain) as [r2 | e2];
    unfold mbind, result_bind, try_catch; cbn [negb andb];
    repeat match goal with
           | |- context [if ?c then _ else _] => destruct c
           end;
    intros H; try discriminate H; injection H as <-;
    first [ exists "rdap", r1; split; [now left |]; through; now repeat split
          | exists "whois", r2; split; [now right |]; through;
            now repeat split ].
Qed.

Lemma attempt_throws (p f : string) (domain : value) (e : exn) :
  (p = "rdap" /\ f = "whois") \/ (p = "whois" /\ f = "rdap") ->
  attempt rdapLookup whoisLookup p f domain = Throw e ->
  exists e1 e2 : exn,
    rdapLookup domain = Throw e1 /\ whoisLookup domain = Throw e2
    /\ e = Error ("Both RDAP and WHOIS lookups failed. RDAP: "
                  +:+ e1.(exn_message) +:+ ", WHOIS: " +:+ e2.(exn_message)).
Proof.
  intros [[-> ->] | [-> ->]]; unfold attempt, lookupBy;
    change (String.eqb "rdap" "rdap") with true;
    change (String.eqb "whois" "rdap") with false;
    change (String.eqb "rdap" "") with false;
    change (String.eqb "whois" "") with false; cbv iota;
    destruct (rdapLookup domain) as [r1 | e1];
    destruct (whoisLookup domain) as [r2 | e2];
    unfold mbind, result_bind, try_catch; cbn [negb andb];
    repeat match goal with
           | |- context [if ?c then _ else _] => destruct c
           end;
    intros H; try discriminate H; injection H as <-;
    exists e1, e2; repeat split; reflexivity.
Qed.

(** [execute] throws for a call without a domain and when both clients
    throw, and in no other case, as long as the entities of a found record
    of the RDAP client are objects. *)
Lemma execute_throws (params : value) (e : exn) :
  (forall domain r, rdapLookup domain = Ok r ->
     truthy (lookup "found" r) = false
     \/ exists l, lookup "entities" r = VArr (map VObj l)) ->
  execute rdapLookup whoisLookup now params = Throw e ->
  destructure "params" params "domain" = Throw e
  \/ e = Error "Domain parameter is required"
  \/ exists (domain : value) (e1 e2 : exn),
       get params "domain" = Ok domain
       /\ rdapLookup domain = Throw e1
       /\ whoisLookup domain = Throw e2
       /\ e = Error ("Both RDAP and WHOIS lookups failed. RDAP: "
                     +:+ e1.(exn_message) +:+ ", WHOIS: "
                     +:+ e2.(exn_message)).
Proof.
  intros Hrdap. unfold execute.
  destruct (destructure "params" params "domain") as [domain | e0] eqn:Hdes;
    [| intros [= <-]; now left].
  apply destructure_returns in Hdes.
  unfold mbind at 1, result_bind at 1.
  destruct (truthy domain); cbn [negb]; [| intros [= <-]; right; now left].
  set (p := if truthy (get_opt params "prefer_whois") then "whois" else "rdap").
  set (f := if truthy (get_opt params "prefer_whois") then "rdap" else "whois").
  assert (Hpf : (p = "rdap" /\ f = "whois") \/ (p = "whois" /\ f = "rdap")).
  { unfold p, f. destruct (truthy _); auto. }
  unfold mbind, result_bind.
  destruct (attempt _ _ p f domain) as [rec | e'] eqn:Ea.
  - intros Hfmt. exfalso.
    apply (attempt_ok p f domain rec Hpf) in Ea
      as (m & r & Hm & Hmeth & Hfound & Hent).
    destruct (formatResult_returns now rec (get_opt params "include_raw"))
      as [out Ho]; [| congruence].
    destruct Hm as [[-> Hr] | [-> Hr]].
    + destruct (Hrdap _ _ Hr) as [Hf | Hl].
      * left. now rewrite Hfound.
      * right. right. now rewrite Hent.
    + right. left. rewrite Hmeth. reflexivity.
  - intros [= <-]. right. right.
    apply (attempt_throws p f domain e' Hpf) in Ea
      as (e1 & e2 & H1 & H2 & ->).
    exists domain, e1, e2. auto.
Qed.

End Clients.

Lemma execute_fallback_found_witness :
  (exists out : obj,
     run Samples.strictEngine Samples.rdapMissWhoisHit
         RegistryDetector.rdapBootstrap 0 Samples.exampleParams = Ok out
     /\ lookup "fallback_used" out = VBool true
     /\ lookup "method" out = VStr "whois"
     /\ lookup "primary_method_failed" out = VStr "rdap")
  /\ (exists out : obj,
        execute (clientOf Samples.strictEngine Cases.rdapHit
                   RegistryDetector.rdapBootstrap "rdap")
                Cases.whoisMiss 0 Cases.preferWhois = Ok out
        /\ lookup "fallback_used" out = VBool true
        /\ lookup "method" out = VStr "rdap"
        /\ lookup "primary_method_failed" out = VStr "whois").
Proof.
  split.
  - set (rdap := clientOf Samples.strictEngine Samples.rdapMissWhoisHit
                   RegistryDetector.rdapBootstrap "rdap").
    set (whois := clientOf Samples.strictEngine Samples.rdapMissWhoisHit
                    RegistryDetector.rdapBootstrap "whois").
    refine (execute_fallback_found rdap whois 0 Samples.exampleParams
              (VStr "example.com")
              (Cases.recordOf (rdap (VStr "example.com")))
              (Cases.recordOf (whois (VStr "example.com")))
              _ _ _ _ _ _ _); try (vm_compute; reflexivity).
    intros H. discriminate H.
  - set (rdap := clientOf Samples.strictEngine Cases.rdapHit
                   RegistryDetector.rdapBootstrap "rdap").
    assert (Hr : fst (RdapClient.lookupDomain Cases.rdapHit
                        RegistryDetector.rdapBootstrap (VStr "example.com"))
                 = Ok (Cases.recordOf (rdap (VStr "example.com"))))
      by (vm_compute; reflexivity).
    refine (execute_fallback_found rdap Cases.whoisMiss 0 Cases.preferWhois
              (VStr "example.com")
              (Cases.recordOf (Cases.whoisMiss (VStr "example.com")))
              (Cases.recordOf (rdap (VStr "example.com")))
              _ _ _ _ _ _ _); try (vm_compute; reflexivity).
    intros _.
    apply rdap_record in Hr as [[clean E] | (data & clean & E)].
    + assert (Hf : lookup "found" (Cases.recordOf (rdap (VStr "example.com")))
                   = VBool true) by (vm_compute; reflexivity).
      rewrite E in Hf. discriminate Hf.
    + exact (proj1 (proj2 (proj2 (proj2 (parsed_record _ _ _ E))))).
Defined.

Lemma execute_primary_found_witness :
  exists out : obj,
    run Samples.strictEngine Cases.rdapHit RegistryDetector.rdapBootstrap 0
        Samples.exampleParams = Ok out
    /\ lookup "method" out = VStr "rdap"
    /\ has_key "fallback_used" out = false.
Proof.
  set (r := Cases.recordOf
              (clientOf Samples.strictEngine Cases.rdapHit
                 RegistryDetector.rdapBootstrap "rdap" (VStr "example.com"))).
  destruct (execute_primary_found
              (clientOf Samples.strictEngine Cases.rdapHit
                 RegistryDetector.rdapBootstrap "rdap")
              (clientOf Samples.strictEngine Cases.rdapHit
                 RegistryDetector.rdapBootstrap "whois")
              0 Samples.exampleParams (VStr "example.com") r)
    as [E Hout].
  - reflexivity.
  - reflexivity.
  - vm_compute. reflexivity.
  - vm_compute. reflexivity.
  - intros k [<- | [<- | [<- | [<- | []]]]]; vm_compute; reflexivity.
  - assert (H : exists out,
               execute
                 (clientOf Samples.strictEngine Cases.rdapHit
                    RegistryDetector.rdapBootstrap "rdap")
                 (clientOf Samples.strictEngine Cases.rdapHit
                    RegistryDetector.rdapBootstrap "whois")
                 0 Samples.exampleParams = Ok out)
      by (rewrite E; eexists; vm_compute; reflexivity).
    destruct H as [out Ho]. exists out. unfold run.
    split; [exact Ho |].
    destruct (Hout out Ho) as (Hm & _ & _ & Hk).
    split; [exact Hm |]. apply Hk. simpl. tauto.
Defined.

Lemma execute_primary_throws_witness :
  exists out : obj,
    run Samples.strictEngine (Samples.rdapStatus 503 "Service Unavailable")
        RegistryDetector.rdapBootstrap 0 Samples.exampleParams = Ok out
    /\ lookup "fallback_used" out = VBool true
    /\ lookup "method" out = VStr "whois"
    /\ lookup "primary_method_error" out
       = VStr "RDAP query failed: 503 Service Unavailable"
    /\ lookup "primary_method_failed" out = VUndef.
Proof.
  set (net := Samples.rdapStatus 503 "Service Unavailable").
  set (r2 := Cases.recordOf
               (clientOf Samples.strictEngine net
                  RegistryDetector.rdapBootstrap "whois" (VStr "example.com"))).
  destruct (execute_primary_throws
              (clientOf Samples.strictEngine net
                 RegistryDetector.rdapBootstrap "rdap")
              (clientOf Samples.strictEngine net
                 RegistryDetector.rdapBootstrap "whois")
              0 Samples.exampleParams (VStr "example.com")
              (Error "RDAP query failed: 503 Service Unavailable") r2)
    as [E Hout].
  - reflexivity.
  - reflexivity.
  - vm_compute. reflexivity.
  - vm_compute. reflexivity.
  - discriminate.
  - vm_compute. reflexivity.
  - assert (H : exists out,
               execute
                 (clientOf Samples.strictEngine net
                    RegistryDetector.rdapBootstrap "rdap")
                 (clientOf Samples.strictEngine net
                    RegistryDetector.rdapBootstrap "whois")
                 0 Samples.exampleParams = Ok out)
      by (rewrite E; eexists; vm_compute; reflexivity).
    destruct H as [out Ho]. exists out. unfold run.
    split; [exact Ho |].
    destruct (Hout out Ho) as (H1 & H2 & H3 & _ & H5). auto.
Defined.

Lemma execute_not_found_kept_witness :
  exists out : obj,
    run Samples.strictEngine Cases.rdapMissWhoisBroken
        RegistryDetector.rdapBootstrap 0 Samples.exampleParams = Ok out
    /\ lookup "found" out = VBool false
    /\ lookup "method" out = VStr "rdap"
    /\ lookup "message" out = VStr "Domain not found in registry"
    /\ lookup "fallback_error" out
       = VStr "WHOIS lookup failed: whoisText.split is not a function".
Proof.
  destruct (execute_not_found_kept
              (clientOf Samples.strictEngine Cases.rdapMissWhoisBroken
                 RegistryDetector.rdapBootstrap "rdap")
              (clientOf Samples.strictEngine Cases.rdapMissWhoisBroken
                 RegistryDetector.rdapBootstrap "whois")
              0 Samples.exampleParams (VStr "example.com")
              (RdapClient.notFound "example.com"))
    as (out & Ho & H1 & H2 & H3 & _ & H5).
  - reflexivity.
  - reflexivity.
  - vm_compute. reflexivity.
  - reflexivity.
  - intros k [<- | [<- | [<- | [<- | []]]]]; reflexivity.
  - vm_compute. discriminate.
  - exists out. split; [exact Ho |]. split; [exact H1 |].
    split; [exact H2 |]. split; [exact H3 |].
    revert H5. vm_compute. trivial.
Defined.

End ExecuteFacts.

(** *** The tool with its two clients, and the server *)

Module RunFacts.
Import Js JsVal Net DomainLookupTool ObjFacts ObjMore ToolFacts Marks ToolMore
  ExecuteFacts.

(** X26. Whatever the WHOIS client returns is a record with [found: true]
    and the source [whois], for the domain in lower case and trimmed: it
    has no way to report a domain as not found. *)
Theorem whois_never_not_found (eng : JsDate.engine) (net : network)
    (domain : value) (r : obj) :
  WhoisClient.lookupDomain eng net domain = Ok r ->
  lookup "found" r = VBool true
  /\ lookup "source" r = VStr "whois"
  /\ exists d, domain = VStr d /\ d <> ""
               /\ lookup "domain" r = VStr (trim (toLowerCase d)).
Proof.
  intros H. split; [exact (whois_lookup_found _ _ _ _ H) |].
  revert H. unfold WhoisClient.lookupDomain.
  destruct domain as [| | b | n | d | l | o]; try discriminate.
  destruct (String.eqb_spec d ""); [discriminate |].
  destruct (negb _); [discriminate |].
  unfold try_catch, mbind, result_bind.
  destruct (RegistryDetector.getWhoisServer _) as [server |]; [| discriminate].
  set (answer := WhoisClient.queryWhoisServer net server _).
  destruct (truthy answer && WhoisClient.isObject answer && _).
  - destruct (WhoisClient.formatApiResponse _ _) as [r' |] eqn:E;
      [| discriminate].
    intros [= <-].
    apply ApiFacts.formatApiResponse_ok in E as (rec & -> & Hrec).
    assert (Hd : rec.(WhoisClient.domain) = trim (toLowerCase d)).
    { destruct Hrec as [-> | [text Ht]]; [reflexivity |].
      unfold WhoisClient.enrichFromRawData, mbind, result_bind in Ht.
      destruct (WhoisClient.enrichRegistrant _ _); [| discriminate].
      now injection Ht as <-. }
    split; [reflexivity |]. exists d. split; [reflexivity |].
    split; [assumption |]. unfold WhoisClient.toObject. cbn [app lookup].
    now rewrite <- Hd.
  - unfold WhoisClient.parseWhoisResponse.
    pose proof (queryWhoisServer_truthy net server (trim (toLowerCase d))) as Ht.
    fold answer in Ht. rewrite Ht. cbn [negb].
    destruct answer; try discriminate.
    intros [= <-]. split; [reflexivity |]. exists d. now repeat split.
Qed.

Lemma whois_never_not_found_witness :
  exists r : obj,
    WhoisClient.lookupDomain Samples.strictEngine Samples.offline
      (VStr "example.com") = Ok r
    /\ lookup "found" r = VBool true.
Proof.
  assert (H : exists r,
             WhoisClient.lookupDomain Samples.strictEngine Samples.offline
               (VStr "example.com") = Ok r)
    by (eexists; vm_compute; reflexivity).
  destruct H as [r Hr]. exists r. split; [exact Hr |].
  exact (proj1 (whois_never_not_found _ _ _ _ Hr)).
Defined.

(** X27. With [prefer_whois], whenever the WHOIS client returns, the tool
    returns the outcome of its record: the method is [whois], the domain is
    found, and there is no mark of a fallback. The RDAP client is consulted
    only when the WHOIS client throws. *)
Theorem prefer_whois_answers (eng : JsDate.engine) (net : network)
    (cache : gmap string string) (now : Z) (params domain : value) (r : obj) :
  get params "domain" = Ok domain ->
  truthy (get_opt params "prefer_whois") = true ->
  WhoisClient.lookupDomain eng net domain = Ok r ->
  run eng net cache now params
  = formatResult now (set "method" (VStr "whois") r)
      (get_opt params "include_raw")
  /\ exists out : obj,
       run eng net cache now params = Ok out
       /\ lookup "method" out = VStr "whois"
       /\ lookup "found" out = VBool true
       /\ forall k, In k marks -> has_key k out = false.
Proof.
  intros Hd Hp Hr.
  pose proof (whois_lookup_found _ _ _ _ Hr) as Hf.
  assert (E : run eng net cache now params
              = formatResult now (set "method" (VStr "whois") r)
                  (get_opt params "include_raw")).
  { unfold run.
    rewrite (primary_found_eq _ _ now params domain r Hd
               (whois_domain_truthy _ _ _ _ Hr)); rewrite ?Hp;
      [reflexivity | exact Hr | now rewrite Hf]. }
  split; [exact E |].
  destruct (formatResult_returns now (set "method" (VStr "whois") r)
              (get_opt params "include_raw")) as [out Ho].
  { right. left. through. reflexivity. }
  exists out. rewrite E. split; [exact Ho |].
  apply formatResult_plain in Ho.
  - revert Ho. through. rewrite Hf. tauto.
  - through. now rewrite Hf.
  - intros k Hk. rewrite has_key_set_ne.
    + exact (whois_record_unmarked _ _ _ _ _ Hr Hk).
    + destruct Hk as [<- | [<- | [<- | [<- | []]]]]; discriminate.
Qed.

Lemma prefer_whois_answers_witness :
  exists out : obj,
    run Samples.strictEngine Samples.rdapMissWhoisHit
        RegistryDetector.rdapBootstrap 0
        (VObj [("domain", VStr "example.com"); ("prefer_whois", VBool true)])
    = Ok out
    /\ lookup "method" out = VStr "whois"
    /\ lookup "found" out = VBool true.
Proof.
  destruct (prefer_whois_answers Samples.strictEngine Samples.rdapMissWhoisHit
              RegistryDetector.rdapBootstrap 0
              (VObj [("domain", VStr "example.com");
                     ("prefer_whois", VBool true)])
              (VStr "example.com")
              (Cases.recordOf
                 (WhoisClient.lookupDomain Samples.strictEngine
                    Samples.rdapMissWhoisHit (VStr "example.com"))))
    as [_ (out & Ho & Hm & Hf & _)].
  - reflexivity.
  - reflexivity.
  - vm_compute. reflexivity.
  - exists out. auto.
Defined.

(** A record of the RDAP client is not found, or its entities are
    objects. *)
Lemma rdap_client_record (net : network) (cache : gmap string string)
    (domain : value) (r : obj) :
  fst (RdapClient.lookupDomain net cache domain) = Ok r ->
  truthy (lookup "found" r) = false
  \/ exists l, lookup "entities" r = VArr (map VObj l).
Proof.
  intros Hr. apply rdap_record in Hr as [[clean ->] | (data & clean & Hp)].
  - now left.
  - right. now apply parsed_record in Hp.
Qed.

(** X28. The tool throws in three situations only: the parameters are
    [undefined] or [null], and destructuring them throws a [TypeError] that
    names [domain] and [params]; the [domain] of the parameters is falsy;
    or both clients throw, and then the message names the messages of
    both. A record one of the clients returns is always turned into an
    outcome: formatting does not fail on it. *)
Theorem run_throws_only (eng : JsDate.engine) (net : network)
    (cache : gmap string string) (now : Z) (params : value) (e : exn) :
  run eng net cache now params = Throw e ->
  (params = VUndef
   /\ e = TypeError "Cannot destructure property 'domain' of 'params' as it is undefined.")
  \/ (params = VNull
      /\ e = TypeError "Cannot destructure property 'domain' of 'params' as it is null.")
  \/ e = Error "Domain parameter is required"
  \/ exists (domain : value) (e1 e2 : exn),
       get params "domain" = Ok domain
       /\ fst (RdapClient.lookupDomain net cache domain) = Throw e1
       /\ WhoisClient.lookupDomain eng net domain = Throw e2
       /\ e = Error ("Both RDAP and WHOIS lookups failed. RDAP: "
                     +:+ e1.(exn_message) +:+ ", WHOIS: "
                     +:+ e2.(exn_message)).
Proof.
  intros H. unfold run in H. apply execute_throws in H.
  - destruct H as [H | H]; [| right; right; exact H].
    apply destructure_throws in H as [[-> ->] | [-> ->]].
    + left. split; reflexivity.
    + right. left. split; reflexivity.
  - intros domain r Hr. exact (rdap_client_record net cache domain r Hr).
Qed.

Lemma run_throws_only_witness :
  exists e1 e2 : exn,
    fst (RdapClient.lookupDomain Samples.bothBroken
           RegistryDetector.rdapBootstrap (VStr "example.com")) = Throw e1
    /\ WhoisClient.lookupDomain Samples.strictEngine Samples.bothBroken
         (VStr "example.com") = Throw e2.
Proof.
  destruct (run_throws_only Samples.strictEngine Samples.bothBroken
              RegistryDetector.rdapBootstrap 0 Samples.exampleParams
              (Error "Both RDAP and WHOIS lookups failed. RDAP: RDAP query failed: 503 Service Unavailable, WHOIS: WHOIS lookup failed: whoisText.split is not a function"))
    as [[H _] | [[H _] | [H | (domain & e1 & e2 & Hd & H1 & H2 & _)]]].
  - vm_compute. reflexivity.
  - discriminate H.
  - discriminate H.
  - discriminate H.
  - injection Hd as <-. exists e1, e2. split; assumption.
Defined.

(** **** The handler of the server *)

(** X29. The handler of the server never throws: for a tool name other
    than [domain_lookup] it replies [Error: Unknown tool: ] and the name;
    for [domain_lookup] it replies the outcome as text when the tool
    returns, and an error reply when the tool throws. An error reply of
    [domain_lookup] reads [Error: Domain parameter is required],
    [Error: Both RDAP and WHOIS lookups failed. ...] with the messages of
    the two clients, or, when the arguments of the call are [undefined] or
    [null], [Error: ] and the message of destructuring them. *)
Theorem callTool_replies (eng : JsDate.engine) (net : network)
    (cache : gmap string string) (now : Z) (stringify : obj -> string)
    (name : string) (args : value) :
  let reply := McpServer.callTool (run eng net cache now) stringify name args in
  (name <> "domain_lookup" ->
   reply = {| McpServer.text := "Error: Unknown tool: " +:+ name;
              McpServer.isError := true |})
  /\ (name = "domain_lookup" ->
      forall out, run eng net cache now args = Ok out ->
        reply = {| McpServer.text := stringify out;
                   McpServer.isError := false |})
  /\ (name = "domain_lookup" ->
      reply.(McpServer.isError) = true ->
      (args = VUndef
       /\ reply.(McpServer.text)
          = "Error: Cannot destructure property 'domain' of 'params' as it is undefined.")
      \/ (args = VNull
          /\ reply.(McpServer.text)
             = "Error: Cannot destructure property 'domain' of 'params' as it is null.")
      \/ reply.(McpServer.text) = "Error: Domain parameter is required"
      \/ exists (domain : value) (e1 e2 : exn),
           get args "domain" = Ok domain
           /\ fst (RdapClient.lookupDomain net cache domain) = Throw e1
           /\ WhoisClient.lookupDomain eng net domain = Throw e2
           /\ reply.(McpServer.text)
              = "Error: Both RDAP and WHOIS lookups failed. RDAP: "
                +:+ e1.(exn_message) +:+ ", WHOIS: " +:+ e2.(exn_message)).
Proof.
  cbv zeta. unfold McpServer.callTool. split; [| split].
  - intros Hne. destruct (String.eqb_spec name "domain_lookup");
      [contradiction | reflexivity].
  - intros -> out Ho. rewrite String.eqb_refl, Ho. reflexivity.
  - intros ->. rewrite String.eqb_refl. unfold mbind, result_bind.
    destruct (run eng net cache now args) as [out | e] eqn:E;
      [discriminate |].
    intros _. cbn [McpServer.text].
    unfold run in E. apply execute_throws in E;
      [| intros domain r Hr; exact (rdap_client_record net cache domain r Hr)].
    destruct E as [E | [-> | (domain & e1 & e2 & Hd & H1 & H2 & ->)]].
    + apply destructure_throws in E as [[-> ->] | [-> ->]].
      * left. split; reflexivity.
      * right. left. split; reflexivity.
    + right. right. now left.
    + right. right. right. exists domain, e1, e2. auto.
Qed.

End RunFacts.

(** *** [extractWhoisFromHtml] *)

Module HtmlFacts.
Import Js Regex WhoisHtml HostNames AlphabetFacts JsFacts.

Example extract_samples :
  extractWhoisFromHtml
    ("<html><PRE class=x>" +:+ String WhoisClient.nl
       "Domain: a &amp;lt; b &lt;c&gt; </pre></html>")
  = Some "Domain: a &lt; b <c>"
  /\ extractWhoisFromHtml "<pre></pre><code>Registrar: X</code>"
     = Some "Registrar: X"
  /\ extractWhoisFromHtml
       ("<div class=" +:+ String quote ("whois-data" +:+ String quote
          " id=w>Status: ok</div>"))
     = Some "Status: ok"
  /\ extractWhoisFromHtml "<p>Status: ok</p>" = None.
Proof. vm_compute. repeat split; reflexivity. Qed.

Lemma indexOf_app_l (a b : string) (c : ascii) :
  indexOf (a +:+ b) c = None -> indexOf b c = None.
Proof.
  induction a as [|x a IH]; [trivial |].
  rewrite append_cons. simpl. destruct (Ascii.eqb x c); [discriminate |].
  destruct (indexOf (a +:+ b) c); [discriminate | auto].
Qed.

Lemma canon_lt (c : ascii) :
  Ascii.eqb (canon true "<") (canon true c) = true -> c = "<"%char.
Proof.
  intros H.
  assert (Hall : forallb (fun c => implb (Ascii.eqb (canon true "<") (canon true c))
                                         (Ascii.eqb c "<")) allChars = true)
    by (vm_compute; reflexivity).
  rewrite forallb_forall in Hall. specialize (Hall c (allChars_complete c)).
  rewrite H in Hall. now apply Ascii.eqb_eq.
Qed.

(** A match of [<] needs a [<]. *)
Lemma lit_lt {A} (k : cont (A:=A)) (rest : string) (x : A) :
  one (fun c => Ascii.eqb (canon true "<") (canon true c)) k rest = Some x ->
  indexOf rest "<" <> None.
Proof.
  unfold one. destruct rest as [|c r]; [discriminate |].
  destruct (Ascii.eqb (canon true "<") (canon true c)) eqn:E; [| discriminate].
  apply canon_lt in E. subst c. intros _. simpl. discriminate.
Qed.

Lemma no_match_without_lt (p : grouped) (html : string) :
  In p htmlPatterns ->
  indexOf html "<" = None -> match1 true p html = None.
Proof.
  intros Hin Hlt. unfold match1, exec1.
  destruct (scan _ 0 html) as [x |] eqn:E; [exfalso | reflexivity].
  apply scan_some in E as (sk & rest & -> & E).
  apply indexOf_app_l in Hlt.
  destruct Hin as [<- | [<- | [<- | []]]]; cbn [before group after] in E.
  - cbn [seq lit m] in E. now apply lit_lt in E.
  - cbn [seq lit m] in E. now apply lit_lt in E.
  - apply m_sound in E as (u1 & r1 & -> & E & _).
    apply m_sound in E as (u2 & r2 & -> & E & _).
    cbn [m] in E. apply lit_lt in E.
    now apply indexOf_app_l, indexOf_app_l in Hlt.
Qed.

(** X30. [extractWhoisFromHtml] returns [null] for every text without a
    [<]: a plain WHOIS text that is no HTML gives nothing. *)
Theorem extractWhoisFromHtml_plain_text (html : string) :
  indexOf html "<" = None -> extractWhoisFromHtml html = None.
Proof.
  intros Hlt. unfold extractWhoisFromHtml.
  assert (H : forall ps, (forall p, In p ps -> In p htmlPatterns) ->
                         extractLoop ps html = None).
  { induction ps as [|p ps IH]; intros Hps; [reflexivity |].
    simpl. rewrite (no_match_without_lt p html) by (auto using in_eq).
    apply IH. intros q Hq. apply Hps. now right. }
  apply H. auto.
Qed.

Lemma extractWhoisFromHtml_plain_text_witness :
  extractWhoisFromHtml "Domain Name: example.com & more > text" = None.
Proof.
  apply extractWhoisFromHtml_plain_text. reflexivity.
Defined.

End HtmlFacts.
